(** * Failure-triage pipeline (analyze-failure script)

    A shallow embedding of the CI-failure analysis commenter: the script
    reads its inputs from the environment, lists the jobs of a workflow
    run, extracts the salient lines of the logs of the failed jobs, builds
    a prompt, asks a hosted model for a diagnosis and posts it as a
    comment.

    JavaScript strings are represented by [string]: the sequence of the
    bytes of their UTF-8 encoding.  All the patterns the script searches
    for and splits on are ASCII, so that searching and splitting on the
    bytes agree with the same operations on UTF-16 code units. *)

From Stdlib Require Import String Ascii List ZArith Lia Bool Arith.
From Stdlib Require Import DecimalString DecimalNat.
Import ListNotations.

Open Scope string_scope.

(** ** JavaScript string primitives *)

Module JsString.

(** The line-feed character, ['\n']. *)
Definition LF : ascii := "010"%char.
Definition nl : string := String LF EmptyString.
(** The double quote character. *)
Definition dquote : string := String "034"%char EmptyString.

(** [s.split(sep)] for a one-character separator: the fields between the
    occurrences of [sep], always at least one field. *)
Fixpoint split (sep : ascii) (s : string) : list string :=
  match s with
  | EmptyString => [EmptyString]
  | String c s' =>
      if Ascii.eqb c sep then EmptyString :: split sep s'
      else match split sep s' with
           | [] => [String c EmptyString]
           | l :: ls => String c l :: ls
           end
  end.

(** [s.includes(pat)]. *)
Fixpoint includes (s pat : string) : bool :=
  prefix pat s ||
  match s with
  | EmptyString => false
  | String _ s' => includes s' pat
  end.

(** [l.join(sep)]. *)
Definition join (sep : string) (l : list string) : string :=
  String.concat sep l.

(** [l.slice(-n)]: the last [n] elements, or all of [l] when it has fewer. *)
Definition slice_last {A : Type} (n : nat) (l : list A) : list A :=
  skipn (length l - n) l.

(** [pat] occurs in [s]: the specification of [includes]. *)
Definition substring_of (pat s : string) : Prop :=
  exists p q, s = p ++ pat ++ q.

(** [s] starts with [pat]. *)
Definition starts_with (s pat : string) : Prop :=
  exists q, s = pat ++ q.


End JsString.

Import JsString.

(** ** Stage 2: salient-line extraction *)

(** The filter predicate of [errorLines]: five independent, case-sensitive
    substring tests. *)
Definition isSalient (line : string) : bool :=
  includes line "Error" ||
  includes line "FAILED" ||
  includes line "error:" ||
  includes line "ERROR" ||
  includes line "FAILURE".

Definition salientPatterns : list string :=
  ["Error"; "FAILED"; "error:"; "ERROR"; "FAILURE"].

(** [logText.split('\n').filter(...).slice(-10)]. *)
Definition errorLines (logText : string) : list string :=
  slice_last 10 (filter isSalient (split LF logText)).

(** ** More string primitives: [trim] and [parseInt] *)

Module JsText.

(** One-byte white space: TAB, LF, VT, FF, CR and SPACE. *)
Definition is_ws1 (a : ascii) : bool :=
  let n := N_of_ascii a in
  ((9 <=? n) && (n <=? 13) || (n =? 32))%N.

(** Two-byte white space: U+00A0. *)
Definition is_ws2 (a b : ascii) : bool :=
  match N_of_ascii a, N_of_ascii b with
  | 194%N, 160%N => true
  | _, _ => false
  end.

(** Three-byte white space: U+1680, U+2000..U+200A, U+2028, U+2029,
    U+202F, U+205F, U+3000 and U+FEFF. *)
Definition is_ws3 (a b c : ascii) : bool :=
  match N_of_ascii a, N_of_ascii b, N_of_ascii c with
  | 225%N, 154%N, 128%N => true
  | 226%N, 128%N, n =>
      ((128 <=? n) && (n <=? 138) || (n =? 168) || (n =? 169) || (n =? 175))%N
  | 226%N, 129%N, 159%N => true
  | 227%N, 128%N, 128%N => true
  | 239%N, 187%N, 191%N => true
  | _, _, _ => false
  end.

(** Strip the white space at the front of a byte list.  With [flip] the
    list is read back to front, so that the bytes of a character come in
    the opposite order. *)
Fixpoint strip (flip : bool) (s : list ascii) : list ascii :=
  match s with
  | a :: r1 =>
      if is_ws1 a then strip flip r1
      else
        match r1 with
        | b :: r2 =>
            if (if flip then is_ws2 b a else is_ws2 a b) then strip flip r2
            else
              match r2 with
              | c :: r3 =>
                  if (if flip then is_ws3 c b a else is_ws3 a b c)
                  then strip flip r3
                  else s
              | [] => s
              end
        | [] => s
        end
  | [] => s
  end.

Definition trimStart (s : string) : string :=
  string_of_list_ascii (strip false (list_ascii_of_string s)).

Definition trimEnd (s : string) : string :=
  string_of_list_ascii (rev (strip true (rev (list_ascii_of_string s)))).

(** [s.trim()]. *)
Definition trim (s : string) : string := trimEnd (trimStart s).




(** The value of [c] as a digit in the given radix. *)
Definition digit_value (radix : Z) (c : ascii) : option Z :=
  let n := Z.of_N (N_of_ascii c) in
  let v :=
    if ((48 <=? n) && (n <=? 57))%Z then Some (n - 48)%Z
    else if ((97 <=? n) && (n <=? 122))%Z then Some (n - 87)%Z
    else if ((65 <=? n) && (n <=? 90))%Z then Some (n - 55)%Z
    else None in
  match v with
  | Some d => if (d <? radix)%Z then Some d else None
  | None => None
  end.

(** The longest prefix of digits, read in the radix; [None] when it is
    empty. *)
Fixpoint parse_digits (radix : Z) (acc : option Z) (s : string) : option Z :=
  match s with
  | String c s' =>
      match digit_value radix c with
      | Some d =>
          parse_digits radix
            (Some (match acc with Some a => a * radix + d | None => d end)%Z) s'
      | None => acc
      end
  | EmptyString => acc
  end.

(** A JavaScript number as [parseInt] returns it: [NaN], an infinity, or
    a double whose value is an integer, given by its sign and its
    magnitude; [Double true 0] is [-0]. *)
Inductive JsNumber : Type :=
| NaN
| Infinity (negative : bool)
| Double (negative : bool) (magnitude : Z).

(** The double nearest to a natural number [n]: numbers below [2 ^ 53]
    are doubles; above, the significand keeps 53 bits and the rest is
    rounded to the nearest, a tie going to the even significand.  [None]
    when the result is beyond the largest double. *)
Definition to_double (n : Z) : option Z :=
  if (n <? 2 ^ 53)%Z then Some n
  else
    let e := (Z.log2 n - 52)%Z in
    let q := Z.shiftr n e in
    let r := (n - Z.shiftl q e)%Z in
    let half := Z.shiftl 1 (e - 1) in
    let q' :=
      if (half <? r)%Z || ((r =? half)%Z && Z.odd q) then (q + 1)%Z else q in
    let v := Z.shiftl q' e in
    if (v <? 2 ^ 1024)%Z then Some v else None.

(** The number with the given sign and the magnitude nearest to [n]. *)
Definition number_of (negative : bool) (n : Z) : JsNumber :=
  match to_double n with
  | Some v => Double negative v
  | None => Infinity negative
  end.

(** [parseInt(s)] without a radix: leading white space, a sign, an
    optional [0x] prefix, then the digits.  Without a digit the result is
    [NaN]; otherwise it is the value of the digits as a double, with the
    sign. *)
Definition parseInt (s : string) : JsNumber :=
  let s0 := trimStart s in
  let '(negative, s1) :=
    match s0 with
    | String "-" r => (true, r)
    | String "+" r => (false, r)
    | _ => (false, s0)
    end in
  let '(radix, s2) :=
    match s1 with
    | String "0" (String "x" r) => (16%Z, r)
    | String "0" (String "X" r) => (16%Z, r)
    | _ => (10%Z, s1)
    end in
  match parse_digits radix None s2 with
  | Some n => number_of negative n
  | None => NaN
  end.

End JsText.

Import JsText.

(** ** Values exchanged with the services *)

(** A thrown JavaScript error. *)
Record JsError : Type := mkError { err_name : string; err_message : string }.

(** The settlement of an awaited promise. *)
Inductive response (A : Type) : Type :=
| Resolved (a : A)
| Rejected (e : JsError).
Arguments Resolved {A} a.
Arguments Rejected {A} e.

(** A parsed JSON document. *)
#[warnings="-register-all"]
Inductive json : Type :=
| JNull
| JBool (b : bool)
| JNumber (literal : string)
| JString (s : string)
| JArray (items : list json)
| JObject (members : list (string * json)).

(** One entry of [jobs.data.jobs]; [None] is JSON [null]. *)
Record Job : Type := mkJob {
  job_id : Z;
  job_name : string;
  job_conclusion : option string;
  job_started_at : option string;
  job_completed_at : option string
}.

(** The variables the script reads from [process.env]; [None] is
    [undefined]. *)
Record Env : Type := mkEnv {
  WORKFLOW_RUN_ID : option string;
  WORKFLOW_NAME : option string;
  HEAD_SHA : option string;
  PULL_REQUEST_NUMBER : option string;
  GITHUB_TOKEN : option string;
  GITHUB_REPOSITORY : option string;
  AWS_ACCESS_KEY_ID : option string;
  AWS_SECRET_ACCESS_KEY : option string;
  AWS_SESSION_TOKEN : option string;
  AWS_REGION : option string
}.

Record Credentials : Type := mkCredentials {
  accessKeyId : option string;
  secretAccessKey : option string;
  sessionToken : option string
}.

Record BedrockConfig : Type := mkBedrockConfig {
  region : string;
  credentials : Credentials
}.

Record Message : Type := mkMessage { role : string; content : string }.

(** The object given to [JSON.stringify] for the request body. *)
Record RequestBody : Type := mkRequestBody {
  anthropic_version : string;
  max_tokens : Z;
  messages : list Message
}.

Record InvokeModelCommand : Type := mkInvokeModelCommand {
  modelId : string;
  body : RequestBody;
  contentType : string;
  accept : string
}.

(** What the process does that can be observed from outside, in order.
    [ConsoleLog] is a call of [console.log] whose output is known: one
    argument, or a first argument without a format directive followed by
    a text.  [ConsoleLogFormat] is the call [console.log(format, argument)]
    with a first argument that is not a constant: Node formats the two
    with [util.format], so that a [%] directive in [format] consumes
    [argument]; the event keeps the two arguments of the call. *)
Inductive event : Type :=
| ConsoleLog (line : string)
| ConsoleLogFormat (format : string) (argument : string)
| ConsoleError (line : string) (err : option JsError)
| GetWorkflowRun (owner : string) (repo : option string) (run_id : option string)
| ListJobsForWorkflowRun (owner : string) (repo : option string)
    (run_id : option string)
| DownloadJobLogsForWorkflowRun (owner : string) (repo : option string)
    (id : Z)
| Send (cfg : BedrockConfig) (command : InvokeModelCommand)
| CreateComment (owner : string) (repo : option string)
    (issue_number : JsNumber) (body : string)
| CreateCommitComment (owner : string) (repo : option string)
    (commit_sha : option string) (body : string).

(** The services, as the answers they give to each request.  The GitHub
    token is part of the service.  [send] answers with the JSON document
    that the bytes of the response body decode and parse to, [None] when
    [JSON.parse] rejects them. *)
Record World : Type := mkWorld {
  getWorkflowRun : string -> option string -> option string -> response json;
  listJobsForWorkflowRun :
    string -> option string -> option string -> response (list Job);
  downloadJobLogsForWorkflowRun :
    string -> option string -> Z -> response (option string);
  send : BedrockConfig -> InvokeModelCommand -> response (option json);
  createComment :
    string -> option string -> JsNumber -> string -> response unit;
  createCommitComment :
    string -> option string -> option string -> string -> response unit
}.

(** ** Control flow: results, exceptions, process exit and the trace *)

(** How a piece of the script ends: normally with a value, by a thrown
    error, or by [process.exit(code)]. *)
Inductive outcome (A : Type) : Type :=
| Normal (a : A)
| Throw (e : JsError)
| Exit (code : Z).
Arguments Normal {A} a.
Arguments Throw {A} e.
Arguments Exit {A} code.

(** A computation: how it ends, and the events it produced on the way. *)
Definition M (A : Type) : Type := (outcome A * list event)%type.

Definition ret {A : Type} (a : A) : M A := (Normal a, []).

Definition bind {A B : Type} (m : M A) (k : A -> M B) : M B :=
  match m with
  | (Normal a, t) => let '(o, t') := k a in (o, (t ++ t')%list)
  | (Throw e, t) => (Throw e, t)
  | (Exit c, t) => (Exit c, t)
  end.

Notation "x <- m ;; k" := (bind m (fun x => k))
  (at level 61, m at next level, right associativity).
Notation "m ;; k" := (bind m (fun _ => k))
  (at level 61, right associativity).
Notation "' pat <- m ;; k" := (bind m (fun x => match x with pat => k end))
  (at level 61, pat pattern, m at next level, right associativity).

Definition throw {A : Type} (e : JsError) : M A := (Throw e, []).
Definition process_exit {A : Type} (code : Z) : M A := (Exit code, []).
Definition console_log (line : string) : M unit := (Normal tt, [ConsoleLog line]).
Definition console_log_format (format argument : string) : M unit :=
  (Normal tt, [ConsoleLogFormat format argument]).
Definition console_error (line : string) (err : option JsError) : M unit :=
  (Normal tt, [ConsoleError line err]).

(** [await] of a request: the request is an event, the settlement of the
    promise decides between a value and a thrown error. *)
Definition await {A : Type} (request : event) (r : response A) : M A :=
  (match r with Resolved a => Normal a | Rejected e => Throw e end, [request]).

(** [try { m } catch (e) { handler e }]; [process.exit] is not caught. *)
Definition try_catch {A : Type} (m : M A) (handler : JsError -> M A) : M A :=
  match m with
  | (Throw e, t) => let '(o, t') := handler e in (o, (t ++ t')%list)
  | _ => m
  end.

(** Lift a computation that produces no event. *)
Definition lift {A : Type} (o : outcome A) : M A := (o, []).

(** ** JavaScript coercions *)

(** Truthiness of a string-or-undefined value. *)
Definition truthy (v : option string) : bool :=
  match v with
  | Some s => negb (s =? "")
  | None => false
  end.

(** [String(v)] for an environment value, as a template literal and
    [console.log] render it. *)
Definition str_of_env (v : option string) : string :=
  match v with Some s => s | None => "undefined" end.

(** [String(v)] for a string-or-null field of a JSON document. *)
Definition str_of_nullable (v : option string) : string :=
  match v with Some s => s | None => "null" end.

(** [v || d]. *)
Definition or_default (v : option string) (d : string) : string :=
  match v with
  | Some s => if s =? "" then d else s
  | None => d
  end.

Definition TypeError (msg : string) : JsError := mkError "TypeError" msg.
Definition SyntaxError (msg : string) : JsError := mkError "SyntaxError" msg.

(** ** Reading the model's answer: [responseBody.content[0].text.trim()] *)

Fixpoint lookup (key : string) (members : list (string * json)) : option json :=
  match members with
  | [] => None
  | (k, v) :: rest => if k =? key then Some v else lookup key rest
  end.

(** [v.key] for a key that no built-in prototype defines ([content] and
    [text] here); [None] is [undefined]. *)
Definition member (v : option json) (key : string) : outcome (option json) :=
  match v with
  | None => Throw (TypeError ("Cannot read properties of undefined (reading '" ++ key ++ "')"))
  | Some JNull => Throw (TypeError ("Cannot read properties of null (reading '" ++ key ++ "')"))
  | Some (JObject m) => Normal (lookup key m)
  | Some _ => Normal None
  end.

(** [v[0]]; on a string it is the string of its first character, taken
    here as its first byte. *)
Definition index0 (v : option json) : outcome (option json) :=
  match v with
  | None => Throw (TypeError "Cannot read properties of undefined (reading '0')")
  | Some JNull => Throw (TypeError "Cannot read properties of null (reading '0')")
  | Some (JArray l) => Normal (nth_error l 0)
  | Some (JObject m) => Normal (lookup "0" m)
  | Some (JString (String c _)) => Normal (Some (JString (String c EmptyString)))
  | Some _ => Normal None
  end.

(** [v.trim()]. *)
Definition call_trim (v : option json) : outcome string :=
  match v with
  | None => Throw (TypeError "Cannot read properties of undefined (reading 'trim')")
  | Some JNull => Throw (TypeError "Cannot read properties of null (reading 'trim')")
  | Some (JString s) => Normal (trim s)
  | Some _ => Throw (TypeError "responseBody.content[0].text.trim is not a function")
  end.

Definition obind {A B : Type} (o : outcome A) (k : A -> outcome B) : outcome B :=
  match o with
  | Normal a => k a
  | Throw e => Throw e
  | Exit c => Exit c
  end.

(** [JSON.parse(...)] of the response body, then
    [responseBody.content[0].text.trim()].  For a body that does not parse
    the error is a [SyntaxError]; its message quotes the text of the body,
    which the model does not keep, and the message below stands for it. *)
Definition read_analysis (parsed : option json) : outcome string :=
  match parsed with
  | None => Throw (SyntaxError "Unexpected token in JSON")
  | Some responseBody =>
      obind (member (Some responseBody) "content") (fun c =>
      obind (index0 c) (fun first =>
      obind (member first "text") (fun t =>
      call_trim t)))
  end.

(** ** Stage 2: the per-job sections *)

Definition isFailure (job : Job) : bool :=
  match job_conclusion job with
  | Some c => c =? "failure"
  | None => false
  end.

(** The four header lines appended after a successful log download. *)
Definition jobHeader (job : Job) : string :=
  (nl ++ "## Job: " ++ job_name job ++ nl) ++
  ("Status: " ++ str_of_nullable (job_conclusion job) ++ nl) ++
  ("Started: " ++ str_of_nullable (job_started_at job) ++ nl) ++
  ("Completed: " ++ str_of_nullable (job_completed_at job) ++ nl).

(** The block appended for [logs.data]: nothing when the data is falsy or
    no line is salient. *)
Definition keyErrorMessages (data : option string) : string :=
  if truthy data then
    let logText := str_of_env data in
    match errorLines logText with
    | [] => ""
    | lines => nl ++ "Key error messages:" ++ nl ++ join nl lines ++ nl
    end
  else "".

(** The section appended by the [catch] branch. *)
Definition degradedSection (job : Job) : string :=
  (nl ++ "## Job: " ++ job_name job ++ nl) ++
  ("Status: " ++ str_of_nullable (job_conclusion job) ++ nl) ++
  ("Error: Could not fetch detailed logs" ++ nl).

(** One turn of the [for (const job of failedJobs)] loop. *)
Definition extractJob (w : World) (owner : string) (repo : option string)
    (job : Job) (failureDetails : string) : M string :=
  console_log ("Getting logs for job: " ++ job_name job) ;;
  try_catch
    (logs <- await (DownloadJobLogsForWorkflowRun owner repo (job_id job))
               (downloadJobLogsForWorkflowRun w owner repo (job_id job)) ;;
     ret (failureDetails ++ jobHeader job ++ keyErrorMessages logs))
    (fun logError =>
       console_log_format ("Could not fetch logs for job " ++ job_name job ++ ":")
         (err_message logError) ;;
       ret (failureDetails ++ degradedSection job)).

Fixpoint extractLoop (w : World) (owner : string) (repo : option string)
    (failedJobs : list Job) (failureDetails : string) : M string :=
  match failedJobs with
  | [] => ret failureDetails
  | job :: rest =>
      failureDetails' <- extractJob w owner repo job failureDetails ;;
      extractLoop w owner repo rest failureDetails'
  end.

(** ** Stage 3: the prompt *)

Definition analysisPrompt (workflowName workflowRunId owner repo failureDetails : string)
  : string :=
  "You are a senior software engineer helping debug failed GitHub Actions. Analyze the following workflow failure and provide helpful insights." ++ nl ++
  nl ++
  "**Workflow Information:**" ++ nl ++
  "- Name: " ++ workflowName ++ nl ++
  "- Run ID: " ++ workflowRunId ++ nl ++
  "- Repository: " ++ owner ++ "/" ++ repo ++ nl ++
  nl ++
  "**Failure Details:**" ++ nl ++
  failureDetails ++ nl ++
  nl ++
  "**Instructions:**" ++ nl ++
  "1. Identify the root cause of the failure" ++ nl ++
  "2. Provide specific, actionable steps to fix the issue" ++ nl ++
  "3. Suggest preventive measures if applicable" ++ nl ++
  "4. Keep your response concise but helpful" ++ nl ++
  "5. Format your response in markdown for GitHub comments" ++ nl ++
  nl ++
  "Please provide your analysis:".

(** ** Stage 4: the request *)

Definition theModelId : string := "anthropic.claude-3-sonnet-20240229-v1:0".

Definition invokeModelCommand (prompt : string) : InvokeModelCommand :=
  {| modelId := theModelId;
     body := {| anthropic_version := "bedrock-2023-05-31";
                max_tokens := 2000;
                messages := [ {| role := "user"; content := prompt |} ] |};
     contentType := "application/json";
     accept := "application/json" |}.

Definition bedrockConfig (env : Env) : BedrockConfig :=
  {| region := or_default (AWS_REGION env) "us-east-1";
     credentials :=
       {| accessKeyId := AWS_ACCESS_KEY_ID env;
          secretAccessKey := AWS_SECRET_ACCESS_KEY env;
          sessionToken :=
            if truthy (AWS_SESSION_TOKEN env) then AWS_SESSION_TOKEN env
            else None |} |}.

(** ** Stage 5: the comment *)

(** The robot emoji U+1F916, in UTF-8. *)
Definition robot : string :=
  String "240"%char (String "159"%char (String "164"%char
    (String "150"%char EmptyString))).

Definition commentHeading : string :=
  "## " ++ robot ++ " Automated Failure Analysis".

Definition commentBody (analysis workflowName : string) : string :=
  commentHeading ++ nl ++
  nl ++
  analysis ++ nl ++
  nl ++
  "---" ++ nl ++
  "*This analysis was generated automatically by Claude via AWS Bedrock when the "
  ++ dquote ++ workflowName ++ dquote ++ " workflow failed.*".

(** [pullRequestNumber && pullRequestNumber !== 'null']. *)
Definition hasPullRequest (pullRequestNumber : option string) : bool :=
  truthy pullRequestNumber &&
  negb (str_of_env pullRequestNumber =? "null").

Definition report (env : Env) (w : World) (owner : string) (repo : option string)
    (analysis : string) : M unit :=
  let workflowName := WORKFLOW_NAME env in
  let headSha := HEAD_SHA env in
  let pullRequestNumber := PULL_REQUEST_NUMBER env in
  console_log "Creating comment with analysis..." ;;
  let body := commentBody analysis (str_of_env workflowName) in
  if hasPullRequest pullRequestNumber then
    let issue_number := parseInt (str_of_env pullRequestNumber) in
    await (CreateComment owner repo issue_number body)
          (createComment w owner repo issue_number body) ;;
    console_log ("Created analysis comment on PR #" ++ str_of_env pullRequestNumber)
  else
    await (CreateCommitComment owner repo headSha body)
          (createCommitComment w owner repo headSha body) ;;
    console_log ("Created analysis comment on commit " ++ str_of_env headSha).

(** ** The whole script *)

(** [const [owner, repo] = s.split('/')]. *)
Definition owner_repo (s : string) : string * option string :=
  match split "/" s with
  | [] => (EmptyString, None)
  | [o] => (o, None)
  | o :: r :: _ => (o, Some r)
  end.

Definition string_of_nat (n : nat) : string :=
  NilEmpty.string_of_uint (Nat.to_uint n).

(** Lines 102 to 187: from the Bedrock client to the posted comment. *)
Definition diagnoseAndReport (env : Env) (w : World) (owner : string)
    (repo : option string) (failureDetails : string) : M unit :=
  let workflowRunId := WORKFLOW_RUN_ID env in
  let workflowName := WORKFLOW_NAME env in
  let bedrockClient := bedrockConfig env in
  console_log "Analyzing failure with Claude via Bedrock..." ;;
  let prompt :=
    analysisPrompt (str_of_env workflowName) (str_of_env workflowRunId)
      owner (str_of_env repo) failureDetails in
  let command := invokeModelCommand prompt in
  response <- await (Send bedrockClient command) (send w bedrockClient command) ;;
  console_log "Bedrock analysis successful" ;;
  analysis <- lift (read_analysis response) ;;
  report env w owner repo analysis.

(** The body of the [try] block of [main]. *)
Definition main_try (env : Env) (w : World) : M unit :=
  let workflowRunId := WORKFLOW_RUN_ID env in
  let workflowName := WORKFLOW_NAME env in
  let pullRequestNumber := PULL_REQUEST_NUMBER env in
  console_log "Environment check:" ;;
  console_log ("- AWS_ACCESS_KEY_ID: " ++
               (if truthy (AWS_ACCESS_KEY_ID env) then "Present" else "Missing")) ;;
  console_log ("- AWS_SECRET_ACCESS_KEY: " ++
               (if truthy (AWS_SECRET_ACCESS_KEY env) then "Present" else "Missing")) ;;
  console_log ("- AWS_REGION: " ++ or_default (AWS_REGION env) "us-east-1") ;;
  console_log ("- Workflow Run ID: " ++ str_of_env workflowRunId) ;;
  console_log ("- Workflow Name: " ++ str_of_env workflowName) ;;
  console_log ("- Pull Request Number: " ++ str_of_env pullRequestNumber) ;;
  if negb (truthy (AWS_ACCESS_KEY_ID env)) || negb (truthy (AWS_SECRET_ACCESS_KEY env))
  then
    console_error "AWS credentials not found in environment variables" None ;;
    process_exit 1
  else if negb (truthy workflowRunId) then
    console_log "No workflow run ID found, skipping..."
  else
    '(owner, repo) <-
      match GITHUB_REPOSITORY env with
      | Some s => ret (owner_repo s)
      | None =>
          throw (TypeError "Cannot read properties of undefined (reading 'split')")
      end ;;
    console_log "Fetching workflow run details..." ;;
    workflowRun <- await (GetWorkflowRun owner repo workflowRunId)
                     (getWorkflowRun w owner repo workflowRunId) ;;
    jobs <- await (ListJobsForWorkflowRun owner repo workflowRunId)
              (listJobsForWorkflowRun w owner repo workflowRunId) ;;
    let failedJobs := filter isFailure jobs in
    if (List.length failedJobs =? 0)%nat then
      console_log "No failed jobs found"
    else
      console_log ("Found " ++ string_of_nat (List.length failedJobs)
                   ++ " failed job(s)") ;;
      failureDetails <- extractLoop w owner repo failedJobs "" ;;
      diagnoseAndReport env w owner repo failureDetails.

(** [main]: the [try] block and its [catch]. *)
Definition main (env : Env) (w : World) : M unit :=
  try_catch (main_try env w)
    (fun error =>
       console_error "Error analyzing failed workflow:" (Some error) ;;
       process_exit 1).

(** The exit status of the process once [main] has settled: [0] when it
    returns, the argument of [process.exit] otherwise. *)
Definition exit_status (r : M unit) : Z :=
  match fst r with
  | Normal _ => 0
  | Exit code => code
  | Throw _ => 1
  end.

Definition trace (r : M unit) : list event := snd r.

(** ** Observations on runs *)

(** The section of one job in the aggregated text, read off the answer of
    the log download. *)
Definition jobSection (w : World) (owner : string) (repo : option string)
    (job : Job) : string :=
  match downloadJobLogsForWorkflowRun w owner repo (job_id job) with
  | Resolved data => jobHeader job ++ keyErrorMessages data
  | Rejected _ => degradedSection job
  end.

(** The events of one turn of the loop. *)
Definition jobEvents (w : World) (owner : string) (repo : option string)
    (job : Job) : list event :=
  ConsoleLog ("Getting logs for job: " ++ job_name job) ::
  DownloadJobLogsForWorkflowRun owner repo (job_id job) ::
  match downloadJobLogsForWorkflowRun w owner repo (job_id job) with
  | Resolved _ => []
  | Rejected e =>
      [ConsoleLogFormat ("Could not fetch logs for job " ++ job_name job ++ ":")
         (err_message e)]
  end.

(** The sections of a list of jobs, one after the other. *)
Definition sections (w : World) (owner : string) (repo : option string)
    (jobs : list Job) : string :=
  String.concat "" (map (jobSection w owner repo) jobs).

Definition isSend (e : event) : bool :=
  match e with Send _ _ => true | _ => false end.

(** Comment-creation writes. *)
Definition isPost (e : event) : bool :=
  match e with
  | CreateComment _ _ _ _ | CreateCommitComment _ _ _ _ => true
  | _ => false
  end.

(** Calls to a service, as opposed to console output. *)
Definition isExternalCall (e : event) : bool :=
  match e with
  | ConsoleLog _ | ConsoleLogFormat _ _ | ConsoleError _ _ => false
  | _ => true
  end.

Definition isListJobs (e : event) : bool :=
  match e with ListJobsForWorkflowRun _ _ _ => true | _ => false end.

Definition isLog (line : string) (e : event) : bool :=
  match e with ConsoleLog l => l =? line | _ => false end.

(** The run got as far as the job listing. *)
Definition reachesListing (r : M unit) : bool := existsb isListJobs (trace r).

(** The run got as far as the request to the model. *)
Definition reachesRequester (r : M unit) : bool :=
  existsb (isLog "Analyzing failure with Claude via Bedrock...") (trace r).

(** The run got as far as the Reporter. *)
Definition reachesReporter (r : M unit) : bool :=
  existsb (isLog "Creating comment with analysis...") (trace r).

(** The repository identity the script works with. *)
Definition ownerOf (env : Env) : string :=
  match GITHUB_REPOSITORY env with
  | Some s => fst (owner_repo s)
  | None => EmptyString
  end.

Definition repoOf (env : Env) : option string :=
  match GITHUB_REPOSITORY env with
  | Some s => snd (owner_repo s)
  | None => None
  end.

(** The failed jobs of a run, as the job listing answers. *)
Definition failedJobsOf (env : Env) (w : World) : list Job :=
  match listJobsForWorkflowRun w (ownerOf env) (repoOf env) (WORKFLOW_RUN_ID env) with
  | Resolved jobs => filter isFailure jobs
  | Rejected _ => []
  end.

(** The prompt the script builds for a run. *)
Definition promptOf (env : Env) (w : World) : string :=
  analysisPrompt (str_of_env (WORKFLOW_NAME env)) (str_of_env (WORKFLOW_RUN_ID env))
    (ownerOf env) (str_of_env (repoOf env))
    (sections w (ownerOf env) (repoOf env) (failedJobsOf env w)).

(** The comment-creation write for a diagnosis. *)
Definition postOf (env : Env) (analysis : string) : event :=
  let body := commentBody analysis (str_of_env (WORKFLOW_NAME env)) in
  if hasPullRequest (PULL_REQUEST_NUMBER env) then
    CreateComment (ownerOf env) (repoOf env)
      (parseInt (str_of_env (PULL_REQUEST_NUMBER env))) body
  else
    CreateCommitComment (ownerOf env) (repoOf env) (HEAD_SHA env) body.

(** Replace the answer of the run-metadata call. *)
Definition with_run (w : World) (run : response json) : World :=
  {| getWorkflowRun := fun _ _ _ => run;
     listJobsForWorkflowRun := listJobsForWorkflowRun w;
     downloadJobLogsForWorkflowRun := downloadJobLogsForWorkflowRun w;
     send := send w;
     createComment := createComment w;
     createCommitComment := createCommitComment w |}.

(** Two worlds that differ at most in the run-metadata call. *)
Definition same_but_run (w1 w2 : World) : Prop :=
  listJobsForWorkflowRun w1 = listJobsForWorkflowRun w2 /\
  downloadJobLogsForWorkflowRun w1 = downloadJobLogsForWorkflowRun w2 /\
  send w1 = send w2 /\
  createComment w1 = createComment w2 /\
  createCommitComment w1 = createCommitComment w2.

(** ** Decimal numerals *)

Definition is_digit (c : ascii) : Prop :=
  In c ["0"; "1"; "2"; "3"; "4"; "5"; "6"; "7"; "8"; "9"]%char.

(** The rest of a numeral does not start a hexadecimal prefix. *)
Definition no_hex_mark (s : string) : Prop :=
  match s with
  | String "x" _ | String "X" _ => False
  | _ => True
  end.

(** ** The shapes of a run *)

(** The seven lines of the environment check. *)
Definition prelude (env : Env) : list event :=
  [ ConsoleLog "Environment check:";
    ConsoleLog ("- AWS_ACCESS_KEY_ID: " ++
                (if truthy (AWS_ACCESS_KEY_ID env) then "Present" else "Missing"));
    ConsoleLog ("- AWS_SECRET_ACCESS_KEY: " ++
                (if truthy (AWS_SECRET_ACCESS_KEY env) then "Present" else "Missing"));
    ConsoleLog ("- AWS_REGION: " ++ or_default (AWS_REGION env) "us-east-1");
    ConsoleLog ("- Workflow Run ID: " ++ str_of_env (WORKFLOW_RUN_ID env));
    ConsoleLog ("- Workflow Name: " ++ str_of_env (WORKFLOW_NAME env));
    ConsoleLog ("- Pull Request Number: " ++ str_of_env (PULL_REQUEST_NUMBER env)) ].

(** The trace up to and including the run-metadata call. *)
Definition located (env : Env) : list event :=
  (prelude env ++
   [ ConsoleLog "Fetching workflow run details...";
     GetWorkflowRun (ownerOf env) (repoOf env) (WORKFLOW_RUN_ID env) ])%list.

(** ... up to and including the job listing. *)
Definition listed (env : Env) : list event :=
  (located env ++
   [ ListJobsForWorkflowRun (ownerOf env) (repoOf env) (WORKFLOW_RUN_ID env) ])%list.

(** ... up to the end of the extraction loop. *)
Definition extracted (env : Env) (w : World) : list event :=
  (listed env ++
   ConsoleLog ("Found " ++ string_of_nat (List.length (failedJobsOf env w))
               ++ " failed job(s)") ::
   flat_map (jobEvents w (ownerOf env) (repoOf env)) (failedJobsOf env w))%list.

(** ... up to and including the request to the model. *)
Definition requested (env : Env) (w : World) : list event :=
  (extracted env w ++
   [ ConsoleLog "Analyzing failure with Claude via Bedrock...";
     Send (bedrockConfig env) (invokeModelCommand (promptOf env w)) ])%list.

(** ... up to and including the comment-creation write. *)
Definition reported (env : Env) (w : World) (analysis : string) : list event :=
  (requested env w ++
   [ ConsoleLog "Bedrock analysis successful";
     ConsoleLog "Creating comment with analysis...";
     postOf env analysis ])%list.

(** The answer of the model for the request of this run. *)
Definition sendAnswer (env : Env) (w : World) : response (option json) :=
  send w (bedrockConfig env) (invokeModelCommand (promptOf env w)).

(** The answer to the comment-creation write. *)
Definition postAnswer (env : Env) (w : World) (analysis : string) : response unit :=
  let body := commentBody analysis (str_of_env (WORKFLOW_NAME env)) in
  if hasPullRequest (PULL_REQUEST_NUMBER env) then
    createComment w (ownerOf env) (repoOf env)
      (parseInt (str_of_env (PULL_REQUEST_NUMBER env))) body
  else
    createCommitComment w (ownerOf env) (repoOf env) (HEAD_SHA env) body.

(** The last log line of a successful run. *)
Definition postedLine (env : Env) : string :=
  if hasPullRequest (PULL_REQUEST_NUMBER env) then
    "Created analysis comment on PR #" ++ str_of_env (PULL_REQUEST_NUMBER env)
  else
    "Created analysis comment on commit " ++ str_of_env (HEAD_SHA env).

(** What the top-level [catch] adds to the trace. *)
Definition fatal (e : JsError) : list event :=
  [ ConsoleError "Error analyzing failed workflow:" (Some e) ].

Definition hasCredentials (env : Env) : bool :=
  truthy (AWS_ACCESS_KEY_ID env) && truthy (AWS_SECRET_ACCESS_KEY env).

(** The ten ways a run of [main] can go, each with the result it gives. *)
Inductive path (env : Env) (w : World) : M unit -> Prop :=
| path_missing_credentials :
    hasCredentials env = false ->
    path env w
      (Exit 1,
       (prelude env ++
        [ConsoleError "AWS credentials not found in environment variables" None])%list)
| path_missing_run_id :
    hasCredentials env = true ->
    truthy (WORKFLOW_RUN_ID env) = false ->
    path env w
      (Normal tt,
       (prelude env ++ [ConsoleLog "No workflow run ID found, skipping..."])%list)
| path_no_repository :
    hasCredentials env = true ->
    truthy (WORKFLOW_RUN_ID env) = true ->
    GITHUB_REPOSITORY env = None ->
    path env w
      (Exit 1,
       (prelude env ++
        fatal (TypeError "Cannot read properties of undefined (reading 'split')"))%list)
| path_run_rejected (e : JsError) :
    hasCredentials env = true ->
    truthy (WORKFLOW_RUN_ID env) = true ->
    GITHUB_REPOSITORY env <> None ->
    getWorkflowRun w (ownerOf env) (repoOf env) (WORKFLOW_RUN_ID env) = Rejected e ->
    path env w (Exit 1, (located env ++ fatal e)%list)
| path_jobs_rejected (run : json) (e : JsError) :
    hasCredentials env = true ->
    truthy (WORKFLOW_RUN_ID env) = true ->
    GITHUB_REPOSITORY env <> None ->
    getWorkflowRun w (ownerOf env) (repoOf env) (WORKFLOW_RUN_ID env) = Resolved run ->
    listJobsForWorkflowRun w (ownerOf env) (repoOf env) (WORKFLOW_RUN_ID env)
      = Rejected e ->
    path env w (Exit 1, (listed env ++ fatal e)%list)
| path_no_failed_jobs (run : json) (jobs : list Job) :
    hasCredentials env = true ->
    truthy (WORKFLOW_RUN_ID env) = true ->
    GITHUB_REPOSITORY env <> None ->
    getWorkflowRun w (ownerOf env) (repoOf env) (WORKFLOW_RUN_ID env) = Resolved run ->
    listJobsForWorkflowRun w (ownerOf env) (repoOf env) (WORKFLOW_RUN_ID env)
      = Resolved jobs ->
    filter isFailure jobs = [] ->
    path env w (Normal tt, (listed env ++ [ConsoleLog "No failed jobs found"])%list)
| path_send_rejected (run : json) (jobs : list Job) (e : JsError) :
    hasCredentials env = true ->
    truthy (WORKFLOW_RUN_ID env) = true ->
    GITHUB_REPOSITORY env <> None ->
    getWorkflowRun w (ownerOf env) (repoOf env) (WORKFLOW_RUN_ID env) = Resolved run ->
    listJobsForWorkflowRun w (ownerOf env) (repoOf env) (WORKFLOW_RUN_ID env)
      = Resolved jobs ->
    filter isFailure jobs <> [] ->
    sendAnswer env w = Rejected e ->
    path env w (Exit 1, (requested env w ++ fatal e)%list)
| path_answer_unreadable (run : json) (jobs : list Job) (parsed : option json)
    (e : JsError) :
    hasCredentials env = true ->
    truthy (WORKFLOW_RUN_ID env) = true ->
    GITHUB_REPOSITORY env <> None ->
    getWorkflowRun w (ownerOf env) (repoOf env) (WORKFLOW_RUN_ID env) = Resolved run ->
    listJobsForWorkflowRun w (ownerOf env) (repoOf env) (WORKFLOW_RUN_ID env)
      = Resolved jobs ->
    filter isFailure jobs <> [] ->
    sendAnswer env w = Resolved parsed ->
    read_analysis parsed = Throw e ->
    path env w
      (Exit 1,
       (requested env w ++ ConsoleLog "Bedrock analysis successful" :: fatal e)%list)
| path_post_rejected (run : json) (jobs : list Job) (parsed : option json)
    (analysis : string) (e : JsError) :
    hasCredentials env = true ->
    truthy (WORKFLOW_RUN_ID env) = true ->
    GITHUB_REPOSITORY env <> None ->
    getWorkflowRun w (ownerOf env) (repoOf env) (WORKFLOW_RUN_ID env) = Resolved run ->
    listJobsForWorkflowRun w (ownerOf env) (repoOf env) (WORKFLOW_RUN_ID env)
      = Resolved jobs ->
    filter isFailure jobs <> [] ->
    sendAnswer env w = Resolved parsed ->
    read_analysis parsed = Normal analysis ->
    postAnswer env w analysis = Rejected e ->
    path env w (Exit 1, (reported env w analysis ++ fatal e)%list)
| path_posted (run : json) (jobs : list Job) (parsed : option json)
    (analysis : string) :
    hasCredentials env = true ->
    truthy (WORKFLOW_RUN_ID env) = true ->
    GITHUB_REPOSITORY env <> None ->
    getWorkflowRun w (ownerOf env) (repoOf env) (WORKFLOW_RUN_ID env) = Resolved run ->
    listJobsForWorkflowRun w (ownerOf env) (repoOf env) (WORKFLOW_RUN_ID env)
      = Resolved jobs ->
    filter isFailure jobs <> [] ->
    sendAnswer env w = Resolved parsed ->
    read_analysis parsed = Normal analysis ->
    postAnswer env w analysis = Resolved tt ->
    path env w
      (Normal tt, (reported env w analysis ++ [ConsoleLog (postedLine env)])%list).

(** ** A sample run *)

Module Sample.

Definition env : Env :=
  {| WORKFLOW_RUN_ID := Some "555";
     WORKFLOW_NAME := Some "CI";
     HEAD_SHA := Some "abc123";
     PULL_REQUEST_NUMBER := Some "42";
     GITHUB_TOKEN := Some "token";
     GITHUB_REPOSITORY := Some "octo/demo";
     AWS_ACCESS_KEY_ID := Some "AKIA";
     AWS_SECRET_ACCESS_KEY := Some "secret";
     AWS_SESSION_TOKEN := None;
     AWS_REGION := None |}.

Definition build : Job := mkJob 1 "build" (Some "failure") (Some "t0") (Some "t1").
Definition lint : Job := mkJob 2 "lint" (Some "success") (Some "t0") (Some "t1").
Definition test : Job := mkJob 3 "test" (Some "failure") (Some "t0") (Some "t1").

Definition buildLog : string :=
  "npm run build" ++ nl ++ "Error: module not found" ++ nl ++ "exit 1".

Definition answer : json :=
  JObject [("content",
            JArray [JObject [("type", JString "text");
                             ("text", JString (" Install the module." ++ nl))]])].

(** [build] fails with a log, the log of [test] cannot be fetched. *)
Definition world (jobs : list Job) : World :=
  {| getWorkflowRun := fun _ _ _ => Resolved JNull;
     listJobsForWorkflowRun := fun _ _ _ => Resolved jobs;
     downloadJobLogsForWorkflowRun := fun _ _ id =>
       if (id =? 1)%Z then Resolved (Some buildLog)
       else Rejected (mkError "HttpError" "Not Found");
     send := fun _ _ => Resolved (Some answer);
     createComment := fun _ _ _ _ => Resolved tt;
     createCommitComment := fun _ _ _ _ => Resolved tt |}.

(** The same environment without its AWS credentials and run identifier. *)
Definition bare_env : Env :=
  {| WORKFLOW_RUN_ID := None;
     WORKFLOW_NAME := Some "CI";
     HEAD_SHA := Some "abc123";
     PULL_REQUEST_NUMBER := None;
     GITHUB_TOKEN := Some "token";
     GITHUB_REPOSITORY := Some "octo/demo";
     AWS_ACCESS_KEY_ID := None;
     AWS_SECRET_ACCESS_KEY := None;
     AWS_SESSION_TOKEN := None;
     AWS_REGION := None |}.

(** The sample environment with a pull request number beyond [2 ^ 53]. *)
Definition big_pr_env : Env :=
  {| WORKFLOW_RUN_ID := Some "555";
     WORKFLOW_NAME := Some "CI";
     HEAD_SHA := Some "abc123";
     PULL_REQUEST_NUMBER := Some "9007199254740993";
     GITHUB_TOKEN := Some "token";
     GITHUB_REPOSITORY := Some "octo/demo";
     AWS_ACCESS_KEY_ID := Some "AKIA";
     AWS_SECRET_ACCESS_KEY := Some "secret";
     AWS_SESSION_TOKEN := None;
     AWS_REGION := None |}.

(** The sample environment without its AWS credentials. *)
Definition keyless_env : Env :=
  {| WORKFLOW_RUN_ID := Some "555";
     WORKFLOW_NAME := Some "CI";
     HEAD_SHA := Some "abc123";
     PULL_REQUEST_NUMBER := Some "42";
     GITHUB_TOKEN := Some "token";
     GITHUB_REPOSITORY := Some "octo/demo";
     AWS_ACCESS_KEY_ID := None;
     AWS_SECRET_ACCESS_KEY := None;
     AWS_SESSION_TOKEN := None;
     AWS_REGION := None |}.

(** The sample environment without a run identifier. *)
Definition no_run_env : Env :=
  {| WORKFLOW_RUN_ID := None;
     WORKFLOW_NAME := Some "CI";
     HEAD_SHA := Some "abc123";
     PULL_REQUEST_NUMBER := None;
     GITHUB_TOKEN := Some "token";
     GITHUB_REPOSITORY := Some "octo/demo";
     AWS_ACCESS_KEY_ID := Some "AKIA";
     AWS_SECRET_ACCESS_KEY := Some "secret";
     AWS_SESSION_TOKEN := None;
     AWS_REGION := None |}.

(** A world in which every log download succeeds with a quiet log. *)
Definition calm : World :=
  {| getWorkflowRun := fun _ _ _ => Resolved JNull;
     listJobsForWorkflowRun := fun _ _ _ => Resolved [build];
     downloadJobLogsForWorkflowRun := fun _ _ _ => Resolved (Some "all good");
     send := fun _ _ => Resolved (Some answer);
     createComment := fun _ _ _ _ => Resolved tt;
     createCommitComment := fun _ _ _ _ => Resolved tt |}.

(** A world in which the model cannot be reached. *)
Definition offline : World :=
  {| getWorkflowRun := fun _ _ _ => Resolved JNull;
     listJobsForWorkflowRun := fun _ _ _ => Resolved [build];
     downloadJobLogsForWorkflowRun := fun _ _ _ => Resolved (Some buildLog);
     send := fun _ _ => Rejected (mkError "NetworkError" "socket hang up");
     createComment := fun _ _ _ _ => Resolved tt;
     createCommitComment := fun _ _ _ _ => Resolved tt |}.

(** A log with twelve salient lines among quiet ones. *)
Definition noisyLog : string :=
  join nl
    [ "step 1"; "ERROR 1"; "Error 2"; "FAILED 3"; "error: 4"; "FAILURE 5";
      "step 2"; "ERROR 6"; "ERROR 7"; "error 7b"; "ERROR 8"; "ERROR 9";
      "ERROR 10"; "Failed 10b"; "ERROR 11"; "ERROR 12"; "done" ].

End Sample.

(** ** More observations on runs *)

Definition isConsoleError (e : event) : bool :=
  match e with ConsoleError _ _ => true | _ => false end.

(** The service calls of a run, in order. *)
Definition calls (r : M unit) : list event := filter isExternalCall (trace r).

(** The log downloads of the extraction loop, one per failed job. *)
Definition downloadsOf (env : Env) (w : World) : list event :=
  map (fun job => DownloadJobLogsForWorkflowRun (ownerOf env) (repoOf env) (job_id job))
    (failedJobsOf env w).

(** The two reads that open a run. *)
Definition runCall (env : Env) : event :=
  GetWorkflowRun (ownerOf env) (repoOf env) (WORKFLOW_RUN_ID env).

Definition jobsCall (env : Env) : event :=
  ListJobsForWorkflowRun (ownerOf env) (repoOf env) (WORKFLOW_RUN_ID env).

Definition sendCall (env : Env) (w : World) : event :=
  Send (bedrockConfig env) (invokeModelCommand (promptOf env w)).

(** The same environment with other AWS secrets. *)
Definition with_secrets (env : Env) (accessKey secretKey sessionTok : option string)
  : Env :=
  {| WORKFLOW_RUN_ID := WORKFLOW_RUN_ID env;
     WORKFLOW_NAME := WORKFLOW_NAME env;
     HEAD_SHA := HEAD_SHA env;
     PULL_REQUEST_NUMBER := PULL_REQUEST_NUMBER env;
     GITHUB_TOKEN := GITHUB_TOKEN env;
     GITHUB_REPOSITORY := GITHUB_REPOSITORY env;
     AWS_ACCESS_KEY_ID := accessKey;
     AWS_SECRET_ACCESS_KEY := secretKey;
     AWS_SESSION_TOKEN := sessionTok;
     AWS_REGION := AWS_REGION env |}.

(** An event without the credentials of the Bedrock client. *)
Definition redact (e : event) : event :=
  match e with
  | Send cfg command =>
      Send {| region := region cfg;
              credentials := {| accessKeyId := None;
                                secretAccessKey := None;
                                sessionToken := None |} |} command
  | _ => e
  end.

(** * The issue-revision script (issue-handler)

    The second script of the repository revises an issue whose text
    contains [WIP]: it reads two prompt files, asks the model for a revised
    description and updates the issue. *)

(** ** Control flow over any type of events *)

Module Script.

Section Events.

Context {Ev : Type}.

Definition M (A : Type) : Type := (outcome A * list Ev)%type.

Definition ret {A : Type} (a : A) : M A := (Normal a, []).

Definition bind {A B : Type} (m : M A) (k : A -> M B) : M B :=
  match m with
  | (Normal a, t) => let '(o, t') := k a in (o, (t ++ t')%list)
  | (Throw e, t) => (Throw e, t)
  | (Exit c, t) => (Exit c, t)
  end.

Definition throw {A : Type} (e : JsError) : M A := (Throw e, []).
Definition process_exit {A : Type} (code : Z) : M A := (Exit code, []).
Definition emit (e : Ev) : M unit := (Normal tt, [e]).
Definition lift {A : Type} (o : outcome A) : M A := (o, []).

(** A call that settles with [r]: [await] of a promise, or a synchronous
    call that returns or throws. *)
Definition call {A : Type} (request : Ev) (r : response A) : M A :=
  (match r with Resolved a => Normal a | Rejected e => Throw e end, [request]).

Definition try_catch {A : Type} (m : M A) (handler : JsError -> M A) : M A :=
  match m with
  | (Throw e, t) => let '(o, t') := handler e in (o, (t ++ t')%list)
  | _ => m
  end.

End Events.

End Script.

Declare Scope script_scope.
Delimit Scope script_scope with script.
Notation "x <- m ;; k" := (Script.bind m (fun x => k))
  (at level 61, m at next level, right associativity) : script_scope.
Notation "m ;; k" := (Script.bind m (fun _ => k))
  (at level 61, right associativity) : script_scope.
Notation "' pat <- m ;; k" := (Script.bind m (fun x => match x with pat => k end))
  (at level 61, pat pattern, m at next level, right associativity) : script_scope.

Module IssueHandler.

Record Env : Type := mkEnv {
  ISSUE_NUMBER : option string;
  ISSUE_BODY : option string;
  GITHUB_TOKEN : option string;
  GITHUB_REPOSITORY : option string;
  AWS_REGION : option string
}.

Inductive event : Type :=
| ConsoleLog (line : string)
| ConsoleError (line : string) (err : option JsError)
| ReadFileSync (name : string)
| Send (region : string) (command : InvokeModelCommand)
| IssuesUpdate (owner : string) (repo : option string)
    (issue_number : JsNumber) (body : string).

(** The files beside the script and the two services.  [send] answers as
    in the triage script, with the parsed body or [None]. *)
Record World : Type := mkWorld {
  readFileSync : string -> response string;
  send : string -> InvokeModelCommand -> response (option json);
  issuesUpdate : string -> option string -> JsNumber -> string -> response unit
}.

Definition fullPrompt (systemPrompt projectContext issueBody : string) : string :=
  systemPrompt ++ nl ++
  nl ++
  "Project Context:" ++ nl ++
  projectContext ++ nl ++
  nl ++
  "Issue Description to Revise:" ++ nl ++
  issueBody ++ nl ++
  nl ++
  "Please provide only the revised issue description:".

Definition invokeModelCommand (prompt : string) : InvokeModelCommand :=
  {| modelId := "anthropic.claude-3-sonnet-20240229-v1:0";
     body := {| anthropic_version := "bedrock-2023-05-31";
                max_tokens := 4000;
                messages := [ {| role := "user"; content := prompt |} ] |};
     contentType := "application/json";
     accept := "application/json" |}.

Local Open Scope script_scope.

(** The body of the [try] block of [main]. *)
Definition main_try (env : Env) (w : World) : Script.M unit :=
  let issueNumber := ISSUE_NUMBER env in
  let issueBody := ISSUE_BODY env in
  if negb (truthy issueBody) then
    Script.emit (ConsoleLog "No issue body found, skipping...")
  else if negb (includes (str_of_env issueBody) "WIP") then
    Script.emit (ConsoleLog ("Issue does not contain " ++ dquote ++ "WIP" ++ dquote
                             ++ ", skipping revision..."))
  else
    Script.emit (ConsoleLog "Processing WIP issue...") ;;
    systemPrompt <- Script.call (ReadFileSync "system-prompt.txt")
                      (readFileSync w "system-prompt.txt") ;;
    projectContext <- Script.call (ReadFileSync "project-context.txt")
                        (readFileSync w "project-context.txt") ;;
    let region := or_default (AWS_REGION env) "us-east-1" in
    let prompt := fullPrompt systemPrompt projectContext (str_of_env issueBody) in
    let command := invokeModelCommand prompt in
    response <- Script.call (Send region command) (send w region command) ;;
    revisedDescription <- Script.lift (read_analysis response) ;;
    Script.emit (ConsoleLog "Got revised description from LLM") ;;
    '(owner, repo) <-
      match GITHUB_REPOSITORY env with
      | Some s => Script.ret (owner_repo s)
      | None =>
          Script.throw
            (TypeError "Cannot read properties of undefined (reading 'split')")
      end ;;
    let issue_number := parseInt (str_of_env issueNumber) in
    Script.call (IssuesUpdate owner repo issue_number revisedDescription)
      (issuesUpdate w owner repo issue_number revisedDescription) ;;
    Script.emit (ConsoleLog ("Successfully updated issue #" ++ str_of_env issueNumber
                             ++ " with revised description")).

(** [main]: the [try] block and its [catch]. *)
Definition main (env : Env) (w : World) : Script.M unit :=
  Script.try_catch (main_try env w)
    (fun error =>
       Script.emit (ConsoleError "Error processing issue:" (Some error)) ;;
       Script.process_exit 1).

Definition exit_status (r : Script.M (Ev := event) unit) : Z :=
  match fst r with
  | Normal _ => 0
  | Exit code => code
  | Throw _ => 1
  end.

Definition isCall (e : event) : bool :=
  match e with
  | ConsoleLog _ | ConsoleError _ _ => false
  | _ => true
  end.

Definition isSend (e : event) : bool :=
  match e with Send _ _ => true | _ => false end.

(** The file reads and service calls of a run, in order. *)
Definition calls (r : Script.M (Ev := event) unit) : list event :=
  filter isCall (snd r).

(** The issue text makes the script revise the issue. *)
Definition isWip (env : Env) : bool :=
  truthy (ISSUE_BODY env) && includes (str_of_env (ISSUE_BODY env)) "WIP".

Definition promptOf (env : Env) (systemPrompt projectContext : string) : string :=
  fullPrompt systemPrompt projectContext (str_of_env (ISSUE_BODY env)).

Definition sendOf (env : Env) (systemPrompt projectContext : string) : event :=
  Send (or_default (AWS_REGION env) "us-east-1")
    (invokeModelCommand (promptOf env systemPrompt projectContext)).


Module Demo.

Definition env : Env :=
  {| ISSUE_NUMBER := Some "7";
     ISSUE_BODY := Some "WIP: add a login page";
     GITHUB_TOKEN := Some "token";
     GITHUB_REPOSITORY := Some "octo/demo";
     AWS_REGION := None |}.

(** The same issue in a run that has no [GITHUB_REPOSITORY]. *)
Definition homeless : Env :=
  {| ISSUE_NUMBER := Some "7";
     ISSUE_BODY := Some "WIP: add a login page";
     GITHUB_TOKEN := Some "token";
     GITHUB_REPOSITORY := None;
     AWS_REGION := None |}.

(** An issue that is not marked. *)
Definition finished : Env :=
  {| ISSUE_NUMBER := Some "8";
     ISSUE_BODY := Some "Add a login page (wip no more)";
     GITHUB_TOKEN := Some "token";
     GITHUB_REPOSITORY := Some "octo/demo";
     AWS_REGION := None |}.

Definition world : World :=
  {| readFileSync := fun name => Resolved ("contents of " ++ name);
     send := fun _ _ => Resolved (Some Sample.answer);
     issuesUpdate := fun _ _ _ _ => Resolved tt |}.

End Demo.

End IssueHandler.

Module IH := IssueHandler.

(** * The image routes

    Two [POST] handlers take an image key, download the image through a
    signed URL and describe it, one with the Bedrock model, the other with
    the labels of Rekognition. *)

Module ImageRoutes.

(** ** Values *)

(** The decimal value of a run of digits; other characters are skipped. *)
Fixpoint digits_value (acc : N) (s : string) : N :=
  match s with
  | String c r =>
      let n := N_of_ascii c in
      if ((48 <=? n) && (n <=? 57))%N then digits_value (acc * 10 + (n - 48))%N r
      else digits_value acc r
  | EmptyString => acc
  end.

(** The text before and after the first character that satisfies [p]. *)
Fixpoint cut (p : ascii -> bool) (s : string) : string * string :=
  match s with
  | String c r =>
      if p c then (EmptyString, r)
      else let '(a, b) := cut p r in (String c a, b)
  | EmptyString => (EmptyString, EmptyString)
  end.

(** A JSON number literal denotes a Number that is zero: its digits are
    all zero, or its value is at most [2^-1075] and rounds to zero. *)
Definition number_is_zero (literal : string) : bool :=
  let '(mantissa, exponent) :=
    cut (fun c => Ascii.eqb c "e" || Ascii.eqb c "E") literal in
  let '(whole, fraction) := cut (fun c => Ascii.eqb c ".") mantissa in
  let m := Z.of_N (digits_value 0 (whole ++ fraction)) in
  let e :=
    match exponent with
    | String "-" r => (- Z.of_N (digits_value 0 r))%Z
    | _ => Z.of_N (digits_value 0 exponent)
    end in
  let e10 := (e - Z.of_nat (String.length fraction))%Z in
  ((m =? 0) || ((e10 <? 0) && (m * 2 ^ 1075 <=? 10 ^ (- e10))))%Z.

(** Truthiness of a value read from a JSON document; [None] is
    [undefined]. *)
Definition js_truthy (v : option json) : bool :=
  match v with
  | None | Some JNull => false
  | Some (JBool b) => b
  | Some (JNumber literal) => negb (number_is_zero literal)
  | Some (JString s) => negb (s =? "")
  | Some (JArray _) | Some (JObject _) => true
  end.

(** What [fetch] resolves with, as far as the handlers look at it. *)
Record FetchResponse : Type := mkFetchResponse {
  ok : bool;
  statusText : string;
  arrayBuffer : response (list ascii)
}.

Record Label : Type := mkLabel { Name : option string }.

(** [NextResponse.json(body, { status })]: the members of the body whose
    value is [undefined] are left out by the serialisation. *)
Record HttpResponse : Type := mkHttpResponse {
  status : Z;
  payload : list (string * json)
}.

Fixpoint defined_members (members : list (string * option json))
  : list (string * json) :=
  match members with
  | [] => []
  | (k, Some v) :: rest => (k, v) :: defined_members rest
  | (_, None) :: rest => defined_members rest
  end.

Definition NextResponse_json (members : list (string * option json)) (status : Z)
  : HttpResponse :=
  {| status := status; payload := defined_members members |}.

(** [Buffer.from(bytes).toString('base64')]. *)
Definition base64_digit (n : N) : ascii :=
  if (n <? 26)%N then ascii_of_N (65 + n)
  else if (n <? 52)%N then ascii_of_N (97 + (n - 26))
  else if (n <? 62)%N then ascii_of_N (48 + (n - 52))
  else if (n =? 62)%N then "+"%char
  else "/"%char.

Fixpoint base64 (bytes : list ascii) : string :=
  match bytes with
  | [] => EmptyString
  | [a] =>
      let x := N_of_ascii a in
      String (base64_digit (x / 4))
        (String (base64_digit ((x mod 4) * 16)) "==")
  | [a; b] =>
      let x := N_of_ascii a in
      let y := N_of_ascii b in
      String (base64_digit (x / 4))
        (String (base64_digit ((x mod 4) * 16 + y / 16))
           (String (base64_digit ((y mod 16) * 4)) "="))
  | a :: b :: c :: rest =>
      let x := N_of_ascii a in
      let y := N_of_ascii b in
      let z := N_of_ascii c in
      String (base64_digit (x / 4))
        (String (base64_digit ((x mod 4) * 16 + y / 16))
           (String (base64_digit ((y mod 16) * 4 + z / 64))
              (String (base64_digit (z mod 64)) (base64 rest))))
  end.

(** The request body given to [JSON.stringify] by the Bedrock route. *)
Record ImageSource : Type := mkImageSource {
  source_type : string;
  media_type : string;
  data : string
}.

Inductive ContentBlock : Type :=
| TextBlock (text : string)
| ImageBlock (source : ImageSource).

Record ImageMessage : Type := mkImageMessage {
  image_role : string;
  image_content : list ContentBlock
}.

Record ImagePrompt : Type := mkImagePrompt {
  prompt_version : string;
  prompt_max_tokens : Z;
  prompt_messages : list ImageMessage
}.

Record ImageCommand : Type := mkImageCommand {
  command_modelId : string;
  command_contentType : string;
  command_accept : string;
  command_body : ImagePrompt
}.

Inductive event : Type :=
| ConsoleError (line : string) (err : JsError)
| GetSignedUrl (bucket : option string) (key : json) (expiresIn : Z)
| Fetch (url : string)
| ReadArrayBuffer
| BedrockSend (command : ImageCommand)
| DetectLabels (bytes : list ascii) (maxLabels minConfidence : Z).

(** The services.  [bedrockSend] answers as in the scripts, with the
    parsed body or [None]; [detectLabels] answers with [response.Labels],
    [None] when it is [undefined]. *)
Record World : Type := mkWorld {
  getSignedUrl : option string -> json -> Z -> response string;
  fetch : string -> response FetchResponse;
  bedrockSend : ImageCommand -> response (option json);
  detectLabels : list ascii -> Z -> Z -> response (option (list Label))
}.

Definition Error (msg : string) : JsError := mkError "Error" msg.

Local Open Scope script_scope.

(** [const { imageKey } = await request.json()]; the text of the error is
    the one of V8. *)
Definition read_imageKey (request : response json) : Script.M (Ev := event) (option json) :=
  body <- Script.lift (match request with
                       | Resolved v => Normal v
                       | Rejected e => Throw e
                       end) ;;
  match body with
  | JNull =>
      Script.throw
        (TypeError "Cannot destructure property 'imageKey' of '(intermediate value)' as it is null.")
  | JObject members => Script.ret (lookup "imageKey" members)
  | _ => Script.ret None
  end.

Definition required : HttpResponse :=
  NextResponse_json [("error", Some (JString "Image key is required"))] 400.

(** [imageKey] once it is known to be truthy. *)
Definition key_of (imageKey : option json) : json :=
  match imageKey with Some v => v | None => JNull end.

(** The download shared by the two routes, without the check of [ok]. *)
Definition download (w : World) (bucket : option string) (imageKey : option json)
  : Script.M (Ev := event) FetchResponse :=
  signedUrl <- Script.call (GetSignedUrl bucket (key_of imageKey) 3600)
                 (getSignedUrl w bucket (key_of imageKey) 3600) ;;
  Script.call (Fetch signedUrl) (fetch w signedUrl).

(** ** The Bedrock route *)

Module Bedrock.

Definition prompt (base64Image : string) : ImagePrompt :=
  {| prompt_version := "bedrock-2023-05-31";
     prompt_max_tokens := 300;
     prompt_messages :=
       [ {| image_role := "user";
            image_content :=
              [ TextBlock "Please describe what you see in this image in detail.";
                ImageBlock {| source_type := "base64";
                              media_type := "image/jpeg";
                              data := base64Image |} ] |} ] |}.

Definition command (base64Image : string) : ImageCommand :=
  {| command_modelId := "anthropic.claude-3-sonnet-20240229-v1:0";
     command_contentType := "application/json";
     command_accept := "application/json";
     command_body := prompt base64Image |}.

(** [responseBody.content[0].text], not trimmed and of any type.  The
    message of the [SyntaxError] stands for the one of [JSON.parse], as in
    [read_analysis]. *)
Definition read_description (parsed : option json) : outcome (option json) :=
  match parsed with
  | None => Throw (SyntaxError "Unexpected token in JSON")
  | Some responseBody =>
      obind (member (Some responseBody) "content") (fun c =>
      obind (index0 c) (fun first =>
      member first "text"))
  end.

(** The inner [try] block. *)
Definition describe (w : World) (bucketName : string) (imageKey : option json)
  : Script.M (Ev := event) HttpResponse :=
  imageResponse <- download w (Some bucketName) imageKey ;;
  if negb (ok imageResponse) then
    Script.throw (Error ("Failed to download image: " ++ statusText imageResponse))
  else
    imageBuffer <- Script.call ReadArrayBuffer (arrayBuffer imageResponse) ;;
    let base64Image := base64 imageBuffer in
    response <- Script.call (BedrockSend (command base64Image))
                  (bedrockSend w (command base64Image)) ;;
    description <- Script.lift (read_description response) ;;
    Script.ret (NextResponse_json [("description", description)] 200).

Definition not_found : HttpResponse :=
  NextResponse_json [("error", Some (JString "Image not found in S3 bucket"))] 404.

Definition failed (error : JsError) : HttpResponse :=
  NextResponse_json
    [ ("error", Some (JString "Failed to analyze image"));
      ("details", Some (JString (err_message error))) ] 500.

(** [POST]: [S3_BUCKET_NAME] from the environment, the request body, the
    services. *)
Definition POST (S3_BUCKET_NAME : option string) (request : response json)
    (w : World) : Script.M (Ev := event) HttpResponse :=
  Script.try_catch
    (imageKey <- read_imageKey request ;;
     if negb (js_truthy imageKey) then Script.ret required
     else
       let bucketName := S3_BUCKET_NAME in
       if negb (truthy bucketName) then
         Script.throw (Error "S3_BUCKET_NAME environment variable is not set")
       else
         Script.try_catch (describe w (str_of_env bucketName) imageKey)
           (fun error =>
              if err_name error =? "NoSuchKey" then Script.ret not_found
              else Script.throw error))
    (fun error =>
       Script.emit (ConsoleError "Error analyzing image:" error) ;;
       Script.ret (failed error)).

End Bedrock.

(** ** The Rekognition route *)

Module Rekognition.

(** [label.Name] inside [join]: [undefined] gives the empty text. *)
Definition name_text (label : Label) : string :=
  match Name label with Some n => n | None => EmptyString end.

(** The description made of [response.Labels]. *)
Definition describe_labels (Labels : option (list Label)) : string :=
  let labels := match Labels with Some l => l | None => [] end in
  if (0 <? List.length labels)%nat then
    "This image contains: " ++ String.concat ", " (map name_text labels)
  else "No objects were detected in this image.".

Definition failed : HttpResponse :=
  NextResponse_json [("error", Some (JString "Failed to analyze image"))] 500.

Definition POST (S3_BUCKET_NAME : option string) (request : response json)
    (w : World) : Script.M (Ev := event) HttpResponse :=
  Script.try_catch
    (imageKey <- read_imageKey request ;;
     if negb (js_truthy imageKey) then Script.ret required
     else
       imageResponse <- download w S3_BUCKET_NAME imageKey ;;
       imageBuffer <- Script.call ReadArrayBuffer (arrayBuffer imageResponse) ;;
       response <- Script.call (DetectLabels imageBuffer 10 70)
                     (detectLabels w imageBuffer 10 70) ;;
       let description := describe_labels response in
       Script.ret (NextResponse_json [("description", Some (JString description))] 200))
    (fun error =>
       Script.emit (ConsoleError "Error analyzing image:" error) ;;
       Script.ret failed).

End Rekognition.

(** The outcome of a handler seen from the client. *)
Definition replied (r : Script.M (Ev := event) HttpResponse) : option HttpResponse :=
  match fst r with
  | Normal response => Some response
  | _ => None
  end.

Definition isService (e : event) : bool :=
  match e with ConsoleError _ _ => false | _ => true end.

Definition isBedrockSend (e : event) : bool :=
  match e with BedrockSend _ => true | _ => false end.

(** The service calls of a handler, in order. *)
Definition services (r : Script.M (Ev := event) HttpResponse) : list event :=
  filter isService (snd r).

Module Demo.

Definition jpeg : list ascii := ["255"; "216"; "255"; "224"; "000"]%char.

Definition request : response json :=
  Resolved (JObject [("imageKey", JString "cat.jpg")]).

Definition world : World :=
  {| getSignedUrl := fun _ _ _ => Resolved "https://bucket/cat.jpg?sig";
     fetch := fun _ => Resolved {| ok := true; statusText := "OK";
                                   arrayBuffer := Resolved jpeg |};
     bedrockSend := fun _ =>
       Resolved (Some (JObject [("content",
                                 JArray [JObject [("text", JString "A cat.")]])]));
     detectLabels := fun _ _ _ =>
       Resolved (Some [mkLabel (Some "Cat"); mkLabel (Some "Pet")]) |}.

(** The bucket answers [403 Forbidden] with an error document. *)
Definition forbidden : World :=
  {| getSignedUrl := fun _ _ _ => Resolved "https://bucket/cat.jpg?sig";
     fetch := fun _ => Resolved {| ok := false; statusText := "Forbidden";
                                   arrayBuffer := Resolved ["060"; "063"]%char |};
     bedrockSend := bedrockSend world;
     detectLabels := fun _ _ _ => Resolved None |}.

(** The image is not in the bucket and the download says so by name. *)
Definition missing : World :=
  {| getSignedUrl := fun _ _ _ => Resolved "https://bucket/cat.jpg?sig";
     fetch := fun _ =>
       Rejected (mkError "NoSuchKey" "The specified key does not exist.");
     bedrockSend := bedrockSend world;
     detectLabels := detectLabels world |}.

End Demo.

End ImageRoutes.

Module IR := ImageRoutes.

(** * Properties *)

(** ** Strings *)

Section StringFacts.

Lemma append_assoc (s1 s2 s3 : string) : (s1 ++ s2) ++ s3 = s1 ++ (s2 ++ s3).
Proof.
  induction s1 as [|a s1 IH]; simpl; [reflexivity | now rewrite IH].
Qed.

Lemma append_nil_r (s : string) : s ++ "" = s.
Proof.
  induction s as [|a s IH]; simpl; [reflexivity | now rewrite IH].
Qed.

Lemma prefix_spec (pat s : string) : prefix pat s = true <-> starts_with s pat.
Proof.
  unfold starts_with. revert s.
  induction pat as [|a pat IH]; intros s.
  - destruct s; simpl; split; intros _; eauto.
  - destruct s as [|b s]; simpl.
    + split; [discriminate | intros [q Hq]; discriminate].
    + destruct (ascii_dec a b) as [->|Hne].
      * rewrite IH. split; intros [q Hq]; exists q.
        -- now rewrite Hq.
        -- now inversion Hq.
      * split; [discriminate | intros [q Hq]; inversion Hq; congruence].
Qed.

Lemma prefix_append (pat q : string) : prefix pat (pat ++ q) = true.
Proof. apply prefix_spec. now exists q. Qed.

Lemma includes_cons (a : ascii) (s pat : string) :
  includes (String a s) pat = prefix pat (String a s) || includes s pat.
Proof. reflexivity. Qed.

Lemma includes_spec (s pat : string) :
  includes s pat = true <-> substring_of pat s.
Proof.
  unfold substring_of.
  induction s as [|a s IH].
  - split.
    + intros H. destruct pat; [|discriminate]. now exists "", "".
    + intros (p & q & H). destruct p; [|discriminate]. simpl in H.
      destruct pat; [reflexivity | discriminate].
  - rewrite includes_cons, orb_true_iff, IH. split.
    + intros [H | (p & q & H)].
      * apply prefix_spec in H as [q Hq]. exists "", q. exact Hq.
      * exists (String a p), q. simpl. now rewrite H.
    + intros (p & q & H). destruct p as [|b p].
      * left. simpl in H. rewrite H. apply prefix_append.
      * right. inversion H. eauto.
Qed.

Lemma includes_false (s pat : string) :
  includes s pat = false <-> ~ substring_of pat s.
Proof.
  rewrite <- includes_spec. destruct (includes s pat); split; intro H.
  - discriminate.
  - exfalso. now apply H.
  - discriminate.
  - reflexivity.
Qed.

Lemma substring_of_refl (s : string) : substring_of s s.
Proof. exists "", "". simpl. now rewrite append_nil_r. Qed.

Lemma substring_of_append_l (pat p s : string) :
  substring_of pat s -> substring_of pat (p ++ s).
Proof.
  intros (a & b & ->). exists (p ++ a), b. now rewrite append_assoc.
Qed.

Lemma substring_of_append_r (pat s q : string) :
  substring_of pat s -> substring_of pat (s ++ q).
Proof.
  intros (a & b & ->). exists a, (b ++ q). now rewrite !append_assoc.
Qed.

Lemma substring_of_trans (a b c : string) :
  substring_of a b -> substring_of b c -> substring_of a c.
Proof.
  intros Hab (p & q & ->).
  now apply substring_of_append_l, substring_of_append_r.
Qed.

Lemma split_nonempty (sep : ascii) (s : string) : split sep s <> [].
Proof.
  destruct s as [|c s]; simpl; [discriminate|].
  destruct (Ascii.eqb c sep); [discriminate|].
  destruct (split sep s); discriminate.
Qed.

Lemma concat_cons (sep x : string) (l : list string) :
  l <> [] -> String.concat sep (x :: l) = x ++ sep ++ String.concat sep l.
Proof. destruct l; [congruence | reflexivity]. Qed.

(** Joining the fields of [split] with the separator gives the text back. *)
Lemma join_split (sep : ascii) (s : string) :
  join (String sep "") (split sep s) = s.
Proof.
  unfold join. induction s as [|c s IH]; [reflexivity|].
  simpl. destruct (Ascii.eqb_spec c sep) as [->|Hne].
  - rewrite concat_cons by apply split_nonempty. simpl. now rewrite IH.
  - pose proof (split_nonempty sep s) as Hs.
    destruct (split sep s) as [|l ls]; [congruence|].
    rewrite <- IH. destruct ls; reflexivity.
Qed.

(** No field of [split] contains the separator. *)
Lemma split_no_sep (sep : ascii) (s : string) :
  Forall (fun l => ~ substring_of (String sep "") l) (split sep s).
Proof.
  induction s as [|c s IH]; simpl.
  - constructor; [|constructor].
    intros (p & q & H). destruct p; discriminate.
  - destruct (Ascii.eqb_spec c sep) as [->|Hne].
    + constructor; [|exact IH].
      intros (p & q & H). destruct p; discriminate.
    + destruct (split sep s) as [|l ls]; [constructor; [|constructor]|].
      * intros (p & q & H). destruct p as [|a p]; simpl in H.
        -- inversion H. congruence.
        -- inversion H. destruct p; discriminate.
      * inversion IH as [|? ? Hl Hls]; subst. constructor; [|exact Hls].
        intros (p & q & H). destruct p as [|a p]; simpl in H.
        -- inversion H. congruence.
        -- inversion H. apply Hl. now exists p, q.
Qed.

Lemma slice_last_suffix {A : Type} (n : nat) (l : list A) :
  exists dropped : list A,
    l = (dropped ++ slice_last n l)%list /\
    List.length dropped = List.length l - n.
Proof.
  exists (firstn (List.length l - n) l). unfold slice_last. split.
  - now rewrite firstn_skipn.
  - rewrite length_firstn. lia.
Qed.

Lemma slice_last_length {A : Type} (n : nat) (l : list A) :
  List.length (slice_last n l) = Nat.min n (List.length l).
Proof. unfold slice_last. rewrite length_skipn. lia. Qed.

End StringFacts.

(** ** Salient-line extraction *)

Lemma isSalient_spec (line : string) :
  isSalient line = true <->
  exists pat, In pat salientPatterns /\ substring_of pat line.
Proof.
  unfold isSalient, salientPatterns.
  rewrite !orb_true_iff, !includes_spec. split.
  - intros [[[[H|H]|H]|H]|H]; eexists; (split; [|exact H]); simpl; tauto.
  - intros (pat & Hin & H). simpl in Hin.
    destruct Hin as [<-|[<-|[<-|[<-|[<-|[]]]]]]; tauto.
Qed.

(** C1: the salient lines of a log text are computed from the text alone:
    the text is cut into its lines (the newline-free fields whose join is
    the text), a line is kept exactly when one of the five literal
    patterns occurs in it, the kept lines stay in their order, and of
    those only the last ten remain.  The line with [error:] is kept, the
    line [INFO: build complete] is not. *)
Theorem errorLines_last_ten_salient (logText : string) :
  let lines := split LF logText in
  let matches := filter isSalient lines in
  join nl lines = logText /\
  Forall (fun line => ~ substring_of nl line) lines /\
  (forall line, In line matches <->
     In line lines /\
     exists pat, In pat ["Error"; "FAILED"; "error:"; "ERROR"; "FAILURE"] /\
                 substring_of pat line) /\
  (exists dropped,
     matches = (dropped ++ errorLines logText)%list /\
     List.length dropped = List.length matches - 10) /\
  List.length (errorLines logText) = Nat.min 10 (List.length matches) /\
  isSalient "INFO: build error: disk full" = true /\
  isSalient "INFO: build complete" = false.
Proof.
  intros lines matches.
  split; [apply join_split|].
  split; [apply split_no_sep|].
  split.
  { intros line. unfold matches. rewrite filter_In, isSalient_spec.
    reflexivity. }
  split; [apply slice_last_suffix|].
  split; [apply slice_last_length|].
  split; reflexivity.
Qed.

(** Twelve salient lines: the first two are dropped, the others keep their
    order; [error 7b] and [Failed 10b] match no pattern. *)
Example errorLines_noisyLog :
  errorLines Sample.noisyLog
  = [ "FAILED 3"; "error: 4"; "FAILURE 5"; "ERROR 6"; "ERROR 7"; "ERROR 8";
      "ERROR 9"; "ERROR 10"; "ERROR 11"; "ERROR 12" ].
Proof. vm_compute. reflexivity. Qed.

(** ** Running the script *)

Lemma concat_empty_cons (x : string) (l : list string) :
  String.concat "" (x :: l) = x ++ String.concat "" l.
Proof. destruct l; simpl; [now rewrite append_nil_r | reflexivity]. Qed.

Lemma extractJob_run w o r job acc :
  extractJob w o r job acc = (Normal (acc ++ jobSection w o r job), jobEvents w o r job).
Proof.
  unfold extractJob, jobSection, jobEvents.
  destruct (downloadJobLogsForWorkflowRun w o r (job_id job)); reflexivity.
Qed.

Lemma extractLoop_run w o r jobs acc :
  extractLoop w o r jobs acc =
  (Normal (acc ++ sections w o r jobs), flat_map (jobEvents w o r) jobs).
Proof.
  revert acc. induction jobs as [|job jobs IH]; intros acc.
  - simpl. unfold sections. simpl. now rewrite append_nil_r.
  - cbn [extractLoop]. rewrite extractJob_run. cbn [bind]. rewrite IH.
    unfold sections. cbn [map]. rewrite concat_empty_cons, append_assoc.
    reflexivity.
Qed.

Lemma obind_no_exit {A B : Type} (o : outcome A) (k : A -> outcome B) :
  (forall code, o <> Exit code) -> (forall a code, k a <> Exit code) ->
  forall code, obind o k <> Exit code.
Proof.
  intros Ho Hk code. destruct o as [a|e|c]; simpl.
  - apply Hk.
  - discriminate.
  - now destruct (Ho c).
Qed.

Lemma member_no_exit v key code : member v key <> Exit code.
Proof. destruct v as [[]|]; discriminate. Qed.

Lemma index0_no_exit v code : index0 v <> Exit code.
Proof. destruct v as [[| | |[|? ?]| |]|]; discriminate. Qed.

Lemma call_trim_no_exit v code : call_trim v <> Exit code.
Proof. destruct v as [[]|]; discriminate. Qed.

Lemma read_analysis_no_exit parsed code : read_analysis parsed <> Exit code.
Proof.
  destruct parsed as [responseBody|]; [|discriminate].
  unfold read_analysis. revert code.
  apply obind_no_exit; [intro; apply member_no_exit|]. intros c.
  apply obind_no_exit; [intro; apply index0_no_exit|]. intros first.
  apply obind_no_exit; [intro; apply member_no_exit|]. intros t code.
  apply call_trim_no_exit.
Qed.

Lemma path_intro env w r r' : path env w r' -> r = r' -> path env w r.
Proof. intros H ->. exact H. Qed.

Ltac run_main :=
  unfold main, main_try, diagnoseAndReport, report,
    reported, requested, extracted, listed, located,
    postOf, postedLine, prelude;
  unfold hasCredentials, sendAnswer, postAnswer, promptOf, failedJobsOf in *;
  repeat match goal with
  | H : andb _ _ = true |- _ => apply andb_prop in H as [? ?]
  | H : ?x = _, H' : context [?x] |- _ => rewrite H in H'
  | H : ?x = _ |- context [?x] => rewrite H
  | |- context [extractLoop _ _ _ _ _] => rewrite extractLoop_run
  | _ => progress cbn [negb orb fst snd bind ret console_log console_error await throw
                         lift process_exit try_catch Nat.eqb List.length]
  | |- context [EmptyString ++ ?x] => change (EmptyString ++ x) with x
  | |- context [hasPullRequest ?x] => destruct (hasPullRequest x) eqn:?
  end;
  rewrite <- ?app_assoc; cbn [app fatal].

(** Every run of [main] follows one of the ten paths. *)
Lemma main_path (env : Env) (w : World) : path env w (main env w).
Proof.
  destruct (hasCredentials env) eqn:Hc.
  2:{ eapply path_intro; [apply path_missing_credentials; exact Hc|].
      unfold main, main_try, prelude. unfold hasCredentials in Hc.
      destruct (truthy (AWS_ACCESS_KEY_ID env)), (truthy (AWS_SECRET_ACCESS_KEY env));
        try discriminate; reflexivity. }
  destruct (truthy (WORKFLOW_RUN_ID env)) eqn:Hr.
  2:{ eapply path_intro; [apply path_missing_run_id; assumption|].
      run_main; reflexivity. }
  destruct (GITHUB_REPOSITORY env) as [s|] eqn:Hg.
  2:{ eapply path_intro; [apply path_no_repository; assumption|].
      run_main; reflexivity. }
  assert (Hg' : GITHUB_REPOSITORY env <> None) by congruence.
  assert (Hor : owner_repo s = (ownerOf env, repoOf env)).
  { unfold ownerOf, repoOf. rewrite Hg. now destruct (owner_repo s). }
  destruct (getWorkflowRun w (ownerOf env) (repoOf env) (WORKFLOW_RUN_ID env))
    as [run|e] eqn:Hrun.
  2:{ eapply path_intro; [eapply path_run_rejected; eassumption|].
      run_main; reflexivity. }
  destruct (listJobsForWorkflowRun w (ownerOf env) (repoOf env) (WORKFLOW_RUN_ID env))
    as [jobs|e] eqn:Hjobs.
  2:{ eapply path_intro; [eapply path_jobs_rejected; eassumption|].
      run_main; reflexivity. }
  destruct (filter isFailure jobs) as [|job failed] eqn:Hf.
  { eapply path_intro; [eapply path_no_failed_jobs; eassumption|].
    run_main; reflexivity. }
  assert (Hf' : filter isFailure jobs <> []) by congruence.
  destruct (sendAnswer env w) as [parsed|e] eqn:Hsend.
  2:{ eapply path_intro; [eapply path_send_rejected; eassumption|].
      run_main; reflexivity. }
  destruct (read_analysis parsed) as [analysis|e|code] eqn:Hread.
  3:{ now apply read_analysis_no_exit in Hread. }
  2:{ eapply path_intro; [eapply path_answer_unreadable; eassumption|].
      run_main; reflexivity. }
  destruct (postAnswer env w analysis) as [[]|e] eqn:Hpost.
  2:{ eapply path_intro; [eapply path_post_rejected; eassumption|].
      run_main; reflexivity. }
  eapply path_intro; [eapply path_posted; eassumption|].
  run_main; reflexivity.
Qed.

(** ** Traces *)

Lemma existsb_loop (p : event -> bool) w o r jobs :
  (forall job, existsb p (jobEvents w o r job) = false) ->
  existsb p (flat_map (jobEvents w o r) jobs) = false.
Proof.
  intros Hp. induction jobs as [|job jobs IH]; [reflexivity|].
  cbn [flat_map]. now rewrite existsb_app, Hp, IH.
Qed.

Lemma filter_existsb_false {A : Type} (p : A -> bool) (l : list A) :
  existsb p l = false -> filter p l = [].
Proof.
  induction l as [|a l IH]; [reflexivity|]. simpl.
  destruct (p a); [discriminate|]. exact IH.
Qed.

Ltac loop_quiet :=
  apply existsb_loop; intros job; unfold jobEvents;
  destruct (downloadJobLogsForWorkflowRun _ _ _ _); reflexivity.

Lemma loop_no_send w o r jobs : existsb isSend (flat_map (jobEvents w o r) jobs) = false.
Proof. loop_quiet. Qed.
Lemma loop_no_post w o r jobs : existsb isPost (flat_map (jobEvents w o r) jobs) = false.
Proof. loop_quiet. Qed.
Lemma loop_no_listing w o r jobs : existsb isListJobs (flat_map (jobEvents w o r) jobs) = false.
Proof. loop_quiet. Qed.
Lemma loop_no_request_line w o r jobs :
  existsb (isLog "Analyzing failure with Claude via Bedrock...") (flat_map (jobEvents w o r) jobs) = false.
Proof. loop_quiet. Qed.
Lemma loop_no_report_line w o r jobs :
  existsb (isLog "Creating comment with analysis...") (flat_map (jobEvents w o r) jobs) = false.
Proof. loop_quiet. Qed.

Ltac trace_simpl :=
  unfold reachesListing, reachesRequester, reachesReporter, exit_status, trace,
    reported, requested, extracted, listed, located, prelude, fatal in *;
  cbn [fst snd] in *;
  rewrite ?existsb_app, ?filter_app in *;
  cbn [existsb filter app orb isSend isPost isListJobs isExternalCall] in *;
  rewrite ?loop_no_send, ?loop_no_post, ?loop_no_listing, ?loop_no_request_line,
    ?loop_no_report_line in *;
  cbn [orb] in *.

Lemma loop_only_downloads w o r jobs e :
  In e (flat_map (jobEvents w o r) jobs) ->
  isExternalCall e = true -> exists id, e = DownloadJobLogsForWorkflowRun o r id.
Proof.
  intros Hin Hext. apply in_flat_map in Hin as (job & _ & Hin).
  unfold jobEvents in Hin.
  destruct (downloadJobLogsForWorkflowRun w o r (job_id job));
    simpl in Hin; intuition (subst; try discriminate; eauto).
Qed.

(** ** Early exits *)

(** C2, as stated, fails: the job list of the run has no failed job, but
    the AWS credentials are missing; the credential check comes first, the
    process exits with status 1 and the jobs are never listed. *)
Lemma no_failed_jobs_without_credentials_exits_1 :
  listJobsForWorkflowRun (Sample.world [Sample.lint]) (ownerOf Sample.keyless_env)
    (repoOf Sample.keyless_env) (WORKFLOW_RUN_ID Sample.keyless_env)
  = Resolved [Sample.lint] /\
  filter isFailure [Sample.lint] = [] /\
  exit_status (main Sample.keyless_env (Sample.world [Sample.lint])) = 1%Z /\
  reachesListing (main Sample.keyless_env (Sample.world [Sample.lint])) = false.
Proof. vm_compute. repeat split; reflexivity. Qed.

(** C2, amended: when the run gets as far as the job listing and the
    listing answers with a list in which no job has the conclusion
    [failure], the run ends right after the listing with the line [No
    failed jobs found]: the exit status is 0 and the trace has no request
    to the model and no comment-creation write.  A run only gets that far
    with both AWS credentials, a run identifier, a [GITHUB_REPOSITORY] and
    a run-metadata call that resolved. *)
Theorem no_failed_jobs_stops_after_listing (env : Env) (w : World) (jobs : list Job) :
  reachesListing (main env w) = true ->
  listJobsForWorkflowRun w (ownerOf env) (repoOf env) (WORKFLOW_RUN_ID env)
    = Resolved jobs ->
  filter isFailure jobs = [] ->
  main env w = (Normal tt, (listed env ++ [ConsoleLog "No failed jobs found"])%list) /\
  exit_status (main env w) = 0%Z /\
  existsb isSend (trace (main env w)) = false /\
  existsb isPost (trace (main env w)) = false /\
  hasCredentials env = true /\
  truthy (WORKFLOW_RUN_ID env) = true /\
  GITHUB_REPOSITORY env <> None /\
  exists run,
    getWorkflowRun w (ownerOf env) (repoOf env) (WORKFLOW_RUN_ID env) = Resolved run.
Proof.
  intros Hreach Hjobs Hnone.
  destruct (main_path env w); trace_simpl; try discriminate; try congruence.
  repeat split; try reflexivity; try assumption. eauto.
Qed.

Lemma no_failed_jobs_stops_after_listing_witness :
  exit_status (main Sample.env (Sample.world [Sample.lint])) = 0%Z /\
  existsb isSend (trace (main Sample.env (Sample.world [Sample.lint]))) = false /\
  existsb isPost (trace (main Sample.env (Sample.world [Sample.lint]))) = false.
Proof.
  destruct (no_failed_jobs_stops_after_listing Sample.env
              (Sample.world [Sample.lint]) [Sample.lint])
    as (_ & Hexit & Hsend & Hpost & _); [vm_compute; reflexivity..|].
  now repeat split.
Defined.

(** C3, as stated, fails: without a run identifier and without AWS
    credentials the credential check comes first, the process exits with
    status 1 and the skip line is never logged. *)
Lemma missing_run_id_without_credentials_exits_1 :
  truthy (WORKFLOW_RUN_ID Sample.bare_env) = false /\
  exit_status (main Sample.bare_env (Sample.world [])) = 1%Z /\
  existsb (isLog "No workflow run ID found, skipping...")
    (trace (main Sample.bare_env (Sample.world []))) = false.
Proof. vm_compute. repeat split; reflexivity. Qed.

(** C3, amended: when both AWS credentials are present and the run
    identifier is absent (undefined or empty), the run logs the skip line
    and returns: the exit status is 0, the skip line ends the trace, and no
    service is called. *)
Theorem missing_run_id_skips (env : Env) (w : World) :
  hasCredentials env = true ->
  truthy (WORKFLOW_RUN_ID env) = false ->
  main env w =
    (Normal tt,
     (prelude env ++ [ConsoleLog "No workflow run ID found, skipping..."])%list) /\
  exit_status (main env w) = 0%Z /\
  existsb isExternalCall (trace (main env w)) = false.
Proof.
  intros Hcred Hrun.
  destruct (main_path env w); try congruence.
  trace_simpl. repeat split; reflexivity.
Qed.

Lemma missing_run_id_skips_witness :
  main Sample.no_run_env (Sample.world []) =
    (Normal tt,
     (prelude Sample.no_run_env ++
      [ConsoleLog "No workflow run ID found, skipping..."])%list) /\
  exit_status (main Sample.no_run_env (Sample.world [])) = 0%Z /\
  existsb isExternalCall (trace (main Sample.no_run_env (Sample.world []))) = false.
Proof.
  apply (missing_run_id_skips Sample.no_run_env (Sample.world []));
    vm_compute; reflexivity.
Defined.

(** ** Decimal numerals and [parseInt] *)

Lemma string_of_uint_digit (d : Decimal.uint) :
  match NilEmpty.string_of_uint d with
  | String c _ => is_digit c
  | EmptyString => d = Decimal.Nil
  end.
Proof. destruct d; simpl; unfold is_digit; simpl; tauto. Qed.

Lemma to_uint_not_nil (n : nat) : Nat.to_uint n <> Decimal.Nil.
Proof.
  intros E. pose proof (Unsigned.of_to n) as H. rewrite E in H.
  cbn in H. subst n. discriminate.
Qed.

Lemma trimStart_digit (c : ascii) (s : string) :
  is_digit c -> trimStart (String c s) = String c s.
Proof.
  intros Hc. unfold trimStart.
  rewrite <- (string_of_list_ascii_of_string (String c s)) at 2. f_equal.
  cbn [list_ascii_of_string].
  unfold is_digit in Hc. cbn [In] in Hc.
  destruct (list_ascii_of_string s) as [|b [|c3 l]];
    repeat (destruct Hc as [<-|Hc]; [reflexivity|]); contradiction.
Qed.

Lemma parse_digits_decimal (d : Decimal.uint) (acc : nat) :
  parse_digits 10 (Some (Z.of_nat acc)) (NilEmpty.string_of_uint d)
  = Some (Z.of_nat (Nat.of_uint_acc d acc)).
Proof.
  revert acc.
  induction d; intros acc;
    cbn [NilEmpty.string_of_uint Nat.of_uint_acc parse_digits];
    [reflexivity|..];
    match goal with
    | |- context [digit_value ?r ?c] =>
        let v := eval vm_compute in (digit_value r c) in
        change (digit_value r c) with v
    end;
    cbv iota beta; rewrite <- IHd; do 2 f_equal;
    rewrite Nat.tail_mul_spec; lia.
Qed.

Lemma parse_digits_first (d : Decimal.uint) :
  d <> Decimal.Nil ->
  parse_digits 10 None (NilEmpty.string_of_uint d)
  = parse_digits 10 (Some 0%Z) (NilEmpty.string_of_uint d).
Proof. destruct d; [congruence|..]; reflexivity. Qed.

Lemma parseInt_digits (c : ascii) (s : string) (v : Z) :
  is_digit c -> no_hex_mark s ->
  parse_digits 10 None (String c s) = Some v ->
  parseInt (String c s) = number_of false v.
Proof.
  intros Hc Hs Hv. unfold parseInt. rewrite trimStart_digit by exact Hc.
  unfold is_digit in Hc. cbn [In] in Hc.
  destruct Hc as [<-|Hc].
  { destruct s as [|[[] [] [] [] [] [] [] []] s']; try contradiction;
      cbv beta iota zeta; now rewrite Hv. }
  repeat (destruct Hc as [<-|Hc]; [cbv beta iota zeta; now rewrite Hv|]).
  contradiction.
Qed.

Lemma string_of_uint_no_hex_mark (d : Decimal.uint) :
  no_hex_mark (NilEmpty.string_of_uint d).
Proof. destruct d; exact I. Qed.

(** Every natural number up to [2 ^ 53] is a double. *)
Lemma to_double_exact (n : Z) : (n <= 2 ^ 53)%Z -> to_double n = Some n.
Proof.
  intros Hn. unfold to_double.
  destruct (Z.ltb_spec n (2 ^ 53)) as [_|Hge]; [reflexivity|].
  assert (n = 2 ^ 53)%Z as -> by lia. reflexivity.
Qed.

Section Doubles.

Local Open Scope Z_scope.

(** Above [2 ^ 53] the result is a double, a significand of at most 53
    bits times a power of two, at a distance of at most half a unit in the
    last place; the significand is even when the distance is exactly
    half. *)
Lemma to_double_nearest (n v : Z) :
  2 ^ 53 <= n -> to_double n = Some v ->
  exists q e,
    1 <= e /\ v = q * 2 ^ e /\ 2 ^ 52 <= q <= 2 ^ 53 /\ v < 2 ^ 1024 /\
    2 * Z.abs (v - n) <= 2 ^ e /\
    (2 * Z.abs (v - n) = 2 ^ e -> Z.even q = true).
Proof.
  intros Hn. unfold to_double.
  destruct (Z.ltb_spec n (2 ^ 53)) as [Hlt|_]; [lia|].
  set (e := Z.log2 n - 52).
  assert (Hpos : 0 < n) by (assert (0 < 2 ^ 53) by reflexivity; lia).
  destruct (Z.log2_spec n Hpos) as [Hlo Hhi].
  assert (He : 1 <= e).
  { unfold e. assert (53 <= Z.log2 n); [|lia].
    apply Z.log2_le_pow2; [lia|exact Hn]. }
  rewrite !Z.shiftl_mul_pow2, Z.shiftr_div_pow2 by lia.
  set (q := n / 2 ^ e). rewrite Z.mul_1_l.
  assert (Hpe : 0 < 2 ^ e) by (apply Z.pow_pos_nonneg; lia).
  assert (Hhalf : 2 ^ e = 2 * 2 ^ (e - 1)).
  { replace e with (Z.succ (e - 1)) at 1 by lia. apply Z.pow_succ_r. lia. }
  assert (Hdiv : n = 2 ^ e * q + n mod 2 ^ e) by (apply Z.div_mod; lia).
  assert (Hmod : 0 <= n mod 2 ^ e < 2 ^ e) by (apply Z.mod_pos_bound; lia).
  assert (Hlog : 2 ^ Z.log2 n = 2 ^ 52 * 2 ^ e).
  { unfold e. rewrite <- Z.pow_add_r by lia. f_equal. lia. }
  assert (Hlog' : 2 ^ Z.succ (Z.log2 n) = 2 ^ 53 * 2 ^ e).
  { unfold e. rewrite <- Z.pow_add_r by lia. f_equal. lia. }
  assert (Hq : 2 ^ 52 <= q < 2 ^ 53).
  { unfold q. split.
    - apply Z.div_le_lower_bound; lia.
    - apply Z.div_lt_upper_bound; lia. }
  set (r := n - q * 2 ^ e). assert (Hr : r = n mod 2 ^ e) by (unfold r; lia).
  destruct ((2 ^ (e - 1) <? r) || ((r =? 2 ^ (e - 1)) && Z.odd q)) eqn:Hup.
  - destruct (Z.ltb_spec ((q + 1) * 2 ^ e) (2 ^ 1024)) as [Hfin|]; [|discriminate].
    intros [= <-]. exists (q + 1), e.
    split; [exact He|]. split; [reflexivity|]. split; [lia|]. split; [exact Hfin|].
    apply orb_true_iff in Hup as [Hup|Hup].
    + apply Z.ltb_lt in Hup. split; [lia|]. intros Heq. lia.
    + apply andb_true_iff in Hup as [Hup Hodd]. apply Z.eqb_eq in Hup.
      split; [lia|]. intros _. rewrite Z.even_add, <- Z.negb_odd, Hodd. reflexivity.
  - destruct (Z.ltb_spec (q * 2 ^ e) (2 ^ 1024)) as [Hfin|]; [|discriminate].
    intros [= <-]. exists q, e.
    split; [exact He|]. split; [reflexivity|]. split; [lia|]. split; [exact Hfin|].
    apply orb_false_iff in Hup as [Hup Htie]. apply Z.ltb_ge in Hup.
    split; [lia|]. intros Heq.
    apply andb_false_iff in Htie as [Hne|Hodd].
    + apply Z.eqb_neq in Hne. lia.
    + now rewrite <- Z.negb_odd, Hodd.
Qed.

End Doubles.

(** [parseInt] reads a decimal numeral back to the double nearest to its
    number. *)
Lemma parseInt_numeral (n : nat) :
  parseInt (string_of_nat n) = number_of false (Z.of_nat n).
Proof.
  unfold string_of_nat.
  pose proof (to_uint_not_nil n) as Hnil.
  pose proof (parse_digits_first _ Hnil) as Hfirst.
  pose proof (parse_digits_decimal (Nat.to_uint n) 0) as Hval.
  change (Z.of_nat 0) with 0%Z in Hval. rewrite <- Hfirst in Hval.
  fold (Nat.of_uint (Nat.to_uint n)) in Hval. rewrite Unsigned.of_to in Hval.
  destruct (Nat.to_uint n) as [|u|u|u|u|u|u|u|u|u|u]; [congruence|..];
    (apply parseInt_digits;
     [unfold is_digit; simpl; tauto | apply string_of_uint_no_hex_mark | exact Hval]).
Qed.

Lemma string_of_nat_shape (n : nat) :
  exists c s, string_of_nat n = String c s /\ is_digit c.
Proof.
  unfold string_of_nat. pose proof (to_uint_not_nil n) as Hnil.
  pose proof (string_of_uint_digit (Nat.to_uint n)) as Hd.
  destruct (NilEmpty.string_of_uint (Nat.to_uint n)) as [|c s]; [congruence|].
  eauto.
Qed.

(** ... which up to [2 ^ 53] is the number itself. *)
Lemma parseInt_decimal (n : nat) :
  (Z.of_nat n <= 2 ^ 53)%Z -> parseInt (string_of_nat n) = Double false (Z.of_nat n).
Proof.
  intros Hn. rewrite parseInt_numeral. unfold number_of.
  now rewrite to_double_exact.
Qed.

(** ** The Reporter *)

Lemma hasPullRequest_spec (v : option string) :
  hasPullRequest v = true <-> exists n, v = Some n /\ n <> "" /\ n <> "null".
Proof.
  unfold hasPullRequest, truthy. destruct v as [n|]; simpl.
  - rewrite andb_true_iff, !negb_true_iff, !String.eqb_neq. split.
    + intros [H1 H2]. eauto.
    + intros (m & [= <-] & H1 & H2). auto.
  - split; [discriminate | intros (m & [=] & _)].
Qed.

Lemma hasPullRequest_numeral (k : nat) :
  hasPullRequest (Some (string_of_nat k)) = true.
Proof.
  apply hasPullRequest_spec. exists (string_of_nat k).
  destruct (string_of_nat_shape k) as (c & s & -> & Hc).
  unfold is_digit in Hc. cbn [In] in Hc.
  repeat split; try discriminate.
  intros [= -> _]. intuition discriminate.
Qed.

Lemma commentBody_heading (analysis workflowName : string) :
  starts_with (commentBody analysis workflowName) commentHeading.
Proof. unfold commentBody, starts_with. eauto. Qed.

Lemma commentBody_analysis (analysis workflowName : string) :
  substring_of analysis (commentBody analysis workflowName).
Proof.
  unfold commentBody, substring_of.
  exists (commentHeading ++ nl ++ nl). eexists.
  rewrite !append_assoc. reflexivity.
Qed.

(** C4, as stated, fails for a number beyond [2 ^ 53]: [parseInt] gives
    the nearest double, and the comment meant for the review request
    9007199254740993 is posted to the request 9007199254740992. *)
Lemma large_pull_request_number_is_rounded :
  PULL_REQUEST_NUMBER Sample.big_pr_env = Some "9007199254740993" /\
  reachesReporter (main Sample.big_pr_env (Sample.world [Sample.build])) = true /\
  exit_status (main Sample.big_pr_env (Sample.world [Sample.build])) = 0%Z /\
  filter isPost (trace (main Sample.big_pr_env (Sample.world [Sample.build])))
  = [ CreateComment "octo" (Some "demo") (Double false 9007199254740992)
        (commentBody "Install the module." "CI") ].
Proof. vm_compute. repeat split; reflexivity. Qed.

(** C4, amended: a run that reaches the Reporter performs exactly one
    comment-creation write.  Its body is the diagnosis inside the fixed
    template that begins with the heading [## (robot) Automated Failure
    Analysis] and ends with the line that names the workflow.  With a pull
    request number that is present, not empty and not the text [null],
    the write is a comment on the issue whose number [parseInt] reads from
    that text: for a decimal numeral up to [2 ^ 53] the number itself, for
    a larger one the nearest double.  Otherwise it is a commit comment on
    the head revision. *)
Theorem reporter_posts_exactly_once (env : Env) (w : World) :
  reachesReporter (main env w) = true ->
  exists parsed analysis,
    sendAnswer env w = Resolved parsed /\
    read_analysis parsed = Normal analysis /\
    filter isPost (trace (main env w)) = [postOf env analysis] /\
    let body := commentBody analysis (str_of_env (WORKFLOW_NAME env)) in
    body
    = ("## " ++ robot ++ " Automated Failure Analysis") ++ nl ++
      nl ++
      analysis ++ nl ++
      nl ++
      "---" ++ nl ++
      "*This analysis was generated automatically by Claude via AWS Bedrock when the "
      ++ dquote ++ str_of_env (WORKFLOW_NAME env) ++ dquote ++ " workflow failed.*" /\
    starts_with body ("## " ++ robot ++ " Automated Failure Analysis") /\
    substring_of analysis body /\
    (forall n, PULL_REQUEST_NUMBER env = Some n -> n <> "" -> n <> "null" ->
       postOf env analysis =
       CreateComment (ownerOf env) (repoOf env) (parseInt n) body) /\
    (forall k, PULL_REQUEST_NUMBER env = Some (string_of_nat k) ->
       (Z.of_nat k <= 2 ^ 53)%Z ->
       postOf env analysis =
       CreateComment (ownerOf env) (repoOf env) (Double false (Z.of_nat k)) body) /\
    (forall k, PULL_REQUEST_NUMBER env = Some (string_of_nat k) ->
       postOf env analysis =
       CreateComment (ownerOf env) (repoOf env) (number_of false (Z.of_nat k)) body) /\
    (PULL_REQUEST_NUMBER env = None \/ PULL_REQUEST_NUMBER env = Some "" \/
     PULL_REQUEST_NUMBER env = Some "null" ->
       postOf env analysis =
       CreateCommitComment (ownerOf env) (repoOf env) (HEAD_SHA env) body).
Proof.
  intros Hreach.
  assert (Hshape : forall analysis,
    let body := commentBody analysis (str_of_env (WORKFLOW_NAME env)) in
    body
    = ("## " ++ robot ++ " Automated Failure Analysis") ++ nl ++
      nl ++
      analysis ++ nl ++
      nl ++
      "---" ++ nl ++
      "*This analysis was generated automatically by Claude via AWS Bedrock when the "
      ++ dquote ++ str_of_env (WORKFLOW_NAME env) ++ dquote ++ " workflow failed.*" /\
    starts_with body ("## " ++ robot ++ " Automated Failure Analysis") /\
    substring_of analysis body /\
    (forall n, PULL_REQUEST_NUMBER env = Some n -> n <> "" -> n <> "null" ->
       postOf env analysis =
       CreateComment (ownerOf env) (repoOf env) (parseInt n) body) /\
    (forall k, PULL_REQUEST_NUMBER env = Some (string_of_nat k) ->
       (Z.of_nat k <= 2 ^ 53)%Z ->
       postOf env analysis =
       CreateComment (ownerOf env) (repoOf env) (Double false (Z.of_nat k)) body) /\
    (forall k, PULL_REQUEST_NUMBER env = Some (string_of_nat k) ->
       postOf env analysis =
       CreateComment (ownerOf env) (repoOf env) (number_of false (Z.of_nat k)) body) /\
    (PULL_REQUEST_NUMBER env = None \/ PULL_REQUEST_NUMBER env = Some "" \/
     PULL_REQUEST_NUMBER env = Some "null" ->
       postOf env analysis =
       CreateCommitComment (ownerOf env) (repoOf env) (HEAD_SHA env) body)).
  { intros analysis body.
    split; [reflexivity|].
    split; [apply commentBody_heading|].
    split; [apply commentBody_analysis|].
    unfold postOf. fold body. split; [|split; [|split]].
    - intros n Hn H1 H2.
      assert (H : hasPullRequest (PULL_REQUEST_NUMBER env) = true)
        by (apply hasPullRequest_spec; eauto).
      rewrite H, Hn. reflexivity.
    - intros k Hk Hsmall. rewrite Hk, hasPullRequest_numeral. cbn [str_of_env].
      now rewrite parseInt_decimal.
    - intros k Hk. rewrite Hk, hasPullRequest_numeral. cbn [str_of_env].
      now rewrite parseInt_numeral.
    - intros [H|[H|H]]; rewrite H; reflexivity. }
  destruct (main_path env w) as [| | | | | | | |? ? parsed analysis ?|? ? parsed analysis];
    try (trace_simpl; discriminate).
  - exists parsed, analysis. repeat (split; [assumption|]). split; [|apply Hshape].
    clear Hshape Hreach. trace_simpl.
    rewrite (filter_existsb_false _ _ (loop_no_post _ _ _ _)).
    unfold postOf. destruct (hasPullRequest _); reflexivity.
  - exists parsed, analysis. repeat (split; [assumption|]). split; [|apply Hshape].
    clear Hshape Hreach. trace_simpl.
    rewrite (filter_existsb_false _ _ (loop_no_post _ _ _ _)).
    unfold postOf. destruct (hasPullRequest _); reflexivity.
Qed.

Lemma reporter_posts_exactly_once_witness :
  exists parsed analysis,
    sendAnswer Sample.env (Sample.world [Sample.build]) = Resolved parsed /\
    read_analysis parsed = Normal analysis /\
    filter isPost (trace (main Sample.env (Sample.world [Sample.build])))
      = [CreateComment "octo" (Some "demo") (Double false 42)
           (commentBody analysis "CI")].
Proof.
  assert (Hreach : reachesReporter (main Sample.env (Sample.world [Sample.build])) = true)
    by (vm_compute; reflexivity).
  destruct (reporter_posts_exactly_once Sample.env (Sample.world [Sample.build]) Hreach)
    as (parsed & analysis & Hsend & Hread & Hpost & _ & _ & _ & _ & Hsmall & _).
  exists parsed, analysis. split; [exact Hsend|]. split; [exact Hread|].
  rewrite Hpost, (Hsmall 42%nat eq_refl); [reflexivity|].
  vm_compute. discriminate.
Defined.

(** ** The Log Extractor *)

Lemma sections_nil w o r : sections w o r [] = "".
Proof. reflexivity. Qed.

Lemma sections_cons w o r job jobs :
  sections w o r (job :: jobs) = jobSection w o r job ++ sections w o r jobs.
Proof. unfold sections. cbn [map]. apply concat_empty_cons. Qed.

Lemma sections_app w o r l1 l2 :
  sections w o r (l1 ++ l2) = sections w o r l1 ++ sections w o r l2.
Proof.
  induction l1 as [|job l1 IH]; [reflexivity|].
  cbn [app]. now rewrite !sections_cons, IH, append_assoc.
Qed.

Lemma section_in_sections w o r job jobs :
  In job jobs -> substring_of (jobSection w o r job) (sections w o r jobs).
Proof.
  intros Hin. apply in_split in Hin as (l1 & l2 & ->).
  rewrite sections_app, sections_cons.
  now exists (sections w o r l1), (sections w o r l2).
Qed.

Lemma jobSection_cases w o r job :
  (exists data,
     downloadJobLogsForWorkflowRun w o r (job_id job) = Resolved data /\
     jobSection w o r job = jobHeader job ++ keyErrorMessages data) \/
  (exists e,
     downloadJobLogsForWorkflowRun w o r (job_id job) = Rejected e /\
     jobSection w o r job = degradedSection job).
Proof.
  unfold jobSection.
  destruct (downloadJobLogsForWorkflowRun w o r (job_id job)); eauto.
Qed.

(** C7: the aggregated text is the concatenation of the sections of the
    jobs with the conclusion [failure], taken in the order of the job
    list; every section is either the full one (header and key error
    block) or the degraded one, and the section of a job stands between
    the sections of the failed jobs before it and those after it. *)
Theorem sections_follow_job_order (w : World) (owner : string)
    (repo : option string) (jobs : list Job) :
  let failedJobs := filter isFailure jobs in
  fst (extractLoop w owner repo failedJobs "")
    = Normal (String.concat "" (map (jobSection w owner repo) failedJobs)) /\
  (forall job,
     (exists data,
        downloadJobLogsForWorkflowRun w owner repo (job_id job) = Resolved data /\
        jobSection w owner repo job = jobHeader job ++ keyErrorMessages data) \/
     (exists e,
        downloadJobLogsForWorkflowRun w owner repo (job_id job) = Rejected e /\
        jobSection w owner repo job = degradedSection job)) /\
  (forall before job after,
     jobs = (before ++ job :: after)%list -> isFailure job = true ->
     String.concat "" (map (jobSection w owner repo) failedJobs)
     = sections w owner repo (filter isFailure before)
       ++ jobSection w owner repo job
       ++ sections w owner repo (filter isFailure after)).
Proof.
  intros failedJobs. split; [|split].
  - now rewrite extractLoop_run.
  - intros job. apply jobSection_cases.
  - intros before job after -> Hfail. unfold failedJobs.
    rewrite filter_app. cbn [filter]. rewrite Hfail.
    fold (sections w owner repo (filter isFailure before ++ job :: filter isFailure after)).
    now rewrite sections_app, sections_cons.
Qed.

Lemma sections_follow_job_order_witness :
  String.concat ""
    (map (jobSection (Sample.world []) "octo" (Some "demo"))
       (filter isFailure [Sample.build; Sample.lint; Sample.test]))
  = sections (Sample.world []) "octo" (Some "demo") (filter isFailure [])
    ++ jobSection (Sample.world []) "octo" (Some "demo") Sample.build
    ++ sections (Sample.world []) "octo" (Some "demo")
         (filter isFailure [Sample.lint; Sample.test]).
Proof.
  apply (proj2 (proj2 (sections_follow_job_order (Sample.world []) "octo"
                         (Some "demo") [Sample.build; Sample.lint; Sample.test]))
           [] Sample.build [Sample.lint; Sample.test]); reflexivity.
Defined.

Lemma keyErrorMessages_empty (data : option string) :
  keyErrorMessages data = "" <->
  data = None \/ data = Some "" \/ exists s, data = Some s /\ errorLines s = [].
Proof.
  unfold keyErrorMessages, truthy. destruct data as [s|]; cbn [str_of_env].
  - destruct (String.eqb_spec s "") as [->|Hne]; cbn [negb].
    + split; auto.
    + destruct (errorLines s) as [|l ls] eqn:E.
      * split; eauto.
      * split; [discriminate|].
        intros [H|[H|(s' & [= <-] & H)]]; congruence.
  - split; auto.
Qed.

(** C10: when the log download succeeds with absent or empty data, or
    with a log in which no line is salient, the section of the job is its
    four header lines and nothing else, the loop turn ends normally and
    the loop goes on with the next job. *)
Theorem empty_log_gives_header_only (w : World) (owner : string)
    (repo : option string) (job : Job) (data : option string) :
  downloadJobLogsForWorkflowRun w owner repo (job_id job) = Resolved data ->
  data = None \/ data = Some "" \/ (exists s, data = Some s /\ errorLines s = []) ->
  jobSection w owner repo job
  = nl ++ "## Job: " ++ job_name job ++ nl
    ++ "Status: " ++ str_of_nullable (job_conclusion job) ++ nl
    ++ "Started: " ++ str_of_nullable (job_started_at job) ++ nl
    ++ "Completed: " ++ str_of_nullable (job_completed_at job) ++ nl /\
  jobSection w owner repo job = jobHeader job /\
  (forall failureDetails,
     extractJob w owner repo job failureDetails
     = (Normal (failureDetails ++ jobHeader job),
        [ConsoleLog ("Getting logs for job: " ++ job_name job);
         DownloadJobLogsForWorkflowRun owner repo (job_id job)])) /\
  (forall rest failureDetails,
     extractLoop w owner repo (job :: rest) failureDetails
     = (fst (extractLoop w owner repo rest (failureDetails ++ jobHeader job)),
        ([ConsoleLog ("Getting logs for job: " ++ job_name job);
          DownloadJobLogsForWorkflowRun owner repo (job_id job)]
         ++ snd (extractLoop w owner repo rest (failureDetails ++ jobHeader job)))%list)).
Proof.
  intros Hdata Hempty.
  assert (Hkey : keyErrorMessages data = "") by now apply keyErrorMessages_empty.
  assert (Hsec : jobSection w owner repo job = jobHeader job).
  { unfold jobSection. rewrite Hdata, Hkey. apply append_nil_r. }
  assert (Hturn : forall failureDetails,
     extractJob w owner repo job failureDetails
     = (Normal (failureDetails ++ jobHeader job),
        [ConsoleLog ("Getting logs for job: " ++ job_name job);
         DownloadJobLogsForWorkflowRun owner repo (job_id job)])).
  { intros fd. rewrite extractJob_run, Hsec. unfold jobEvents.
    now rewrite Hdata. }
  split; [|split; [exact Hsec|split; [exact Hturn|]]].
  - rewrite Hsec. unfold jobHeader. now rewrite !append_assoc.
  - intros rest fd. cbn [extractLoop]. rewrite Hturn. cbn [bind].
    now destruct (extractLoop w owner repo rest (fd ++ jobHeader job)).
Qed.

Lemma empty_log_gives_header_only_witness :
  jobSection Sample.calm "octo" (Some "demo")
    (mkJob 1 "build" (Some "failure") (Some "t0") None)
  = nl ++ "## Job: build" ++ nl ++ "Status: failure" ++ nl
    ++ "Started: t0" ++ nl ++ "Completed: null" ++ nl.
Proof.
  refine (proj1 (empty_log_gives_header_only Sample.calm "octo" (Some "demo")
                   (mkJob 1 "build" (Some "failure") (Some "t0") None)
                   (Some "all good") _ _)).
  - reflexivity.
  - right. right. exists "all good". split; reflexivity.
Defined.

(** ** The Prompt Builder *)

Lemma substring_of_head (x q : string) : substring_of x (x ++ q).
Proof. now exists "", q. Qed.

Lemma substring_of_head3 (x y z q : string) :
  substring_of (x ++ y ++ z) (x ++ y ++ z ++ q).
Proof. exists "", q. simpl. now rewrite !append_assoc. Qed.

Ltac find_substring :=
  first [ apply substring_of_refl
        | apply substring_of_head
        | apply substring_of_append_l; find_substring ].

Lemma in_concat_substring (sep line : string) (lines : list string) :
  In line lines -> substring_of line (String.concat sep lines).
Proof.
  induction lines as [|l ls IH]; [contradiction|].
  intros [->|Hin].
  - destruct ls; [apply substring_of_refl | apply substring_of_head].
  - destruct ls as [|l' ls]; [contradiction|].
    change (String.concat sep (l :: l' :: ls))
      with (l ++ sep ++ String.concat sep (l' :: ls)).
    now apply substring_of_append_l, substring_of_append_l, IH.
Qed.

Lemma errorLine_in_keyErrorMessages (log line : string) :
  In line (errorLines log) -> substring_of line (keyErrorMessages (Some log)).
Proof.
  intros Hin. unfold keyErrorMessages, truthy. cbn [str_of_env].
  destruct (String.eqb_spec log "") as [->|Hne]; [contradiction|].
  cbn [negb]. destruct (errorLines log) as [|l ls] eqn:E; [contradiction|].
  do 3 apply substring_of_append_l. apply substring_of_append_r.
  now apply in_concat_substring.
Qed.

Lemma blob_in_prompt (workflowName workflowRunId owner repo failureDetails : string) :
  substring_of failureDetails
    (analysisPrompt workflowName workflowRunId owner repo failureDetails).
Proof. unfold analysisPrompt. find_substring. Qed.

(** A salient line that survives the extraction of a failed job's log is
    part of the prompt of the run. *)
Lemma salient_line_in_prompt (env : Env) (w : World) (job : Job)
    (log line : string) :
  In job (failedJobsOf env w) ->
  downloadJobLogsForWorkflowRun w (ownerOf env) (repoOf env) (job_id job)
    = Resolved (Some log) ->
  In line (errorLines log) ->
  substring_of line (promptOf env w).
Proof.
  intros Hjob Hlog Hline. unfold promptOf.
  eapply substring_of_trans; [|apply blob_in_prompt].
  eapply substring_of_trans; [|apply section_in_sections; exact Hjob].
  unfold jobSection. rewrite Hlog.
  apply substring_of_append_l. now apply errorLine_in_keyErrorMessages.
Qed.

(** ** A failed log download *)

Lemma failedJobs_failed (env : Env) (w : World) (job : Job) :
  In job (failedJobsOf env w) -> job_conclusion job = Some "failure".
Proof.
  unfold failedJobsOf.
  destruct (listJobsForWorkflowRun _ _ _ _) as [jobs|]; [|contradiction].
  intros Hin. apply filter_In in Hin as [_ Hf]. unfold isFailure in Hf.
  destruct (job_conclusion job) as [c|]; [|discriminate].
  apply String.eqb_eq in Hf. now subst.
Qed.

Lemma download_in_loop w o r job jobs :
  In job jobs ->
  In (DownloadJobLogsForWorkflowRun o r (job_id job)) (flat_map (jobEvents w o r) jobs).
Proof.
  intros Hin. apply in_flat_map. exists job. split; [exact Hin|].
  unfold jobEvents. right. now left.
Qed.

Lemma extracted_has_download env w other :
  In other (failedJobsOf env w) ->
  In (DownloadJobLogsForWorkflowRun (ownerOf env) (repoOf env) (job_id other))
     (extracted env w).
Proof.
  intros Hin. unfold extracted. apply in_or_app. right. right.
  now apply download_in_loop.
Qed.

Lemma requested_has_extracted env w e :
  In e (extracted env w) -> In e (requested env w).
Proof. intros Hin. unfold requested. apply in_or_app. now left. Qed.

Lemma requested_has_send env w :
  In (Send (bedrockConfig env) (invokeModelCommand (promptOf env w)))
     (requested env w).
Proof. unfold requested. apply in_or_app. right. right. now left. Qed.

Lemma reported_has_requested env w analysis e :
  In e (requested env w) -> In e (reported env w analysis).
Proof. intros Hin. unfold reported. apply in_or_app. now left. Qed.

Lemma reported_has_post env w analysis :
  In (postOf env analysis) (reported env w analysis).
Proof. unfold reported. apply in_or_app. right. right. right. now left. Qed.

(** After the extraction loop the run goes on with the request and the
    report, whatever the sections are. *)
Lemma main_after_extraction (env : Env) (w : World) :
  reachesListing (main env w) = true ->
  failedJobsOf env w <> [] ->
  main env w =
  try_catch
    (let '(o, t) :=
       diagnoseAndReport env w (ownerOf env) (repoOf env)
         (sections w (ownerOf env) (repoOf env) (failedJobsOf env w)) in
     (o, (extracted env w ++ t)%list))
    (fun error =>
       console_error "Error analyzing failed workflow:" (Some error) ;;
       process_exit 1).
Proof.
  intros Hreach Hne.
  destruct (main_path env w) as
    [ | | | |? ? ? ? ? ? Hjobs|? ? ? ? ? ? Hjobs Hnone
    |? ? ? ? ? ? ? Hjobs ? Hsend|? ? ? ? ? ? ? ? Hjobs ? Hsend Hread
    |? ? ? ? ? ? ? ? ? Hjobs ? Hsend Hread ?|? ? ? ? ? ? ? ? Hjobs ? Hsend Hread ?];
    try (trace_simpl; discriminate);
    try (exfalso; unfold failedJobsOf in Hne; rewrite Hjobs in Hne; congruence).
  all: clear Hreach Hne; symmetry; run_main; reflexivity.
Qed.

(** C5: when the log download of one failed job is rejected, the loop does
    not throw: the section of that job is the degraded one, with its name,
    its conclusion and the note [Could not fetch detailed logs]; the logs
    of all the failed jobs are still requested; the prompt, which contains
    the degraded section, is still sent to the model; when the model
    answers with a readable diagnosis the comment is still posted; and the
    run is the extraction followed by the request and the report. *)
Theorem failed_fetch_is_degraded (env : Env) (w : World) (job : Job) (e : JsError) :
  reachesListing (main env w) = true ->
  In job (failedJobsOf env w) ->
  downloadJobLogsForWorkflowRun w (ownerOf env) (repoOf env) (job_id job)
    = Rejected e ->
  let failedJobs := failedJobsOf env w in
  jobSection w (ownerOf env) (repoOf env) job
  = nl ++ "## Job: " ++ job_name job ++ nl
    ++ "Status: failure" ++ nl
    ++ "Error: Could not fetch detailed logs" ++ nl /\
  fst (extractLoop w (ownerOf env) (repoOf env) failedJobs "")
  = Normal (sections w (ownerOf env) (repoOf env) failedJobs) /\
  substring_of (jobSection w (ownerOf env) (repoOf env) job)
    (sections w (ownerOf env) (repoOf env) failedJobs) /\
  (forall other, In other failedJobs ->
     In (DownloadJobLogsForWorkflowRun (ownerOf env) (repoOf env) (job_id other))
        (trace (main env w))) /\
  substring_of (jobSection w (ownerOf env) (repoOf env) job) (promptOf env w) /\
  In (Send (bedrockConfig env) (invokeModelCommand (promptOf env w)))
     (trace (main env w)) /\
  (forall parsed analysis,
     sendAnswer env w = Resolved parsed ->
     read_analysis parsed = Normal analysis ->
     In (postOf env analysis) (trace (main env w))) /\
  main env w =
  try_catch
    (let '(o, t) :=
       diagnoseAndReport env w (ownerOf env) (repoOf env)
         (sections w (ownerOf env) (repoOf env) failedJobs) in
     (o, (extracted env w ++ t)%list))
    (fun error =>
       console_error "Error analyzing failed workflow:" (Some error) ;;
       process_exit 1).
Proof.
  intros Hreach Hjob Hlog failedJobs.
  assert (Hsec : jobSection w (ownerOf env) (repoOf env) job = degradedSection job).
  { unfold jobSection. now rewrite Hlog. }
  assert (Hin : substring_of (jobSection w (ownerOf env) (repoOf env) job)
                  (sections w (ownerOf env) (repoOf env) failedJobs))
    by now apply section_in_sections.
  split.
  { rewrite Hsec. unfold degradedSection.
    rewrite (failedJobs_failed env w job Hjob). cbn [str_of_nullable].
    now rewrite !append_assoc. }
  split; [rewrite extractLoop_run; reflexivity|].
  split; [exact Hin|].
  assert (Hprompt : substring_of (jobSection w (ownerOf env) (repoOf env) job)
                      (promptOf env w)).
  { eapply substring_of_trans; [exact Hin|].
    unfold promptOf, failedJobs. apply blob_in_prompt. }
  assert (Hne : failedJobs <> []) by (intros E; unfold failedJobs in *; now rewrite E in Hjob).
  pose proof (main_after_extraction env w Hreach Hne) as Hcont.
  destruct (main_path env w) as
    [ | | | |? ? ? ? ? ? Hjobs|? ? ? ? ? ? Hjobs Hnone
    |? ? ? ? ? ? ? Hjobs ? Hsend|? ? ? ? ? ? ? ? Hjobs ? Hsend Hread
    |? ? ? ? ? ? ? ? ? Hjobs ? Hsend Hread ?|? ? ? ? ? ? ? ? Hjobs ? Hsend Hread ?];
    try (clear Hcont; trace_simpl; discriminate);
    try (exfalso; unfold failedJobs, failedJobsOf in Hne; rewrite Hjobs in Hne;
         congruence).
  all: unfold trace; cbn [snd]; rewrite ?in_app_iff.
  all: split;
    [ intros other Hother; rewrite ?in_app_iff; left
    | split; [exact Hprompt
             | split; [rewrite ?in_app_iff; left | split; [|exact Hcont]]] ].
  all: auto using extracted_has_download, requested_has_extracted,
         requested_has_send, reported_has_requested, reported_has_post.
  - intros parsed analysis Hp. congruence.
  - intros parsed' analysis Hp Ha. congruence.
  - intros parsed' analysis' Hp Ha.
    assert (analysis' = analysis) as -> by congruence.
    rewrite in_app_iff. left. apply reported_has_post.
  - intros parsed' analysis' Hp Ha.
    assert (analysis' = analysis) as -> by congruence.
    rewrite in_app_iff. left. apply reported_has_post.
Qed.

Lemma failed_fetch_is_degraded_witness :
  jobSection (Sample.world [Sample.build; Sample.test]) "octo" (Some "demo") Sample.test
  = nl ++ "## Job: test" ++ nl ++ "Status: failure" ++ nl
    ++ "Error: Could not fetch detailed logs" ++ nl /\
  In (postOf Sample.env "Install the module.")
     (trace (main Sample.env (Sample.world [Sample.build; Sample.test]))).
Proof.
  destruct (failed_fetch_is_degraded Sample.env
              (Sample.world [Sample.build; Sample.test]) Sample.test
              (mkError "HttpError" "Not Found"))
    as (Hsection & _ & _ & _ & _ & _ & Hpost & _).
  - vm_compute. reflexivity.
  - vm_compute. auto.
  - reflexivity.
  - split; [exact Hsection|].
    apply (Hpost (Some Sample.answer)); reflexivity.
Defined.

(** ** [trim] *)

Lemma strip_split (flip : bool) (s : list ascii) :
  exists l, s = (l ++ strip flip s)%list /\ strip flip l = [].
Proof.
  assert (H : forall n s, List.length s <= n ->
            exists l, s = (l ++ strip flip s)%list /\ strip flip l = []).
  { clear s. induction n as [|n IH]; intros s Hlen.
    - destruct s; [|simpl in Hlen; lia]. now exists [].
    - destruct s as [|a r1]; [now exists []|].
      cbn [strip]. destruct (is_ws1 a) eqn:E1.
      { destruct (IH r1) as (l & Hl & Hs); [simpl in Hlen; lia|].
        exists (a :: l). split; [cbn [app]; now rewrite <- Hl|].
        cbn [strip]. now rewrite E1. }
      destruct r1 as [|b r2]; [now exists []|].
      destruct (if flip then is_ws2 b a else is_ws2 a b) eqn:E2.
      { destruct (IH r2) as (l & Hl & Hs); [simpl in Hlen; lia|].
        exists (a :: b :: l). split; [cbn [app]; now rewrite <- Hl|].
        cbn [strip]. now rewrite E1, E2. }
      destruct r2 as [|c r3]; [now exists []|].
      destruct (if flip then is_ws3 c b a else is_ws3 a b c) eqn:E3.
      { destruct (IH r3) as (l & Hl & Hs); [simpl in Hlen; lia|].
        exists (a :: b :: c :: l). split; [cbn [app]; now rewrite <- Hl|].
        cbn [strip]. now rewrite E1, E2, E3. }
      now exists []. }
  exact (H (List.length s) s (le_n _)).
Qed.

Lemma string_of_list_ascii_app (l1 l2 : list ascii) :
  string_of_list_ascii (l1 ++ l2)
  = string_of_list_ascii l1 ++ string_of_list_ascii l2.
Proof. induction l1 as [|a l1 IH]; simpl; [reflexivity | now rewrite IH]. Qed.

Lemma trimStart_split (s : string) :
  exists l, s = l ++ trimStart s /\ trimStart l = "".
Proof.
  destruct (strip_split false (list_ascii_of_string s)) as (l & Hl & Hs).
  exists (string_of_list_ascii l). unfold trimStart. split.
  - rewrite <- string_of_list_ascii_app, <- Hl.
    now rewrite string_of_list_ascii_of_string.
  - now rewrite list_ascii_of_string_of_list_ascii, Hs.
Qed.

Lemma trimEnd_split (s : string) :
  exists r, s = trimEnd s ++ r /\ trimEnd r = "".
Proof.
  destruct (strip_split true (rev (list_ascii_of_string s))) as (l & Hl & Hs).
  exists (string_of_list_ascii (rev l)). unfold trimEnd. split.
  - rewrite <- string_of_list_ascii_app, <- rev_app_distr, <- Hl, rev_involutive.
    now rewrite string_of_list_ascii_of_string.
  - now rewrite list_ascii_of_string_of_list_ascii, rev_involutive, Hs.
Qed.

(** [trim] removes a run of white space at each end and nothing else. *)
Lemma trim_split (s : string) :
  exists l r, s = l ++ trim s ++ r /\ trimStart l = "" /\ trimEnd r = "".
Proof.
  destruct (trimStart_split s) as (l & Hl & Hbl).
  destruct (trimEnd_split (trimStart s)) as (r & Hr & Hbr).
  exists l, r. unfold trim. now rewrite <- Hr, <- Hl.
Qed.

(** ** White space *)




















(** ** The Diagnosis Requester *)


Lemma loop_filter_no_send w o r jobs :
  filter isSend (flat_map (jobEvents w o r) jobs) = [].
Proof. apply filter_existsb_false, loop_no_send. Qed.

Lemma loop_filter_no_post w o r jobs :
  filter isPost (flat_map (jobEvents w o r) jobs) = [].
Proof. apply filter_existsb_false, loop_no_post. Qed.

Lemma isPost_postOf env analysis : isPost (postOf env analysis) = true.
Proof. unfold postOf. now destruct (hasPullRequest _). Qed.

Lemma isSend_postOf env analysis : isSend (postOf env analysis) = false.
Proof. unfold postOf. now destruct (hasPullRequest _). Qed.

Ltac filter_simpl :=
  trace_simpl;
  rewrite ?loop_filter_no_send, ?loop_filter_no_post, ?isPost_postOf,
    ?isSend_postOf;
  cbn [app].





(** ** The prompt of the request *)

(** Whatever is sent to the model is the command built from the prompt of
    the run. *)
Lemma sent_command (env : Env) (w : World) (cfg : BedrockConfig)
    (command : InvokeModelCommand) :
  In (Send cfg command) (trace (main env w)) ->
  cfg = bedrockConfig env /\ command = invokeModelCommand (promptOf env w).
Proof.
  intros Hin.
  assert (Hsend : In (Send cfg command) (filter isSend (trace (main env w))))
    by (apply filter_In; split; [exact Hin | reflexivity]).
  clear Hin. revert Hsend.
  destruct (main_path env w); filter_simpl; cbn [In]; intros Hsend;
    first [ contradiction
          | destruct Hsend as [[= <- <-]|[]]; split; reflexivity ].
Qed.

(** C8: the prompt is one fixed instructional template, the text below,
    with four holes filled in order with the run name, the run identifier,
    the repository identity [owner/repo] and the aggregated text, whatever
    these are.  It is the only message of every request the script sends
    to the model.  Each of the four values, and every piece of the
    aggregated text, occurs verbatim in the prompt.  In the sample run the
    prompt sent to the model contains the log line [Error: module not
    found]. *)
Theorem prompt_is_fixed_template :
  (forall workflowName workflowRunId owner repo failureDetails,
     analysisPrompt workflowName workflowRunId owner repo failureDetails
     = "You are a senior software engineer helping debug failed GitHub Actions. Analyze the following workflow failure and provide helpful insights." ++ nl ++
       nl ++
       "**Workflow Information:**" ++ nl ++
       "- Name: " ++ workflowName ++ nl ++
       "- Run ID: " ++ workflowRunId ++ nl ++
       "- Repository: " ++ owner ++ "/" ++ repo ++ nl ++
       nl ++
       "**Failure Details:**" ++ nl ++
       failureDetails ++ nl ++
       nl ++
       "**Instructions:**" ++ nl ++
       "1. Identify the root cause of the failure" ++ nl ++
       "2. Provide specific, actionable steps to fix the issue" ++ nl ++
       "3. Suggest preventive measures if applicable" ++ nl ++
       "4. Keep your response concise but helpful" ++ nl ++
       "5. Format your response in markdown for GitHub comments" ++ nl ++
       nl ++
       "Please provide your analysis:") /\
  (forall env w cfg command,
     In (Send cfg command) (trace (main env w)) ->
     messages (body command)
     = [ {| role := "user";
            content :=
              analysisPrompt (str_of_env (WORKFLOW_NAME env))
                (str_of_env (WORKFLOW_RUN_ID env)) (ownerOf env)
                (str_of_env (repoOf env))
                (sections w (ownerOf env) (repoOf env) (failedJobsOf env w)) |} ]) /\
  (forall workflowName workflowRunId owner repo failureDetails,
     let prompt :=
       analysisPrompt workflowName workflowRunId owner repo failureDetails in
     substring_of workflowName prompt /\
     substring_of workflowRunId prompt /\
     substring_of (owner ++ "/" ++ repo) prompt /\
     substring_of failureDetails prompt /\
     forall line, substring_of line failureDetails -> substring_of line prompt) /\
  (forall env w job log line,
     In job (failedJobsOf env w) ->
     downloadJobLogsForWorkflowRun w (ownerOf env) (repoOf env) (job_id job)
       = Resolved (Some log) ->
     In line (errorLines log) ->
     substring_of line (promptOf env w)) /\
  In "Error: module not found" (errorLines Sample.buildLog) /\
  includes (promptOf Sample.env (Sample.world [Sample.build]))
    "Error: module not found" = true /\
  In (Send (bedrockConfig Sample.env)
        (invokeModelCommand (promptOf Sample.env (Sample.world [Sample.build]))))
     (trace (main Sample.env (Sample.world [Sample.build]))).
Proof.
  split; [|split; [|split; [|split; [|split; [|split]]]]].
  - reflexivity.
  - intros env w cfg command Hin.
    destruct (sent_command env w cfg command Hin) as [_ ->]. reflexivity.
  - intros workflowName workflowRunId owner repo failureDetails prompt.
    assert (Hblob : substring_of failureDetails prompt) by apply blob_in_prompt.
    unfold prompt, analysisPrompt.
    split; [find_substring|]. split; [find_substring|]. split.
    + do 12 apply substring_of_append_l. apply substring_of_head3.
    + split; [exact Hblob|].
      intros line Hline. exact (substring_of_trans _ _ _ Hline Hblob).
  - exact salient_line_in_prompt.
  - vm_compute. tauto.
  - vm_compute. reflexivity.
  - vm_compute. tauto.
Qed.

Lemma prompt_is_fixed_template_witness :
  substring_of "Error: module not found"
    (promptOf Sample.env (Sample.world [Sample.build])).
Proof.
  refine (proj1 (proj2 (proj2 (proj2 prompt_is_fixed_template))) Sample.env
            (Sample.world [Sample.build]) Sample.build Sample.buildLog
            "Error: module not found" _ _ _).
  - vm_compute. auto.
  - reflexivity.
  - vm_compute. auto.
Defined.

(** ** The run metadata *)

Lemma extractLoop_same_downloads w1 w2 o r jobs acc :
  downloadJobLogsForWorkflowRun w1 = downloadJobLogsForWorkflowRun w2 ->
  extractLoop w1 o r jobs acc = extractLoop w2 o r jobs acc.
Proof.
  intros Hd. rewrite !extractLoop_run. unfold sections, jobSection, jobEvents.
  now rewrite Hd.
Qed.

Lemma diagnoseAndReport_same_services env w1 w2 o r failureDetails :
  same_but_run w1 w2 ->
  diagnoseAndReport env w1 o r failureDetails
  = diagnoseAndReport env w2 o r failureDetails.
Proof.
  intros (_ & _ & Hs & Hc & Hcc). unfold diagnoseAndReport, report.
  now rewrite Hs, Hc, Hcc.
Qed.

Lemma promptOf_same_services env w1 w2 :
  same_but_run w1 w2 -> promptOf env w1 = promptOf env w2.
Proof.
  intros (Hl & Hd & _). unfold promptOf, failedJobsOf, sections, jobSection.
  now rewrite Hl, Hd.
Qed.

Lemma main_try_same_services env w1 w2 run1 run2 :
  same_but_run w1 w2 ->
  getWorkflowRun w1 (ownerOf env) (repoOf env) (WORKFLOW_RUN_ID env) = Resolved run1 ->
  getWorkflowRun w2 (ownerOf env) (repoOf env) (WORKFLOW_RUN_ID env) = Resolved run2 ->
  main_try env w1 = main_try env w2.
Proof.
  intros Hsame H1 H2. pose proof Hsame as (Hl & Hd & _).
  unfold main_try.
  destruct (GITHUB_REPOSITORY env) as [s|] eqn:Hg; [|reflexivity].
  assert (Hor : owner_repo s = (ownerOf env, repoOf env)).
  { unfold ownerOf, repoOf. rewrite Hg. now destruct (owner_repo s). }
  rewrite Hor.
  destruct (negb (truthy (AWS_ACCESS_KEY_ID env)) || negb (truthy (AWS_SECRET_ACCESS_KEY env)));
    [reflexivity|].
  destruct (negb (truthy (WORKFLOW_RUN_ID env))); [reflexivity|].
  cbn [bind ret]. rewrite H1, H2, Hl. cbn [await bind console_log].
  destruct (listJobsForWorkflowRun w2 _ _ _) as [jobs|e]; [|reflexivity].
  destruct (List.length (filter isFailure jobs) =? 0)%nat; [reflexivity|].
  cbn [bind].
  rewrite (extractLoop_same_downloads w1 w2 _ _ _ _ Hd).
  destruct (extractLoop w2 _ _ _ _) as [[fd|e|c] t]; try reflexivity.
  cbn [bind]. now rewrite (diagnoseAndReport_same_services env w1 w2 _ _ _ Hsame).
Qed.

(** C9: the answer of the run-metadata call is never read.  Two worlds
    that answer that call with any two run objects and agree on all the
    other services give the same run of [main]: the same trace (hence the
    same prompt, comment body and posting target) and the same exit
    status. *)
Theorem run_metadata_is_never_read (env : Env) (w1 w2 : World) (run1 run2 : json) :
  same_but_run w1 w2 ->
  getWorkflowRun w1 (ownerOf env) (repoOf env) (WORKFLOW_RUN_ID env) = Resolved run1 ->
  getWorkflowRun w2 (ownerOf env) (repoOf env) (WORKFLOW_RUN_ID env) = Resolved run2 ->
  main env w1 = main env w2 /\
  promptOf env w1 = promptOf env w2 /\
  sendAnswer env w1 = sendAnswer env w2 /\
  (forall analysis, postAnswer env w1 analysis = postAnswer env w2 analysis) /\
  filter isSend (trace (main env w1)) = filter isSend (trace (main env w2)) /\
  filter isPost (trace (main env w1)) = filter isPost (trace (main env w2)).
Proof.
  intros Hsame H1 H2.
  assert (Hmain : main env w1 = main env w2).
  { unfold main. now rewrite (main_try_same_services env w1 w2 run1 run2). }
  assert (Hprompt : promptOf env w1 = promptOf env w2)
    by now apply promptOf_same_services.
  destruct Hsame as (_ & _ & Hs & Hc & Hcc).
  split; [exact Hmain|]. split; [exact Hprompt|].
  split; [unfold sendAnswer; now rewrite Hprompt, Hs|].
  split; [intros analysis; unfold postAnswer; now rewrite Hc, Hcc|].
  now rewrite Hmain.
Qed.

Lemma run_metadata_is_never_read_witness :
  main Sample.env (with_run (Sample.world [Sample.build]) (Resolved JNull))
  = main Sample.env
      (with_run (Sample.world [Sample.build])
         (Resolved (JObject [("name", JString "Deploy"); ("head_sha", JString "fff")]))).
Proof.
  refine (proj1 (run_metadata_is_never_read Sample.env _ _ JNull
                   (JObject [("name", JString "Deploy"); ("head_sha", JString "fff")])
                   _ _ _)).
  - repeat split.
  - reflexivity.
  - reflexivity.
Defined.

(** ** Fatal starts *)

Lemma hasCredentials_false (env : Env) :
  hasCredentials env = false <->
  truthy (AWS_ACCESS_KEY_ID env) = false \/ truthy (AWS_SECRET_ACCESS_KEY env) = false.
Proof. unfold hasCredentials. apply andb_false_iff. Qed.

(** X1: when one of the two AWS credentials is undefined or empty, the run
    logs the credential error and exits with status 1 right after the
    environment check: no service is called, whatever the other inputs
    are. *)
Theorem missing_credentials_exit_1 (env : Env) (w : World) :
  truthy (AWS_ACCESS_KEY_ID env) = false \/ truthy (AWS_SECRET_ACCESS_KEY env) = false ->
  main env w =
    (Exit 1,
     (prelude env ++
      [ConsoleError "AWS credentials not found in environment variables" None])%list) /\
  exit_status (main env w) = 1%Z /\
  calls (main env w) = [].
Proof.
  intros Hmiss. apply hasCredentials_false in Hmiss.
  destruct (main_path env w); try congruence.
  unfold calls. trace_simpl. repeat split; reflexivity.
Qed.

Lemma missing_credentials_exit_1_witness :
  exit_status (main Sample.bare_env (Sample.world [Sample.build])) = 1%Z /\
  calls (main Sample.bare_env (Sample.world [Sample.build])) = [].
Proof.
  refine (proj2 (missing_credentials_exit_1 Sample.bare_env
                   (Sample.world [Sample.build]) _)).
  left. reflexivity.
Defined.

(** X2: with credentials and a run identifier but no [GITHUB_REPOSITORY],
    the [split] on [undefined] throws; the error is caught at the top, the
    process exits with status 1, and no service has been called. *)
Theorem missing_repository_exit_1 (env : Env) (w : World) :
  hasCredentials env = true ->
  truthy (WORKFLOW_RUN_ID env) = true ->
  GITHUB_REPOSITORY env = None ->
  exists e,
    err_name e = "TypeError" /\
    main env w =
      (Exit 1,
       (prelude env ++ [ConsoleError "Error analyzing failed workflow:" (Some e)])%list) /\
    exit_status (main env w) = 1%Z /\
    calls (main env w) = [].
Proof.
  intros Hc Hr Hg.
  destruct (main_path env w); try congruence.
  eexists. split; [|split; [reflexivity|]]; [reflexivity|].
  unfold calls. trace_simpl. split; reflexivity.
Qed.

Lemma missing_repository_exit_1_witness :
  exit_status
    (main {| WORKFLOW_RUN_ID := Some "555"; WORKFLOW_NAME := Some "CI";
             HEAD_SHA := Some "abc123"; PULL_REQUEST_NUMBER := None;
             GITHUB_TOKEN := Some "token"; GITHUB_REPOSITORY := None;
             AWS_ACCESS_KEY_ID := Some "AKIA";
             AWS_SECRET_ACCESS_KEY := Some "secret";
             AWS_SESSION_TOKEN := None; AWS_REGION := None |}
       (Sample.world [Sample.build])) = 1%Z.
Proof.
  destruct (missing_repository_exit_1
              {| WORKFLOW_RUN_ID := Some "555"; WORKFLOW_NAME := Some "CI";
                 HEAD_SHA := Some "abc123"; PULL_REQUEST_NUMBER := None;
                 GITHUB_TOKEN := Some "token"; GITHUB_REPOSITORY := None;
                 AWS_ACCESS_KEY_ID := Some "AKIA";
                 AWS_SECRET_ACCESS_KEY := Some "secret";
                 AWS_SESSION_TOKEN := None; AWS_REGION := None |}
              (Sample.world [Sample.build]) eq_refl eq_refl eq_refl)
    as (e & _ & _ & Hexit & _).
  exact Hexit.
Defined.

(** X3: the run object is never read, yet a rejected run-metadata call
    ends the run: the error is logged, the exit status is 1, and the jobs
    are not listed.  A rejected job listing ends the run in the same way,
    before any log download. *)
Theorem rejected_reads_are_fatal (env : Env) (w : World) (e : JsError) :
  hasCredentials env = true ->
  truthy (WORKFLOW_RUN_ID env) = true ->
  GITHUB_REPOSITORY env <> None ->
  (getWorkflowRun w (ownerOf env) (repoOf env) (WORKFLOW_RUN_ID env) = Rejected e ->
   main env w = (Exit 1, (located env ++ fatal e)%list) /\
   exit_status (main env w) = 1%Z /\
   calls (main env w) = [runCall env]) /\
  (forall run,
     getWorkflowRun w (ownerOf env) (repoOf env) (WORKFLOW_RUN_ID env) = Resolved run ->
     listJobsForWorkflowRun w (ownerOf env) (repoOf env) (WORKFLOW_RUN_ID env)
       = Rejected e ->
     main env w = (Exit 1, (listed env ++ fatal e)%list) /\
     exit_status (main env w) = 1%Z /\
     calls (main env w) = [runCall env; jobsCall env]).
Proof.
  intros Hc Hr Hg. split.
  - intros Hrun. destruct (main_path env w); try congruence.
    assert (e0 = e) as -> by congruence.
    unfold calls, runCall. trace_simpl. repeat split; reflexivity.
  - intros run Hrun Hjobs. destruct (main_path env w); try congruence.
    assert (e0 = e) as -> by congruence.
    unfold calls, runCall, jobsCall. trace_simpl. repeat split; reflexivity.
Qed.

Lemma rejected_reads_are_fatal_witness :
  calls (main Sample.env
           (with_run (Sample.world [Sample.build])
              (Rejected (mkError "HttpError" "Not Found"))))
  = [runCall Sample.env].
Proof.
  destruct (rejected_reads_are_fatal Sample.env
              (with_run (Sample.world [Sample.build])
                 (Rejected (mkError "HttpError" "Not Found")))
              (mkError "HttpError" "Not Found") eq_refl eq_refl)
    as (Hrun & _).
  - discriminate.
  - destruct (Hrun eq_refl) as (_ & _ & Hcalls). exact Hcalls.
Defined.

(** ** The order of the service calls *)

Lemma loop_calls w o r jobs :
  filter isExternalCall (flat_map (jobEvents w o r) jobs)
  = map (fun job => DownloadJobLogsForWorkflowRun o r (job_id job)) jobs.
Proof.
  induction jobs as [|job jobs IH]; [reflexivity|].
  cbn [flat_map map]. rewrite filter_app, IH. unfold jobEvents.
  destruct (downloadJobLogsForWorkflowRun w o r (job_id job)); reflexivity.
Qed.

Lemma isExternalCall_postOf env analysis : isExternalCall (postOf env analysis) = true.
Proof. unfold postOf. now destruct (hasPullRequest _). Qed.

Ltac calls_simpl :=
  unfold calls, runCall, jobsCall, sendCall, downloadsOf; trace_simpl;
  rewrite ?loop_calls, ?isExternalCall_postOf; cbn [app].

(** X4: the service calls of every run are a beginning of one fixed
    sequence: the run-metadata read, the job listing, one log download
    per failed job in the order of the job list, the request to the model,
    and last the comment-creation write.  Nothing is called after the
    write, and nothing is written before the model has answered. *)
Theorem service_calls_follow_one_sequence (env : Env) (w : World) :
  calls (main env w) = [] \/
  calls (main env w) = [runCall env] \/
  calls (main env w) = [runCall env; jobsCall env] \/
  calls (main env w)
    = (runCall env :: jobsCall env :: downloadsOf env w ++ [sendCall env w])%list \/
  exists parsed analysis,
    sendAnswer env w = Resolved parsed /\
    read_analysis parsed = Normal analysis /\
    calls (main env w)
    = (runCall env :: jobsCall env :: downloadsOf env w
       ++ [sendCall env w; postOf env analysis])%list.
Proof.
  destruct (main_path env w) as
    [ | | | | | |? ? ? ? ? ? ? Hjobs ? Hsend|? ? ? ? ? ? ? ? Hjobs ? Hsend Hread
    |? ? ? ? ? ? ? ? ? Hjobs ? Hsend Hread ?|? ? ? ? ? ? ? ? Hjobs ? Hsend Hread ?].
  1-3: left; calls_simpl; reflexivity.
  - right. left. calls_simpl. reflexivity.
  - right. right. left. calls_simpl. reflexivity.
  - right. right. left. calls_simpl. reflexivity.
  - do 3 right. left. calls_simpl. now rewrite <- app_assoc.
  - do 3 right. left. calls_simpl. now rewrite <- app_assoc.
  - do 4 right. exists parsed, analysis. repeat (split; [assumption|]).
    calls_simpl. now rewrite <- !app_assoc.
  - do 4 right. exists parsed, analysis. repeat (split; [assumption|]).
    calls_simpl. now rewrite <- !app_assoc.
Qed.

(** ** Exit status and the error line *)

Lemma loop_no_error w o r jobs :
  existsb isConsoleError (flat_map (jobEvents w o r) jobs) = false.
Proof. loop_quiet. Qed.

Lemma isConsoleError_postOf env analysis : isConsoleError (postOf env analysis) = false.
Proof. unfold postOf. now destruct (hasPullRequest _). Qed.

Lemma error_line_is_last (env : Env) (w : World) :
  exit_status (main env w) = 1%Z ->
  exists line err, last (trace (main env w)) (ConsoleLog "") = ConsoleError line err.
Proof.
  destruct (main_path env w); unfold exit_status, trace, fatal; cbn [fst snd];
    intros Hexit; try discriminate;
    try (rewrite last_last; eauto).
  change (requested env w ++
          [ConsoleLog "Bedrock analysis successful";
           ConsoleError "Error analyzing failed workflow:" (Some e)])%list
    with (requested env w ++ [ConsoleLog "Bedrock analysis successful"]
          ++ [ConsoleError "Error analyzing failed workflow:" (Some e)])%list.
  rewrite app_assoc, last_last. eauto.
Qed.

(** X5: a run exits with status 1 exactly when it wrote a line on
    [console.error], and that line is then the last event of the run; a
    run that ends with status 0 wrote none.  A failed log download, which
    is reported with [console.log], does not count. *)
Theorem exit_1_iff_error_line (env : Env) (w : World) :
  (exit_status (main env w) = 1%Z <->
   existsb isConsoleError (trace (main env w)) = true) /\
  (exit_status (main env w) = 0%Z <->
   existsb isConsoleError (trace (main env w)) = false) /\
  (exit_status (main env w) = 1%Z ->
   exists line err, last (trace (main env w)) (ConsoleLog "") = ConsoleError line err).
Proof.
  split; [|split; [|apply error_line_is_last]].
  - destruct (main_path env w); trace_simpl;
      rewrite ?loop_no_error, ?isConsoleError_postOf;
      cbn [isConsoleError orb existsb]; rewrite ?orb_false_r, ?orb_true_r;
      split; congruence.
  - destruct (main_path env w); trace_simpl;
      rewrite ?loop_no_error, ?isConsoleError_postOf;
      cbn [isConsoleError orb existsb]; rewrite ?orb_false_r, ?orb_true_r;
      split; congruence.
Qed.

(** ** What is sent to the model *)

Lemma sends_of_run (env : Env) (w : World) :
  filter isSend (trace (main env w)) = [] \/
  hasCredentials env = true /\
  filter isSend (trace (main env w)) = [sendCall env w].
Proof.
  destruct (main_path env w); unfold sendCall;
    [left|left|left|left|left|left|right|right|right|right];
    try split; try assumption; filter_simpl; reflexivity.
Qed.

Lemma region_line_in_prelude (env : Env) :
  In (ConsoleLog ("- AWS_REGION: " ++ or_default (AWS_REGION env) "us-east-1"))
     (prelude env).
Proof. unfold prelude. simpl. tauto. Qed.

Lemma prelude_in_trace (env : Env) (w : World) (e : event) :
  In e (prelude env) -> In e (trace (main env w)).
Proof.
  intros Hin.
  destruct (main_path env w); unfold trace, reported, requested, extracted, listed,
    located; cbn [snd]; rewrite <- ?app_assoc; apply in_or_app; now left.
Qed.

(** X6: whenever a request is sent to the model, its client was built
    with both AWS credentials present, with the session token only when
    one is set, and with the region that the environment check logged:
    [AWS_REGION] when it is set and not empty, [us-east-1] otherwise. *)
Theorem model_is_called_with_checked_configuration (env : Env) (w : World)
    (cfg : BedrockConfig) (command : InvokeModelCommand) :
  In (Send cfg command) (trace (main env w)) ->
  truthy (accessKeyId (credentials cfg)) = true /\
  truthy (secretAccessKey (credentials cfg)) = true /\
  accessKeyId (credentials cfg) = AWS_ACCESS_KEY_ID env /\
  secretAccessKey (credentials cfg) = AWS_SECRET_ACCESS_KEY env /\
  (sessionToken (credentials cfg) = None \/
   sessionToken (credentials cfg) = AWS_SESSION_TOKEN env /\
   truthy (AWS_SESSION_TOKEN env) = true) /\
  In (ConsoleLog ("- AWS_REGION: " ++ region cfg)) (trace (main env w)) /\
  (region cfg = "us-east-1" /\ truthy (AWS_REGION env) = false \/
   AWS_REGION env = Some (region cfg) /\ region cfg <> "") /\
  command = invokeModelCommand (promptOf env w).
Proof.
  intros Hin.
  assert (Hsend : In (Send cfg command) (filter isSend (trace (main env w))))
    by (apply filter_In; split; [exact Hin | reflexivity]).
  destruct (sends_of_run env w) as [Hnone | [Hc Hone]].
  { rewrite Hnone in Hsend. contradiction. }
  rewrite Hone in Hsend. destruct Hsend as [Heq|[]].
  unfold sendCall in Heq. injection Heq as <- <-.
  unfold hasCredentials in Hc. apply andb_prop in Hc as [Ha Hs].
  cbn [bedrockConfig credentials accessKeyId secretAccessKey sessionToken region].
  repeat (split; [assumption || reflexivity|]).
  split.
  { destruct (truthy (AWS_SESSION_TOKEN env)); auto. }
  split; [apply prelude_in_trace, region_line_in_prelude|].
  split; [|reflexivity].
  unfold or_default, truthy. destruct (AWS_REGION env) as [s|]; [|now left].
  destruct (String.eqb_spec s ""); [subst; now left | now right].
Qed.

Lemma model_is_called_with_checked_configuration_witness :
  truthy (accessKeyId (credentials (bedrockConfig Sample.env))) = true.
Proof.
  refine (proj1 (model_is_called_with_checked_configuration Sample.env
                   (Sample.world [Sample.build]) (bedrockConfig Sample.env)
                   (invokeModelCommand (promptOf Sample.env (Sample.world [Sample.build])))
                   _)).
  vm_compute. tauto.
Defined.

(** ** Reading the answer of the model *)

(** X7: the answer of the model is readable exactly when it parses to an
    object whose [content] has, under index 0, an object whose [text] is a
    string; the diagnosis is then that string trimmed.  In every other
    case (no JSON, no [content], an empty [content] array, a first item
    that is not an object, a [text] that is missing, null or not a string)
    reading throws. *)
Theorem read_analysis_normal_iff (parsed : option json) (analysis : string) :
  read_analysis parsed = Normal analysis <->
  exists members content first text,
    parsed = Some (JObject members) /\
    lookup "content" members = Some content /\
    ((exists rest, content = JArray (JObject first :: rest)) \/
     (exists items, content = JObject items /\
                    lookup "0" items = Some (JObject first))) /\
    lookup "text" first = Some (JString text) /\
    analysis = trim text.
Proof.
  split.
  - unfold read_analysis.
    destruct parsed as [[| | | | |members]|]; try discriminate.
    cbn [member obind].
    destruct (lookup "content" members) as [content|] eqn:Hc; [|discriminate].
    destruct content as [| | |[|c s]|[|[| | | | |first] rest]|items];
      cbn [index0 nth_error obind member]; try discriminate.
    + destruct (lookup "text" first) as [[| | |text| |]|] eqn:Ht;
        cbn [call_trim]; try discriminate.
      intros [= <-]. exists members, (JArray (JObject first :: rest)), first, text.
      repeat split; eauto.
    + destruct (lookup "0" items) as [[| | | | |first]|] eqn:H0;
        cbn [obind member]; try discriminate.
      destruct (lookup "text" first) as [[| | |text| |]|] eqn:Ht;
        cbn [call_trim]; try discriminate.
      intros [= <-]. exists members, (JObject items), first, text.
      repeat split; eauto.
  - intros (members & content & first & text & -> & Hc & Hfirst & Ht & ->).
    unfold read_analysis. cbn [member obind]. rewrite Hc.
    destruct Hfirst as [(rest & ->) | (items & -> & H0)];
      cbn [index0 nth_error obind member]; rewrite ?H0; cbn [obind member];
      rewrite Ht; reflexivity.
Qed.

Lemma read_analysis_normal_iff_witness :
  read_analysis (Some Sample.answer) = Normal "Install the module.".
Proof.
  apply (proj2 (read_analysis_normal_iff (Some Sample.answer) "Install the module.")).
  exists [("content",
           JArray [JObject [("type", JString "text");
                            ("text", JString (" Install the module." ++ nl))]])],
         (JArray [JObject [("type", JString "text");
                           ("text", JString (" Install the module." ++ nl))]]),
         [("type", JString "text"); ("text", JString (" Install the module." ++ nl))],
         (" Install the module." ++ nl).
  repeat split; try reflexivity. left. eexists. reflexivity.
Defined.

(** ** More on the Log Extractor *)

Lemma errorLines_empty : errorLines "" = [].
Proof. reflexivity. Qed.

Lemma errorLines_length (logText : string) : List.length (errorLines logText) <= 10.
Proof. unfold errorLines. rewrite slice_last_length. lia. Qed.

Lemma errorLines_in (logText line : string) :
  In line (errorLines logText) ->
  In line (split LF logText) /\ isSalient line = true.
Proof.
  unfold errorLines. intros Hin.
  destruct (slice_last_suffix 10 (filter isSalient (split LF logText)))
    as (dropped & Heq & _).
  apply filter_In. rewrite Heq. apply in_or_app. now right.
Qed.

(** X8: when the log of a failed job has salient lines, its section is
    the four header lines followed by a blank line, the title [Key error
    messages:] and the salient lines, at most ten, one per line and each
    matching one of the patterns. *)
Theorem salient_log_gives_key_error_block (w : World) (owner : string)
    (repo : option string) (job : Job) (log : string) :
  downloadJobLogsForWorkflowRun w owner repo (job_id job) = Resolved (Some log) ->
  errorLines log <> [] ->
  jobSection w owner repo job
  = jobHeader job ++ nl ++ "Key error messages:" ++ nl
    ++ join nl (errorLines log) ++ nl /\
  List.length (errorLines log) <= 10 /\
  Forall (fun line => isSalient line = true /\ ~ substring_of nl line)
    (errorLines log).
Proof.
  intros Hlog Hne. split; [|split; [apply errorLines_length|]].
  - unfold jobSection, keyErrorMessages, truthy. rewrite Hlog. cbn [str_of_env].
    destruct (String.eqb_spec log "") as [->|_]; [now rewrite errorLines_empty in Hne|].
    cbn [negb]. destruct (errorLines log); [congruence | reflexivity].
  - apply Forall_forall. intros line Hin.
    apply errorLines_in in Hin as [Hsplit Hsal]. split; [exact Hsal|].
    pose proof (split_no_sep LF log) as Hno.
    rewrite Forall_forall in Hno. now apply Hno.
Qed.

Lemma salient_log_gives_key_error_block_witness :
  jobSection (Sample.world []) "octo" (Some "demo") Sample.build
  = jobHeader Sample.build ++ nl ++ "Key error messages:" ++ nl
    ++ join nl (errorLines Sample.buildLog) ++ nl.
Proof.
  refine (proj1 (salient_log_gives_key_error_block (Sample.world []) "octo"
                   (Some "demo") Sample.build Sample.buildLog _ _)).
  - reflexivity.
  - vm_compute. discriminate.
Defined.

(** X9: the extraction loop only appends: running it on a list of jobs
    is running it on a first part of the list and then on the rest, the
    text and the events of the second run coming after those of the first.
    The loop never throws and never exits. *)
Theorem extractLoop_app (w : World) (owner : string) (repo : option string)
    (jobs1 jobs2 : list Job) (failureDetails : string) :
  extractLoop w owner repo (jobs1 ++ jobs2) failureDetails
  = (details <- extractLoop w owner repo jobs1 failureDetails ;;
     extractLoop w owner repo jobs2 details) /\
  exists text events,
    extractLoop w owner repo (jobs1 ++ jobs2) failureDetails
    = (Normal (failureDetails ++ text), events).
Proof.
  split.
  - rewrite !extractLoop_run. cbn [bind]. rewrite extractLoop_run.
    now rewrite flat_map_app, sections_app, append_assoc.
  - rewrite extractLoop_run. eauto.
Qed.

(** ** More on [split] and the salient lines *)

Lemma split_app_sep (sep : ascii) (a b : string) :
  split sep (a ++ String sep b) = (split sep a ++ split sep b)%list.
Proof.
  induction a as [|c a IH]; cbn [append split].
  - now rewrite Ascii.eqb_refl.
  - destruct (Ascii.eqb c sep); rewrite IH; [reflexivity|].
    pose proof (split_nonempty sep a) as Hne.
    destruct (split sep a); [congruence | reflexivity].
Qed.

Lemma split_without_sep (sep : ascii) (s : string) :
  ~ substring_of (String sep "") s -> split sep s = [s].
Proof.
  induction s as [|c s IH]; intros Hno; [reflexivity|].
  cbn [split]. destruct (Ascii.eqb_spec c sep) as [->|Hne].
  - exfalso. apply Hno. now exists "", s.
  - rewrite IH; [reflexivity|].
    intros (p & q & ->). apply Hno. now exists (String c p), q.
Qed.

Lemma split_join (sep : ascii) (l : list string) :
  l <> [] ->
  Forall (fun x => ~ substring_of (String sep "") x) l ->
  split sep (join (String sep "") l) = l.
Proof.
  unfold join. induction l as [|x l IH]; [congruence|].
  intros _ Hall. inversion Hall as [|? ? Hx Hl]; subst.
  destruct l as [|y l].
  - now apply split_without_sep.
  - rewrite concat_cons by discriminate. cbn [append].
    rewrite split_app_sep, IH by (assumption || discriminate).
    now rewrite split_without_sep.
Qed.

Lemma filter_all {A : Type} (p : A -> bool) (l : list A) :
  Forall (fun x => p x = true) l -> filter p l = l.
Proof.
  induction 1 as [|x l Hx _ IH]; [reflexivity|].
  cbn [filter]. now rewrite Hx, IH.
Qed.

Lemma slice_last_short {A : Type} (n : nat) (l : list A) :
  List.length l <= n -> slice_last n l = l.
Proof.
  intros Hlen. unfold slice_last.
  replace (List.length l - n) with 0 by lia. reflexivity.
Qed.

Lemma slice_last_app {A : Type} (n : nat) (l1 l2 : list A) :
  n <= List.length l2 -> slice_last n (l1 ++ l2) = slice_last n l2.
Proof.
  intros Hlen. unfold slice_last. rewrite length_app, skipn_app.
  rewrite (skipn_all2 l1) by lia. cbn [app]. f_equal. lia.
Qed.

(** X10: extracting again from the extracted lines changes nothing: the
    salient lines of the text made of the salient lines of a log, one per
    line, are those same lines. *)
Theorem errorLines_idempotent (logText : string) :
  errorLines (join nl (errorLines logText)) = errorLines logText.
Proof.
  destruct (errorLines logText) as [|l ls] eqn:E; [reflexivity|].
  rewrite <- E.
  assert (Hall : Forall (fun line => isSalient line = true /\ ~ substring_of nl line)
                   (errorLines logText)).
  { apply Forall_forall. intros line Hin.
    apply errorLines_in in Hin as [Hsplit Hsal]. split; [exact Hsal|].
    pose proof (split_no_sep LF logText) as Hno.
    rewrite Forall_forall in Hno. now apply Hno. }
  unfold errorLines at 1. unfold nl.
  rewrite split_join.
  - rewrite filter_all.
    + apply slice_last_short, errorLines_length.
    + eapply Forall_impl; [|exact Hall]. now intros ? [? _].
  - rewrite E. discriminate.
  - eapply Forall_impl; [|exact Hall]. now intros ? [_ ?].
Qed.

(** X11: only the end of a log counts.  The salient lines of two pieces
    of log joined by a newline are the last ten of the salient lines of the
    first piece followed by those of the second; when the second piece
    alone has ten salient lines or more, the first piece is ignored. *)
Theorem errorLines_append (older newer : string) :
  errorLines (older ++ nl ++ newer)
  = slice_last 10
      (filter isSalient (split LF older) ++ filter isSalient (split LF newer)) /\
  (10 <= List.length (filter isSalient (split LF newer)) ->
   errorLines (older ++ nl ++ newer) = errorLines newer).
Proof.
  assert (Heq : errorLines (older ++ nl ++ newer)
                = slice_last 10
                    (filter isSalient (split LF older)
                     ++ filter isSalient (split LF newer))).
  { unfold errorLines, nl. cbn [append].
    now rewrite split_app_sep, filter_app. }
  split; [exact Heq|].
  intros Hlen. rewrite Heq. now apply slice_last_app.
Qed.

Lemma errorLines_append_witness :
  errorLines ("ERROR old" ++ nl ++ Sample.noisyLog) = errorLines Sample.noisyLog.
Proof.
  refine (proj2 (errorLines_append "ERROR old" Sample.noisyLog) _).
  vm_compute. lia.
Defined.

(** ** The repository identity *)

(** X12: [GITHUB_REPOSITORY] is cut at its slashes.  From [owner/repo]
    the script gets back the owner and the repository; what follows a
    second slash is dropped; and without any slash the whole text is the
    owner and the repository is undefined. *)
Theorem owner_repo_of_slug (owner repo : string) :
  ~ substring_of "/" owner -> ~ substring_of "/" repo ->
  owner_repo (owner ++ "/" ++ repo) = (owner, Some repo) /\
  (forall more, owner_repo (owner ++ "/" ++ repo ++ "/" ++ more) = (owner, Some repo)) /\
  owner_repo owner = (owner, None).
Proof.
  intros Ho Hr. unfold owner_repo. cbn [append]. split; [|split].
  - rewrite split_app_sep, !split_without_sep by assumption. reflexivity.
  - intros more. rewrite !split_app_sep, !split_without_sep by assumption.
    cbn [app]. pose proof (split_nonempty "/" more).
    reflexivity.
  - now rewrite split_without_sep.
Qed.

Lemma owner_repo_of_slug_witness :
  owner_repo ("octo" ++ "/" ++ "demo") = ("octo", Some "demo").
Proof.
  refine (proj1 (owner_repo_of_slug "octo" "demo" _ _));
    apply includes_false; reflexivity.
Defined.

(** ** The AWS secrets *)

Section Secrets.

Variable env : Env.
Variables accessKey secretKey sessionTok : option string.
Variable w : World.

Let env' : Env := with_secrets env accessKey secretKey sessionTok.

Hypothesis same_access : truthy accessKey = truthy (AWS_ACCESS_KEY_ID env).
Hypothesis same_secret : truthy secretKey = truthy (AWS_SECRET_ACCESS_KEY env).
Hypothesis same_answer : sendAnswer env' w = sendAnswer env w.

Lemma secrets_prelude : prelude env' = prelude env.
Proof.
  unfold prelude, env', with_secrets. cbn.
  now rewrite same_access, same_secret.
Qed.

Lemma secrets_hasCredentials : hasCredentials env' = hasCredentials env.
Proof.
  unfold hasCredentials, env', with_secrets. cbn.
  now rewrite same_access, same_secret.
Qed.

Lemma secrets_located : located env' = located env.
Proof. unfold located. now rewrite secrets_prelude. Qed.

Lemma secrets_listed : listed env' = listed env.
Proof. unfold listed. now rewrite secrets_located. Qed.

Lemma secrets_extracted : extracted env' w = extracted env w.
Proof. unfold extracted. now rewrite secrets_listed. Qed.

Lemma secrets_requested :
  map redact (requested env' w) = map redact (requested env w).
Proof.
  unfold requested. rewrite !map_app, secrets_extracted. reflexivity.
Qed.

Lemma secrets_reported analysis :
  map redact (reported env' w analysis) = map redact (reported env w analysis).
Proof.
  unfold reported. rewrite !map_app, secrets_requested. reflexivity.
Qed.

Lemma secrets_run :
  fst (main env' w) = fst (main env w) /\
  map redact (trace (main env' w)) = map redact (trace (main env w)).
Proof.
  pose proof secrets_hasCredentials as Hc.
  assert (Hid : WORKFLOW_RUN_ID env' = WORKFLOW_RUN_ID env) by reflexivity.
  assert (Hrepo : GITHUB_REPOSITORY env' = GITHUB_REPOSITORY env) by reflexivity.
  assert (Ho : ownerOf env' = ownerOf env) by reflexivity.
  assert (Hr : repoOf env' = repoOf env) by reflexivity.
  assert (Hpost : forall a, postAnswer env' w a = postAnswer env w a) by reflexivity.
  assert (Hline : postedLine env' = postedLine env) by reflexivity.
  destruct (main_path env w); destruct (main_path env' w);
    rewrite ?Hc, ?Hid, ?Hrepo, ?Ho, ?Hr, ?same_answer, ?Hpost in *;
    try congruence;
    unfold trace; cbn [fst snd];
    rewrite ?map_app, ?secrets_prelude, ?secrets_located, ?secrets_listed,
      ?secrets_requested, ?secrets_reported, ?Hline;
    (split; [congruence|]).
  all: try reflexivity.
  all: repeat match goal with
       | H1 : ?x = Rejected ?a, H2 : ?x = Rejected ?b |- _ =>
           assert (b = a) as -> by congruence; clear H2
       | H1 : ?x = Resolved ?a, H2 : ?x = Resolved ?b |- _ =>
           assert (b = a) as -> by congruence; clear H2
       | H1 : ?x = Throw ?a, H2 : ?x = Throw ?b |- _ =>
           assert (b = a) as -> by congruence; clear H2
       | H1 : ?x = Normal ?a, H2 : ?x = Normal ?b |- _ =>
           assert (b = a) as -> by congruence; clear H2
       end.
  all: rewrite ?secrets_reported; reflexivity.
Qed.

End Secrets.

Lemma redact_not_send (l : list event) :
  filter (fun e => negb (isSend e)) (map redact l)
  = filter (fun e => negb (isSend e)) l.
Proof.
  induction l as [|e l IH]; [reflexivity|].
  cbn [map filter]. rewrite IH. now destruct e.
Qed.

(** X13: the AWS secrets reach the Bedrock client and nothing else.  Two
    runs that differ only in the values of [AWS_ACCESS_KEY_ID],
    [AWS_SECRET_ACCESS_KEY] and [AWS_SESSION_TOKEN] (each key present in
    both runs or in neither), against services that answer alike, end the
    same way and produce the same events: the same console lines, the same
    GitHub calls, the same comment; only the credentials inside the request
    to the model differ. *)
Theorem secrets_only_reach_the_model_client (env : Env) (w : World)
    (accessKey secretKey sessionTok : option string) :
  truthy accessKey = truthy (AWS_ACCESS_KEY_ID env) ->
  truthy secretKey = truthy (AWS_SECRET_ACCESS_KEY env) ->
  sendAnswer (with_secrets env accessKey secretKey sessionTok) w = sendAnswer env w ->
  let other := main (with_secrets env accessKey secretKey sessionTok) w in
  fst other = fst (main env w) /\
  exit_status other = exit_status (main env w) /\
  map redact (trace other) = map redact (trace (main env w)) /\
  filter (fun e => negb (isSend e)) (trace other)
  = filter (fun e => negb (isSend e)) (trace (main env w)).
Proof.
  intros Ha Hs Hanswer other.
  destruct (secrets_run env accessKey secretKey sessionTok w Ha Hs Hanswer)
    as [Hfst Htrace].
  fold other in Hfst, Htrace.
  split; [exact Hfst|]. split; [unfold exit_status; now rewrite Hfst|].
  split; [exact Htrace|].
  rewrite <- (redact_not_send (trace other)), Htrace. apply redact_not_send.
Qed.

Lemma secrets_only_reach_the_model_client_witness :
  filter (fun e => negb (isSend e))
    (trace (main (with_secrets Sample.env (Some "AKIA2") (Some "hunter2") (Some "st"))
              (Sample.world [Sample.build])))
  = filter (fun e => negb (isSend e))
      (trace (main Sample.env (Sample.world [Sample.build]))).
Proof.
  refine (proj2 (proj2 (proj2
            (secrets_only_reach_the_model_client Sample.env
               (Sample.world [Sample.build]) (Some "AKIA2") (Some "hunter2")
               (Some "st") _ _ _)))); reflexivity.
Defined.

(** * Properties of the issue-revision script *)


Lemma isWip_spec (env : IH.Env) :
  IH.isWip env = true <->
  exists body, IH.ISSUE_BODY env = Some body /\ substring_of "WIP" body.
Proof.
  unfold IH.isWip, truthy. destruct (IH.ISSUE_BODY env) as [body|]; cbn [str_of_env].
  - rewrite andb_true_iff, includes_spec. split.
    + intros [_ H]. eauto.
    + intros (b & [= <-] & H). split; [|exact H].
      destruct H as (p & q & ->). destruct p; reflexivity.
  - split; [discriminate | intros (b & [=] & _)].
Qed.

Ltac issue_run :=
  unfold IH.main, IH.main_try, IH.isWip, IH.calls, IH.exit_status in *;
  repeat match goal with
  | H : andb _ _ = true |- _ => apply andb_prop in H as [? ?]
  | H : andb _ _ = false |- _ => apply andb_false_iff in H
  | H : ?x = _ |- context [?x] => rewrite H
  | _ => progress cbn [negb fst snd Script.bind Script.ret Script.emit Script.call
                         Script.throw Script.lift Script.process_exit
                         Script.try_catch app filter IH.isCall]
  end.

Lemma issue_skip_run (env : IH.Env) (w : IH.World) :
  IH.isWip env = false ->
  exists line, IH.main env w = (Normal tt, [IH.ConsoleLog line]).
Proof.
  intros Hwip. unfold IH.isWip in Hwip.
  unfold IH.main, IH.main_try.
  destruct (truthy (IH.ISSUE_BODY env)); cbn [negb andb] in *.
  - rewrite Hwip. cbn. eexists. reflexivity.
  - cbn. eexists. reflexivity.
Qed.

(** X14: an issue whose text is missing, empty or without the letters
    [WIP] (in capitals, anywhere in the text) is left alone: the run logs
    one line and ends with status 0 without reading a file or calling a
    service. *)
Theorem issue_without_wip_is_skipped (env : IH.Env) (w : IH.World) :
  IH.isWip env = false ->
  (exists line, IH.main env w = (Normal tt, [IH.ConsoleLog line])) /\
  IH.exit_status (IH.main env w) = 0%Z /\
  IH.calls (IH.main env w) = [].
Proof.
  intros Hwip. destruct (issue_skip_run env w Hwip) as (line & Hrun).
  split; [now exists line|]. rewrite Hrun. split; reflexivity.
Qed.

Lemma issue_without_wip_is_skipped_witness :
  IH.calls (IH.main IH.Demo.finished IH.Demo.world) = [].
Proof.
  refine (proj2 (proj2 (issue_without_wip_is_skipped IH.Demo.finished
                          IH.Demo.world _))).
  reflexivity.
Defined.



(** X16: the repository is looked at only after the model has answered.
    For an issue marked [WIP] with readable prompt files and a readable
    answer, a missing [GITHUB_REPOSITORY] ends the run with status 1 after
    the model has been called, and the issue is not updated. *)
Theorem issue_model_is_called_before_repository_is_read (env : IH.Env) (w : IH.World)
    (systemPrompt projectContext : string) (parsed : option json)
    (revisedDescription : string) :
  IH.isWip env = true ->
  IH.readFileSync w "system-prompt.txt" = Resolved systemPrompt ->
  IH.readFileSync w "project-context.txt" = Resolved projectContext ->
  IH.send w (or_default (IH.AWS_REGION env) "us-east-1")
    (IH.invokeModelCommand (IH.promptOf env systemPrompt projectContext))
  = Resolved parsed ->
  read_analysis parsed = Normal revisedDescription ->
  IH.GITHUB_REPOSITORY env = None ->
  IH.calls (IH.main env w)
  = [ IH.ReadFileSync "system-prompt.txt";
      IH.ReadFileSync "project-context.txt";
      IH.sendOf env systemPrompt projectContext ] /\
  IH.exit_status (IH.main env w) = 1%Z /\
  exists e,
    err_name e = "TypeError" /\
    last (snd (IH.main env w)) (IH.ConsoleLog "")
    = IH.ConsoleError "Error processing issue:" (Some e).
Proof.
  intros Hwip H1 H2 H3 H4 Hg. unfold IH.sendOf, IH.promptOf in *.
  issue_run. repeat split. eexists. split; cycle 1.
  - reflexivity.
  - reflexivity.
Qed.

Lemma issue_model_is_called_before_repository_is_read_witness :
  IH.exit_status (IH.main IH.Demo.homeless IH.Demo.world) = 1%Z.
Proof.
  refine (proj1 (proj2 (issue_model_is_called_before_repository_is_read
                          IH.Demo.homeless IH.Demo.world
                          "contents of system-prompt.txt"
                          "contents of project-context.txt"
                          (Some Sample.answer) "Install the module."
                          _ _ _ _ _ _))); reflexivity.
Defined.

(** X17: the target of the update.  When the run gets as far as the
    update (an issue marked [WIP], readable prompt files, a readable
    answer) with [GITHUB_REPOSITORY] set to [owner/repo], the fourth call
    is the update of the issue of that owner and repository whose number
    [parseInt] reads from [ISSUE_NUMBER]: for a decimal numeral up to
    [2 ^ 53] the number itself, for a larger one the nearest double, and
    [NaN] when the variable is undefined.  The update is attempted in all
    these cases, and the exit status is 0 exactly when it goes through. *)
Theorem issue_update_target (env : IH.Env) (w : IH.World)
    (owner repo systemPrompt projectContext : string) (parsed : option json)
    (revisedDescription : string) :
  IH.isWip env = true ->
  IH.readFileSync w "system-prompt.txt" = Resolved systemPrompt ->
  IH.readFileSync w "project-context.txt" = Resolved projectContext ->
  IH.send w (or_default (IH.AWS_REGION env) "us-east-1")
    (IH.invokeModelCommand (IH.promptOf env systemPrompt projectContext))
  = Resolved parsed ->
  read_analysis parsed = Normal revisedDescription ->
  ~ substring_of "/" owner -> ~ substring_of "/" repo ->
  IH.GITHUB_REPOSITORY env = Some (owner ++ "/" ++ repo) ->
  let issue_number := parseInt (str_of_env (IH.ISSUE_NUMBER env)) in
  IH.calls (IH.main env w)
  = [ IH.ReadFileSync "system-prompt.txt";
      IH.ReadFileSync "project-context.txt";
      IH.sendOf env systemPrompt projectContext;
      IH.IssuesUpdate owner (Some repo) issue_number revisedDescription ] /\
  (IH.exit_status (IH.main env w) = 0%Z <->
   IH.issuesUpdate w owner (Some repo) issue_number revisedDescription = Resolved tt) /\
  (forall k, IH.ISSUE_NUMBER env = Some (string_of_nat k) ->
     (Z.of_nat k <= 2 ^ 53)%Z -> issue_number = Double false (Z.of_nat k)) /\
  (forall k, IH.ISSUE_NUMBER env = Some (string_of_nat k) ->
     issue_number = number_of false (Z.of_nat k)) /\
  (IH.ISSUE_NUMBER env = Some "9007199254740993" ->
     issue_number = Double false 9007199254740992) /\
  (IH.ISSUE_NUMBER env = None -> issue_number = NaN).
Proof.
  intros Hwip H1 H2 H3 H4 Ho Hr Hg issue_number.
  assert (Hslug : owner_repo (owner ++ "/" ++ repo) = (owner, Some repo)).
  { unfold owner_repo. cbn [append].
    rewrite split_app_sep, !split_without_sep by assumption. reflexivity. }
  split; [|split].
  - unfold IH.sendOf, IH.promptOf in *. subst issue_number. issue_run.
    destruct (IH.issuesUpdate w owner (Some repo) _ revisedDescription) as [[]|e];
      issue_run; reflexivity.
  - unfold IH.sendOf, IH.promptOf in *. subst issue_number. issue_run.
    destruct (IH.issuesUpdate w owner (Some repo) _ revisedDescription) as [[]|e];
      issue_run; split; (reflexivity || discriminate).
  - subst issue_number. repeat split.
    + intros k Hk Hsmall. rewrite Hk. cbn [str_of_env]. now apply parseInt_decimal.
    + intros k Hk. rewrite Hk. cbn [str_of_env]. apply parseInt_numeral.
    + intros Hn. rewrite Hn. reflexivity.
    + intros Hn. rewrite Hn. reflexivity.
Qed.

Lemma issue_update_target_witness :
  IH.calls (IH.main IH.Demo.env IH.Demo.world)
  = [ IH.ReadFileSync "system-prompt.txt";
      IH.ReadFileSync "project-context.txt";
      IH.sendOf IH.Demo.env "contents of system-prompt.txt"
        "contents of project-context.txt";
      IH.IssuesUpdate "octo" (Some "demo") (Double false 7) "Install the module." ].
Proof.
  refine (proj1 (issue_update_target IH.Demo.env IH.Demo.world "octo" "demo"
                   "contents of system-prompt.txt" "contents of project-context.txt"
                   (Some Sample.answer) "Install the module." _ _ _ _ _ _ _ _)).
  - reflexivity.
  - reflexivity.
  - reflexivity.
  - reflexivity.
  - reflexivity.
  - apply includes_false. reflexivity.
  - apply includes_false. reflexivity.
  - reflexivity.
Defined.

Lemma fullPrompt_parts (systemPrompt projectContext issueBody : string) :
  starts_with (IH.fullPrompt systemPrompt projectContext issueBody) systemPrompt /\
  substring_of projectContext (IH.fullPrompt systemPrompt projectContext issueBody) /\
  substring_of issueBody (IH.fullPrompt systemPrompt projectContext issueBody).
Proof.
  unfold IH.fullPrompt. split; [|split].
  - eexists. reflexivity.
  - find_substring.
  - find_substring.
Qed.

Lemma issue_sends (env : IH.Env) (w : IH.World) :
  filter IH.isSend (snd (IH.main env w)) = [] \/
  exists systemPrompt projectContext,
    IH.isWip env = true /\
    IH.readFileSync w "system-prompt.txt" = Resolved systemPrompt /\
    IH.readFileSync w "project-context.txt" = Resolved projectContext /\
    filter IH.isSend (snd (IH.main env w)) = [IH.sendOf env systemPrompt projectContext].
Proof.
  destruct (IH.isWip env) eqn:Hwip.
  2:{ left. destruct (issue_skip_run env w Hwip) as (line & ->).
      reflexivity. }
  destruct (IH.readFileSync w "system-prompt.txt") as [sp|e1] eqn:H1.
  2:{ left. issue_run. reflexivity. }
  destruct (IH.readFileSync w "project-context.txt") as [pc|e2] eqn:H2.
  2:{ left. issue_run. reflexivity. }
  right. exists sp, pc. do 3 (split; [reflexivity|]).
  unfold IH.sendOf, IH.promptOf. issue_run.
  destruct (IH.send w _ _) as [parsed|e3]; issue_run; [|reflexivity].
  destruct (read_analysis parsed) as [revised|e4|c]; issue_run; try reflexivity.
  destruct (IH.GITHUB_REPOSITORY env) as [s|]; issue_run; [|reflexivity].
  rewrite (surjective_pairing (owner_repo s)). issue_run.
  destruct (IH.issuesUpdate w _ _ _ _) as [[]|e5]; issue_run; reflexivity.
Qed.

(** X18: whatever is sent to the model by the issue script is one request
    with a single [user] message and room for 4000 tokens; the message
    starts with the contents of [system-prompt.txt] and contains the
    contents of [project-context.txt] and the whole issue text, which
    itself contains [WIP]. *)
Theorem issue_request_embeds_files_and_issue (env : IH.Env) (w : IH.World)
    (region : string) (command : InvokeModelCommand) :
  In (IH.Send region command) (snd (IH.main env w)) ->
  exists systemPrompt projectContext issueBody prompt,
    IH.readFileSync w "system-prompt.txt" = Resolved systemPrompt /\
    IH.readFileSync w "project-context.txt" = Resolved projectContext /\
    IH.ISSUE_BODY env = Some issueBody /\
    substring_of "WIP" issueBody /\
    messages (body command) = [ {| role := "user"; content := prompt |} ] /\
    max_tokens (body command) = 4000%Z /\
    starts_with prompt systemPrompt /\
    substring_of projectContext prompt /\
    substring_of issueBody prompt.
Proof.
  intros Hin.
  assert (Hsend : In (IH.Send region command) (filter IH.isSend (snd (IH.main env w))))
    by (apply filter_In; split; [exact Hin | reflexivity]).
  destruct (issue_sends env w) as [Hnone | (sp & pc & Hwip & H1 & H2 & Hone)].
  { rewrite Hnone in Hsend. contradiction. }
  rewrite Hone in Hsend. destruct Hsend as [Heq|[]].
  unfold IH.sendOf in Heq. injection Heq as <- <-.
  apply isWip_spec in Hwip as (issueBody & Hbody & Hsub).
  unfold IH.promptOf. rewrite Hbody. cbn [str_of_env].
  exists sp, pc, issueBody, (IH.fullPrompt sp pc issueBody).
  pose proof (fullPrompt_parts sp pc issueBody) as (Hs & Hc & Hb).
  repeat (split; [assumption || reflexivity|]). exact Hb.
Qed.

Lemma issue_request_embeds_files_and_issue_witness :
  exists systemPrompt projectContext issueBody prompt,
    IH.readFileSync IH.Demo.world "system-prompt.txt" = Resolved systemPrompt /\
    IH.readFileSync IH.Demo.world "project-context.txt" = Resolved projectContext /\
    IH.ISSUE_BODY IH.Demo.env = Some issueBody /\
    substring_of "WIP" issueBody /\
    messages (body (IH.invokeModelCommand
                      (IH.promptOf IH.Demo.env "contents of system-prompt.txt"
                         "contents of project-context.txt")))
    = [ {| role := "user"; content := prompt |} ] /\
    max_tokens (body (IH.invokeModelCommand
                        (IH.promptOf IH.Demo.env "contents of system-prompt.txt"
                           "contents of project-context.txt"))) = 4000%Z /\
    starts_with prompt systemPrompt /\
    substring_of projectContext prompt /\
    substring_of issueBody prompt.
Proof.
  apply (issue_request_embeds_files_and_issue IH.Demo.env IH.Demo.world "us-east-1").
  vm_compute. tauto.
Defined.

(** * Properties of the image routes *)


Ltac route_run :=
  unfold IR.Bedrock.POST, IR.Rekognition.POST, IR.Bedrock.describe, IR.download,
    IR.replied, IR.services in *;
  repeat match goal with
  | H : ?x = _ |- context [?x] => rewrite H
  | _ => progress cbn [negb fst snd Script.bind Script.ret Script.emit Script.call
                         Script.throw Script.lift Script.process_exit
                         Script.try_catch app filter IR.isService]
  end.

(** Events are only added: a computation that has produced an event
    still has one after a [bind] or a [try]. *)
Lemma bind_keeps_events {Ev A B : Type} (m : Script.M (Ev := Ev) A)
    (k : A -> Script.M (Ev := Ev) B) :
  snd m <> [] -> snd (Script.bind m k) <> [].
Proof.
  destruct m as [[a|e|c] [|ev t]]; cbn; try congruence.
  destruct (k a). cbn. discriminate.
Qed.

Lemma try_catch_keeps_events {Ev A : Type} (m : Script.M (Ev := Ev) A)
    (handler : JsError -> Script.M (Ev := Ev) A) :
  snd m <> [] -> snd (Script.try_catch m handler) <> [].
Proof.
  destruct m as [[a|e|c] [|ev t]]; cbn; try congruence.
  destruct (handler e). cbn. discriminate.
Qed.

Lemma bind_pure_events {Ev A B : Type} (a : A) (k : A -> Script.M (Ev := Ev) B) :
  snd (Script.bind (Normal a, []) k) = snd (k a).
Proof. cbn. now destruct (k a). Qed.

Lemma download_is_not_silent (w : IR.World) (bucket : option string)
    (imageKey : option json) :
  snd (IR.download w bucket imageKey) <> [].
Proof. unfold IR.download. apply bind_keeps_events. discriminate. Qed.

(** With a usable key both routes go on, and what they do next leaves an
    event: a call to the signer, or the line on [console.error]. *)
Lemma usable_key_is_not_silent (bucket : option string) (request : response json)
    (w : IR.World) (imageKey : option json) :
  IR.read_imageKey request = (Normal imageKey, []) ->
  IR.js_truthy imageKey = true ->
  snd (IR.Bedrock.POST bucket request w) <> [] /\
  snd (IR.Rekognition.POST bucket request w) <> [].
Proof.
  intros Hkey Htruthy. split.
  - unfold IR.Bedrock.POST. rewrite Hkey. cbv zeta.
    destruct (truthy bucket) eqn:Hbucket.
    + apply try_catch_keeps_events. rewrite bind_pure_events, Htruthy.
      cbn [negb]. apply try_catch_keeps_events.
      unfold IR.Bedrock.describe. apply bind_keeps_events, download_is_not_silent.
    + cbn [Script.bind]. rewrite Htruthy. cbn. discriminate.
  - unfold IR.Rekognition.POST. rewrite Hkey.
    apply try_catch_keeps_events. rewrite bind_pure_events, Htruthy. cbn [negb].
    apply bind_keeps_events, download_is_not_silent.
Qed.
(** Without a usable key both routes answer at once. *)
Lemma required_is_silent (bucket : option string) (request : response json)
    (w : IR.World) (imageKey : option json) :
  IR.read_imageKey request = (Normal imageKey, []) ->
  IR.js_truthy imageKey = false ->
  IR.Bedrock.POST bucket request w = (Normal IR.required, []) /\
  IR.Rekognition.POST bucket request w = (Normal IR.required, []).
Proof.
  intros Hkey Hfalsy. route_run. split; reflexivity.
Qed.
(** X19: the image key is required.  Both routes answer with status 400
    and the message [Image key is required], without signing, downloading,
    analysing or logging anything, exactly when the parsed body of the
    request is a boolean, a number, a text or an array, or an object whose
    [imageKey] is missing, null, false, a number that is zero, or the
    empty text.  A body that parses to [null] is not among them: the
    destructuring throws and both routes answer with status 500. *)
Theorem routes_require_image_key (bucket : option string) (w : IR.World) (body : json) :
  ((exists b, body = JBool b) \/
   (exists literal, body = JNumber literal) \/
   (exists s, body = JString s) \/
   (exists items, body = JArray items) \/
   (exists members,
      body = JObject members /\
      (lookup "imageKey" members = None \/
       lookup "imageKey" members = Some JNull \/
       lookup "imageKey" members = Some (JBool false) \/
       lookup "imageKey" members = Some (JString "") \/
       exists literal,
         lookup "imageKey" members = Some (JNumber literal) /\
         IR.number_is_zero literal = true))
   <-> IR.Bedrock.POST bucket (Resolved body) w = (Normal IR.required, [])) /\
  (IR.Bedrock.POST bucket (Resolved body) w = (Normal IR.required, [])
   <-> IR.Rekognition.POST bucket (Resolved body) w = (Normal IR.required, [])) /\
  (body = JNull ->
   exists error,
     err_name error = "TypeError" /\
     IR.Bedrock.POST bucket (Resolved body) w
     = (Normal (IR.Bedrock.failed error),
        [IR.ConsoleError "Error analyzing image:" error]) /\
     IR.Rekognition.POST bucket (Resolved body) w
     = (Normal IR.Rekognition.failed,
        [IR.ConsoleError "Error analyzing image:" error]) /\
     IR.status (IR.Bedrock.failed error) = 500%Z /\
     IR.status IR.Rekognition.failed = 500%Z) /\
  IR.status IR.required = 400%Z /\
  IR.payload IR.required = [("error", JString "Image key is required")].
Proof.
  assert (Hcases :
    body = JNull \/
    exists imageKey,
      IR.read_imageKey (Resolved body) = (Normal imageKey, []) /\
      (IR.js_truthy imageKey = false <->
       (exists b, body = JBool b) \/
       (exists literal, body = JNumber literal) \/
       (exists s, body = JString s) \/
       (exists items, body = JArray items) \/
       (exists members,
          body = JObject members /\
          (lookup "imageKey" members = None \/
           lookup "imageKey" members = Some JNull \/
           lookup "imageKey" members = Some (JBool false) \/
           lookup "imageKey" members = Some (JString "") \/
           exists literal,
             lookup "imageKey" members = Some (JNumber literal) /\
             IR.number_is_zero literal = true)))).
  { destruct body as [|b|literal|s|items|members]; [now left|right..].
    1-4: eexists; split; [reflexivity|]; split; [intros _|reflexivity]; eauto 6.
    exists (lookup "imageKey" members). split; [reflexivity|]. split.
    - intros Hfalsy. do 4 right. exists members. split; [reflexivity|].
      destruct (lookup "imageKey" members) as [[|[]|literal|s|items|inner]|];
        cbn in Hfalsy; try discriminate; auto.
      + do 4 right. exists literal. split; [reflexivity|].
        now apply negb_false_iff in Hfalsy.
      + destruct s; [auto 6|discriminate].
    - intros [(b & [=])|[(l & [=])|[(s & [=])|[(i & [=])|(m & [= <-] & Hkey)]]]].
      destruct Hkey as [->|[->|[->|[->|(literal & -> & Hzero)]]]];
        try reflexivity.
      cbn. now rewrite Hzero. }
  split; [|split; [|split; [|split; reflexivity]]].
  - destruct Hcases as [->|(imageKey & Hkey & Hiff)].
    + split; [|discriminate].
      intros [(b & [=])|[(l & [=])|[(s & [=])|[(i & [=])|(m & [=] & _)]]]].
    + rewrite <- Hiff. split.
      * intros Hfalsy. now apply (required_is_silent bucket _ w imageKey).
      * intros Hrun. destruct (IR.js_truthy imageKey) eqn:Htruthy; [|reflexivity].
        destruct (usable_key_is_not_silent bucket _ w imageKey Hkey Htruthy)
          as [Hevents _].
        rewrite Hrun in Hevents. now contradiction Hevents.
  - destruct Hcases as [->|(imageKey & Hkey & _)]; [split; discriminate|].
    destruct (IR.js_truthy imageKey) eqn:Htruthy.
    + destruct (usable_key_is_not_silent bucket _ w imageKey Hkey Htruthy)
        as [Hb Hr].
      split; intros Hrun; rewrite Hrun in *; cbn in *; congruence.
    + destruct (required_is_silent bucket _ w imageKey Hkey Htruthy) as [Hb Hr].
      split; intros _; assumption.
  - intros ->. eexists.
    split; [|split; [reflexivity|split; [reflexivity|split; reflexivity]]].
    reflexivity.
Qed.

Lemma routes_require_image_key_witness :
  IR.Bedrock.POST (Some "bucket") (Resolved (JObject [("imageKey", JNumber "0.0")]))
    IR.Demo.world
  = (Normal IR.required, []).
Proof.
  apply (proj1 (routes_require_image_key (Some "bucket") IR.Demo.world
                  (JObject [("imageKey", JNumber "0.0")]))).
  do 4 right. exists [("imageKey", JNumber "0.0")]. split; [reflexivity|].
  do 4 right. exists "0.0". split; reflexivity.
Defined.

(** X20: in the Bedrock route a missing or empty [S3_BUCKET_NAME] is
    reported to the client: status 500 with the details [S3_BUCKET_NAME
    environment variable is not set], after a line on [console.error] and
    without any call to a service. *)
Theorem bedrock_route_needs_bucket (bucket : option string) (request : response json)
    (w : IR.World) (imageKey : option json) :
  IR.read_imageKey request = (Normal imageKey, []) ->
  IR.js_truthy imageKey = true ->
  truthy bucket = false ->
  exists error,
    err_message error = "S3_BUCKET_NAME environment variable is not set" /\
    IR.Bedrock.POST bucket request w
    = (Normal (IR.Bedrock.failed error),
       [IR.ConsoleError "Error analyzing image:" error]) /\
    IR.status (IR.Bedrock.failed error) = 500%Z /\
    IR.payload (IR.Bedrock.failed error)
    = [ ("error", JString "Failed to analyze image");
        ("details", JString "S3_BUCKET_NAME environment variable is not set") ].
Proof.
  intros Hkey Htruthy Hbucket.
  exists (IR.Error "S3_BUCKET_NAME environment variable is not set").
  route_run. repeat split; reflexivity.
Qed.

Lemma bedrock_route_needs_bucket_witness :
  exists error,
    err_message error = "S3_BUCKET_NAME environment variable is not set" /\
    IR.Bedrock.POST None IR.Demo.request IR.Demo.world
    = (Normal (IR.Bedrock.failed error),
       [IR.ConsoleError "Error analyzing image:" error]) /\
    IR.status (IR.Bedrock.failed error) = 500%Z /\
    IR.payload (IR.Bedrock.failed error)
    = [ ("error", JString "Failed to analyze image");
        ("details", JString "S3_BUCKET_NAME environment variable is not set") ].
Proof.
  apply (bedrock_route_needs_bucket None IR.Demo.request IR.Demo.world
           (Some (JString "cat.jpg"))); reflexivity.
Defined.

(** X21: in the Bedrock route an error thrown while the image is signed,
    downloaded or described is answered by its name: [NoSuchKey] gives
    status 404 with [Image not found in S3 bucket] and is not logged; any
    other error is logged and gives status 500 with the message of the
    error as details. *)
Theorem bedrock_route_maps_errors (bucket : option string) (request : response json)
    (w : IR.World) (imageKey : option json) (error : JsError) :
  IR.read_imageKey request = (Normal imageKey, []) ->
  IR.js_truthy imageKey = true ->
  truthy bucket = true ->
  fst (IR.Bedrock.describe w (str_of_env bucket) imageKey) = Throw error ->
  (err_name error = "NoSuchKey" ->
   IR.Bedrock.POST bucket request w
   = (Normal IR.Bedrock.not_found,
      snd (IR.Bedrock.describe w (str_of_env bucket) imageKey)) /\
   IR.status IR.Bedrock.not_found = 404%Z /\
   IR.payload IR.Bedrock.not_found = [("error", JString "Image not found in S3 bucket")]) /\
  (err_name error <> "NoSuchKey" ->
   IR.Bedrock.POST bucket request w
   = (Normal (IR.Bedrock.failed error),
      (snd (IR.Bedrock.describe w (str_of_env bucket) imageKey)
       ++ [IR.ConsoleError "Error analyzing image:" error])%list) /\
   IR.status (IR.Bedrock.failed error) = 500%Z /\
   IR.payload (IR.Bedrock.failed error)
   = [ ("error", JString "Failed to analyze image");
       ("details", JString (err_message error)) ]).
Proof.
  intros Hkey Htruthy Hbucket Hthrow.
  unfold IR.Bedrock.POST. rewrite Hkey.
  cbn [Script.bind Script.try_catch]. rewrite Htruthy, Hbucket. cbn [negb].
  destruct (IR.Bedrock.describe w (str_of_env bucket) imageKey) as [o t].
  cbn [fst snd] in *. subst o. split.
  - intros Hname. cbn [Script.try_catch]. rewrite Hname. cbn.
    rewrite !app_nil_r. repeat split; reflexivity.
  - intros Hname. apply String.eqb_neq in Hname.
    cbn [Script.try_catch]. rewrite Hname. cbn.
    rewrite !app_nil_r. repeat split; reflexivity.
Qed.

Lemma bedrock_route_maps_errors_witness :
  IR.Bedrock.POST (Some "bucket") IR.Demo.request IR.Demo.missing
  = (Normal IR.Bedrock.not_found,
     snd (IR.Bedrock.describe IR.Demo.missing "bucket" (Some (JString "cat.jpg")))).
Proof.
  refine (proj1 (proj1 (bedrock_route_maps_errors (Some "bucket") IR.Demo.request
                          IR.Demo.missing (Some (JString "cat.jpg"))
                          (mkError "NoSuchKey" "The specified key does not exist.")
                          _ _ _ _) _)); reflexivity.
Defined.

(** X22: the Bedrock route checks the download.  When the signed URL
    answers with a status that is not [ok], the body is not read and the
    model is not called: the client gets status 500 with the details
    [Failed to download image:] and the status text, and never 404. *)
Theorem bedrock_route_checks_download (bucket : option string)
    (request : response json) (w : IR.World) (imageKey : option json)
    (url : string) (imageResponse : IR.FetchResponse) :
  IR.read_imageKey request = (Normal imageKey, []) ->
  IR.js_truthy imageKey = true ->
  truthy bucket = true ->
  IR.getSignedUrl w (Some (str_of_env bucket)) (IR.key_of imageKey) 3600 = Resolved url ->
  IR.fetch w url = Resolved imageResponse ->
  IR.ok imageResponse = false ->
  let error := IR.Error ("Failed to download image: " ++ IR.statusText imageResponse) in
  IR.Bedrock.POST bucket request w
  = (Normal (IR.Bedrock.failed error),
     [ IR.GetSignedUrl (Some (str_of_env bucket)) (IR.key_of imageKey) 3600;
       IR.Fetch url;
       IR.ConsoleError "Error analyzing image:" error ]) /\
  IR.status (IR.Bedrock.failed error) = 500%Z /\
  IR.payload (IR.Bedrock.failed error)
  = [ ("error", JString "Failed to analyze image");
      ("details",
       JString ("Failed to download image: " ++ IR.statusText imageResponse)) ].
Proof.
  intros Hkey Htruthy Hbucket Hurl Hfetch Hok error.
  route_run. repeat split; reflexivity.
Qed.

Lemma bedrock_route_checks_download_witness :
  IR.status
    (IR.Bedrock.failed (IR.Error ("Failed to download image: " ++ "Forbidden")))
  = 500%Z.
Proof.
  refine (proj1 (proj2 (bedrock_route_checks_download (Some "bucket") IR.Demo.request
                          IR.Demo.forbidden (Some (JString "cat.jpg"))
                          "https://bucket/cat.jpg?sig"
                          {| IR.ok := false; IR.statusText := "Forbidden";
                             IR.arrayBuffer := Resolved ["060"; "063"]%char |}
                          _ _ _ _ _ _))); reflexivity.
Defined.

(** X23: the Rekognition route does not check the download.  Whatever
    the status of the answer to the signed URL, its body is read and sent
    to Rekognition with at most 10 labels of confidence 70 or more, and
    the client gets status 200 with the description made of the labels. *)
Theorem rekognition_route_ignores_download_status (bucket : option string)
    (request : response json) (w : IR.World) (imageKey : option json)
    (url : string) (imageResponse : IR.FetchResponse) (bytes : list ascii)
    (Labels : option (list IR.Label)) :
  IR.read_imageKey request = (Normal imageKey, []) ->
  IR.js_truthy imageKey = true ->
  IR.getSignedUrl w bucket (IR.key_of imageKey) 3600 = Resolved url ->
  IR.fetch w url = Resolved imageResponse ->
  IR.arrayBuffer imageResponse = Resolved bytes ->
  IR.detectLabels w bytes 10 70 = Resolved Labels ->
  IR.Rekognition.POST bucket request w
  = (Normal {| IR.status := 200;
               IR.payload :=
                 [("description", JString (IR.Rekognition.describe_labels Labels))] |},
     [ IR.GetSignedUrl bucket (IR.key_of imageKey) 3600;
       IR.Fetch url;
       IR.ReadArrayBuffer;
       IR.DetectLabels bytes 10 70 ]).
Proof.
  intros Hkey Htruthy Hurl Hfetch Hbytes Hlabels. route_run. reflexivity.
Qed.

Lemma rekognition_route_ignores_download_status_witness :
  IR.replied (IR.Rekognition.POST (Some "bucket") IR.Demo.request IR.Demo.forbidden)
  = Some {| IR.status := 200;
            IR.payload :=
              [("description", JString "No objects were detected in this image.")] |}.
Proof.
  rewrite (rekognition_route_ignores_download_status (Some "bucket") IR.Demo.request
             IR.Demo.forbidden (Some (JString "cat.jpg"))
             "https://bucket/cat.jpg?sig"
             {| IR.ok := false; IR.statusText := "Forbidden";
                IR.arrayBuffer := Resolved ["060"; "063"]%char |}
             ["060"; "063"]%char None); reflexivity.
Defined.

(** ** The answers of the routes *)

Lemma read_imageKey_cases (request : response json) :
  (exists imageKey, IR.read_imageKey request = (Normal imageKey, [])) \/
  (exists error, IR.read_imageKey request = (Throw error, [])).
Proof.
  unfold IR.read_imageKey. destruct request as [[]|e]; cbn; eauto.
Qed.

(** X24: the Rekognition route always answers, and with one of three
    answers only: status 400 for a missing key, status 200 with a
    description, or status 500 with the fixed message [Failed to analyze
    image].  The answer is the 500 one exactly when an error was logged,
    and it never carries the message of the error. *)
Theorem rekognition_route_answers (bucket : option string) (request : response json)
    (w : IR.World) :
  exists answer events,
    IR.Rekognition.POST bucket request w = (Normal answer, events) /\
    (answer = IR.required /\ events = [] \/
     (exists Labels,
        answer = {| IR.status := 200;
                    IR.payload :=
                      [("description",
                        JString (IR.Rekognition.describe_labels Labels))] |}) /\
     existsb (fun e => negb (IR.isService e)) events = false \/
     answer = {| IR.status := 500;
                 IR.payload := [("error", JString "Failed to analyze image")] |} /\
     exists error, last events IR.ReadArrayBuffer
                   = IR.ConsoleError "Error analyzing image:" error).
Proof.
  unfold IR.Rekognition.POST.
  destruct (read_imageKey_cases request) as [(imageKey & ->) | (e & ->)].
  2:{ cbn. do 2 eexists. split; [reflexivity|]. right. right. split; [reflexivity|]. eexists. reflexivity. }
  cbn [Script.bind]. destruct (IR.js_truthy imageKey); cbn [negb].
  2:{ cbn. do 2 eexists. split; [reflexivity|]. now left. }
  unfold IR.download.
  destruct (IR.getSignedUrl w bucket (IR.key_of imageKey) 3600) as [url|e].
  2:{ cbn. do 2 eexists. split; [reflexivity|]. right. right. split; [reflexivity|]. eexists. reflexivity. }
  cbn [Script.call Script.bind].
  destruct (IR.fetch w url) as [fr|e].
  2:{ cbn. do 2 eexists. split; [reflexivity|]. right. right. split; [reflexivity|]. eexists. reflexivity. }
  cbn [Script.call Script.bind].
  destruct (IR.arrayBuffer fr) as [bytes|e].
  2:{ cbn. do 2 eexists. split; [reflexivity|]. right. right. split; [reflexivity|]. eexists. reflexivity. }
  cbn [Script.call Script.bind].
  destruct (IR.detectLabels w bytes 10 70) as [Labels|e].
  2:{ cbn. do 2 eexists. split; [reflexivity|]. right. right. split; [reflexivity|]. eexists. reflexivity. }
  cbn. do 2 eexists. split; [reflexivity|]. right. left.
  split; [eexists; reflexivity | reflexivity].
Qed.

Lemma describe_labels_names (labels : list IR.Label) (label : IR.Label) :
  In label labels ->
  substring_of (IR.Rekognition.name_text label)
    (String.concat ", " (map IR.Rekognition.name_text labels)).
Proof.
  intros Hin. apply in_concat_substring. now apply in_map.
Qed.

(** X25: the description of the labels.  Without labels (an absent or
    empty list) it is the sentence [No objects were detected in this
    image.]; otherwise it is [This image contains: ] followed by the names
    in the order of the answer, separated by a comma and a space, so that
    every name occurs in it; a label without a name leaves an empty
    place. *)
Theorem describe_labels_lists_names (Labels : option (list IR.Label)) :
  (Labels = None \/ Labels = Some [] ->
   IR.Rekognition.describe_labels Labels = "No objects were detected in this image.") /\
  (forall first rest,
     Labels = Some (first :: rest) ->
     IR.Rekognition.describe_labels Labels
     = "This image contains: "
       ++ join ", " (map IR.Rekognition.name_text (first :: rest)) /\
     starts_with (IR.Rekognition.describe_labels Labels)
       ("This image contains: " ++ IR.Rekognition.name_text first) /\
     forall label name,
       In label (first :: rest) -> IR.Name label = Some name ->
       substring_of name (IR.Rekognition.describe_labels Labels)) /\
  (forall name, IR.Rekognition.describe_labels (Some [IR.mkLabel (Some name)])
                = "This image contains: " ++ name) /\
  (forall a b, IR.Rekognition.describe_labels
                 (Some [IR.mkLabel (Some a); IR.mkLabel None; IR.mkLabel (Some b)])
               = "This image contains: " ++ a ++ ", , " ++ b).
Proof.
  split; [|split; [|split]].
  - intros [->| ->]; reflexivity.
  - intros first rest ->.
    assert (Heq : IR.Rekognition.describe_labels (Some (first :: rest))
                  = "This image contains: "
                    ++ join ", " (map IR.Rekognition.name_text (first :: rest)))
      by reflexivity.
    split; [exact Heq|]. rewrite Heq. split.
    + unfold join. cbn [map]. destruct rest as [|second rest].
      * exists "". cbn [String.concat map]. now rewrite append_nil_r.
      * rewrite concat_cons by discriminate.
        eexists. rewrite <- append_assoc. reflexivity.
    + intros label name Hin Hname.
      apply substring_of_append_l.
      pose proof (describe_labels_names (first :: rest) label Hin) as H.
      unfold IR.Rekognition.name_text in H at 1. now rewrite Hname in H.
  - intros name. reflexivity.
  - intros a b. reflexivity.
Qed.

Lemma describe_labels_lists_names_witness :
  IR.Rekognition.describe_labels (Some [IR.mkLabel (Some "Cat"); IR.mkLabel (Some "Pet")])
  = "This image contains: Cat, Pet".
Proof.
  rewrite (proj1 (proj1 (proj2 (describe_labels_lists_names
                                  (Some [IR.mkLabel (Some "Cat"); IR.mkLabel (Some "Pet")])))
                    (IR.mkLabel (Some "Cat")) [IR.mkLabel (Some "Pet")] eq_refl)).
  reflexivity.
Defined.

Lemma read_description_no_exit (parsed : option json) (code : Z) :
  IR.Bedrock.read_description parsed <> Exit code.
Proof.
  destruct parsed as [responseBody|]; [|discriminate].
  unfold IR.Bedrock.read_description. revert code.
  apply obind_no_exit; [intro; apply member_no_exit|]. intros c.
  apply obind_no_exit; [intro; apply index0_no_exit|]. intros first code.
  apply member_no_exit.
Qed.

Ltac describe_leaf side :=
  cbn; eexists; split; [|split]; cycle 2;
  [ side; eexists; reflexivity | reflexivity | cbn; lia ].

Lemma describe_cases (w : IR.World) (bucketName : string) (imageKey : option json) :
  exists events,
    existsb (fun e => negb (IR.isService e)) events = false /\
    List.length (filter IR.isBedrockSend events) <= 1 /\
    ((exists description,
        IR.Bedrock.describe w bucketName imageKey
        = (Normal (IR.NextResponse_json [("description", description)] 200), events)) \/
     (exists error,
        IR.Bedrock.describe w bucketName imageKey = (Throw error, events))).
Proof.
  unfold IR.Bedrock.describe, IR.download.
  destruct (IR.getSignedUrl w (Some bucketName) (IR.key_of imageKey) 3600) as [url|e].
  2:{ describe_leaf ltac:(right). }
  cbn [Script.call Script.bind].
  destruct (IR.fetch w url) as [fr|e].
  2:{ describe_leaf ltac:(right). }
  cbn [Script.call Script.bind].
  destruct (IR.ok fr); cbn [negb].
  2:{ describe_leaf ltac:(right). }
  destruct (IR.arrayBuffer fr) as [bytes|e].
  2:{ describe_leaf ltac:(right). }
  cbn [Script.call Script.bind].
  destruct (IR.bedrockSend w (IR.Bedrock.command (IR.base64 bytes))) as [parsed|e].
  2:{ describe_leaf ltac:(right). }
  cbn [Script.call Script.bind Script.lift].
  destruct (IR.Bedrock.read_description parsed) as [d|e|c] eqn:Hd.
  - describe_leaf ltac:(left).
  - describe_leaf ltac:(right).
  - now apply read_description_no_exit in Hd.
Qed.

(** X26: the Bedrock route always answers, with status 200, 400, 404 or
    500.  It answers 500 exactly when it logged an error, it calls the
    model at most once, and the answers 400 and 404 are given without a
    line on [console.error]. *)
Theorem bedrock_route_answers (bucket : option string) (request : response json)
    (w : IR.World) :
  exists answer events,
    IR.Bedrock.POST bucket request w = (Normal answer, events) /\
    In (IR.status answer) [200; 400; 404; 500]%Z /\
    (IR.status answer = 500%Z <->
     existsb (fun e => negb (IR.isService e)) events = true) /\
    List.length (filter IR.isBedrockSend events) <= 1.
Proof.
  unfold IR.Bedrock.POST.
  destruct (read_imageKey_cases request) as [(imageKey & ->) | (e & ->)].
  2:{ cbn. do 2 eexists. split; [reflexivity|]. cbn. intuition lia. }
  cbn [Script.bind]. destruct (IR.js_truthy imageKey); cbn [negb].
  2:{ cbn. do 2 eexists. split; [reflexivity|]. cbn.
      intuition (lia || discriminate). }
  destruct (truthy bucket); cbn [negb].
  2:{ cbn. do 2 eexists. split; [reflexivity|]. cbn. intuition lia. }
  destruct (describe_cases w (str_of_env bucket) imageKey)
    as (t & Hquiet & Hone & [(d & ->) | (e & ->)]).
  - cbn. rewrite ?app_nil_r. do 2 eexists. split; [reflexivity|]. cbn [IR.status].
    rewrite Hquiet. split; [cbn; tauto|]. split; [split; discriminate|exact Hone].
  - cbn [Script.try_catch]. destruct (err_name e =? "NoSuchKey").
    + cbn. rewrite ?app_nil_r. do 2 eexists. split; [reflexivity|]. cbn [IR.status].
      rewrite Hquiet. split; [cbn; tauto|]. split; [split; discriminate|exact Hone].
    + cbn. rewrite ?app_nil_r. do 2 eexists. split; [reflexivity|].
      rewrite existsb_app, filter_app, length_app, Hquiet. cbn.
      split; [tauto|]. split; [split; reflexivity|lia].
Qed.

(** ** What the Bedrock route sends and returns *)



